(** * A shallow embedding of the real-estate listing service

    The development follows the layers of the repository:

    - [Js]       the JavaScript values the handlers manipulate (request
                 bodies, query strings, [parseInt], truthiness, object
                 spread without a key);
    - [Schema]   the tables of [shared/schema.ts] as records, one module per
                 table so that the columns keep their names;
    - [Drizzle]  the fragment of the query builder used by [server/storage.ts]:
                 conditions [eq], [gte], [lte], [and] with SQL's three-valued
                 logic, [select ... where], [orderBy(desc ...)], [insert];
    - [Zod]      the validation schemas ([propertyFilterSchema],
                 [insertUserSchema], [loginSchema], the profile [updateSchema]);
    - [Storage]  the methods of [DatabaseStorage];
    - [Auth]     the passport local strategy and session (de)serialisation;
    - [Routes]   the handlers of [registerRoutes];
    - [Spec]     the conditions and invariants of the specification, in its
                 own words, to state the theorems with;
    - [Sample]   rows of the seeding script and stand-ins for the libraries,
                 for the closed examples;
    - [History]  sequences of calls on the saved properties.

    The theorems come after the definitions, by subject: listing
    properties, saving and unsaving, ordered listings, the property
    invariant, users (registering and logging in), updating a profile.

    Modelling conventions.  Integer columns and JavaScript integers are
    mathematical integers ([Z]); [NaN] is explicit, and [parseInt] rounds
    to the nearest double.  An [integer] column holds 32 bits: where a
    method binds a number that a request can choose (an identifier of the
    path, a bound of the filter, a column of an inserted property),
    PostgreSQL refuses a value outside that range and the method throws
    ([Storage.parameters]); an identifier that the code reads from a stored
    row (the session user's, the row a look-up found) is a value of its
    column and is bound as it is.  The count of a LIMIT is a [bigint]
    ([Drizzle.limit]).  Timestamps are [Z] (milliseconds);
    [defaultNow()] reads a clock value that every operation receives as an
    argument.  A handler is a function from the server state (database and
    the client's session) to an outcome and a new state; [await] is
    sequencing.  The database driver and the session store are assumed to be
    available: the only exceptions modelled are the ones the schema itself
    declares (unique columns, the range of integer columns) and the ones
    the libraries raise on the values the code passes them. *)

From Stdlib Require Import ZArith List String Ascii Bool Lia.
From Stdlib Require Import Permutation Sorting.Sorted.
Import ListNotations.

Set Warnings "-register-all".
Local Open Scope string_scope.
Local Open Scope list_scope.
Local Open Scope Z_scope.

(* ===================================================================== *)
(** * JavaScript values *)
(* ===================================================================== *)

Module Js.

(** A JavaScript number, as far as this program uses them: an integer or
    [NaN].  [Infinity] is not modelled: an integer beyond the largest double
    stands for itself, and is refused like [Infinity] wherever the program
    binds it to a query. *)
Inductive number : Type :=
| NaN
| Num (z : Z).

Inductive value : Type :=
| Undefined
| Null
| Bool (b : bool)
| Number (n : number)
| Str (s : string)
| Arr (items : list value)
| Obj (fields : list (string * value)).

(** An object is its list of own properties, in insertion order. *)
Definition object := list (string * value).

(** [if (v)]: JavaScript truthiness. *)
Definition truthy (v : value) : bool :=
  match v with
  | Undefined | Null => false
  | Bool b => b
  | Number NaN => false
  | Number (Num z) => negb (z =? 0)
  | Str s => negb (s =? "")%string
  | Arr _ | Obj _ => true
  end.

(** [o.k]: property read; an absent property reads as [undefined]. *)
Fixpoint get (k : string) (o : object) : value :=
  match o with
  | [] => Undefined
  | (k', v) :: rest => if (k' =? k)%string then v else get k rest
  end.

(** [o.k = v]: property write; a new property goes last. *)
Fixpoint set (k : string) (v : value) (o : object) : object :=
  match o with
  | [] => [(k, v)]
  | (k', v') :: rest =>
      if (k' =? k)%string then (k', v) :: rest else (k', v') :: set k v rest
  end.

(** [const { k, ...rest } = o]: the object without property [k]. *)
Definition omit (k : string) (o : object) : object :=
  filter (fun kv => negb (fst kv =? k)%string) o.

(** [a === b] on primitives.  Objects and arrays compare by reference,
    which the program never relies on; they are reported as different. *)
Definition strict_eq (a b : value) : bool :=
  match a, b with
  | Undefined, Undefined => true
  | Null, Null => true
  | Bool x, Bool y => Bool.eqb x y
  | Number (Num x), Number (Num y) => x =? y
  | Str x, Str y => (x =? y)%string
  | _, _ => false
  end.

Definition isNaN (n : number) : bool :=
  match n with NaN => true | Num _ => false end.

(** ** [parseInt(s)] without a radix argument *)

(** Leading white space is skipped: of JavaScript's white space, the code
    units a string of this model can hold are TAB, LF, VT, FF, CR, SPACE
    and the no-break space U+00A0. *)
Definition is_space (c : ascii) : bool :=
  let n := nat_of_ascii c in
  (Nat.eqb n 32 || Nat.eqb n 160 || (Nat.leb 9 n && Nat.leb n 13))%bool.

Fixpoint skip_space (s : string) : string :=
  match s with
  | String c rest => if is_space c then skip_space rest else s
  | EmptyString => s
  end.

(** Value of a character as a digit in bases up to 36. *)
Definition digit_value (c : ascii) : option Z :=
  let n := Z.of_nat (nat_of_ascii c) in
  if (48 <=? n) && (n <=? 57) then Some (n - 48)
  else if (97 <=? n) && (n <=? 122) then Some (n - 87)
  else if (65 <=? n) && (n <=? 90) then Some (n - 55)
  else None.

(** The longest prefix of digits of the radix, as a number; [None] when
    the prefix is empty. *)
Fixpoint read_digits (radix : Z) (s : string) (acc : option Z) : option Z :=
  match s with
  | EmptyString => acc
  | String c rest =>
      match digit_value c with
      | Some d =>
          if d <? radix
          then read_digits radix rest
                 (Some (match acc with Some a => a * radix + d | None => d end))
          else acc
      | None => acc
      end
  end.

(** A number is a double: an integer of more than 53 bits is rounded to
    the nearest integer that 53 bits and an exponent can write, and to the
    even one of two that are as near. *)
Definition double (z : Z) : Z :=
  let a := Z.abs z in
  let e := Z.log2 a - 52 in
  if e <=? 0 then z
  else
    let q := Z.shiftr a e in
    let r := a - Z.shiftl q e in
    let half := Z.shiftl 1 (e - 1) in
    let q := if (half <? r) || ((r =? half) && Z.odd q) then q + 1 else q in
    Z.sgn z * Z.shiftl q e.

Definition parseInt (s : string) : number :=
  let s := skip_space s in
  let '(negative, s) :=
    match s with
    | String "-" rest => (true, rest)
    | String "+" rest => (false, rest)
    | _ => (false, s)
    end in
  let '(radix, s) :=
    match s with
    | String "0" (String "x" rest) => (16, rest)
    | String "0" (String "X" rest) => (16, rest)
    | _ => (10, s)
    end in
  match read_digits radix s None with
  | Some n => Num (double (if negative then - n else n))
  | None => NaN
  end.

End Js.

(* ===================================================================== *)
(** * The tables of [shared/schema.ts] *)
(* ===================================================================== *)

(** A nullable column is an [option]; a [notNull()] column is not.  A
    [timestamp] is the number of milliseconds since the epoch.  A string is
    the sequence of its code units, restricted to the units a [string] of
    Rocq can hold, so that [String.length] is JavaScript's [length]. *)

Module Schema.

Module Property.
Record row : Type := {
  id : Z;
  title : string;
  description : string;
  address : string;
  city : string;
  location : string;
  type : string;
  category : string;
  price : Z;
  priceUnit : string;
  displayPrice : option string;
  bedrooms : option Z;
  bathrooms : option Z;
  area : option Z;
  amenities : option (list string);
  features : option (list string);
  images : list string;
  latitude : option string;
  longitude : option string;
  builderId : option Z;
  status : string;
  featured : option bool;
  isNewLaunch : option bool;
  isExclusive : option bool;
  isReadyToMove : option bool;
  agentId : option Z
}.
End Property.

Module Enquiry.
Record row : Type := {
  id : Z;
  name : string;
  email : string;
  phone : string;
  message : string;
  propertyId : option Z;
  agentId : option Z;
  interest : option string;
  createdAt : option Z
}.
End Enquiry.

Module User.
Record row : Type := {
  id : Z;
  username : string;
  password : string;
  email : option string;
  name : option string;
  phone : option string;
  role : string;
  profileImage : option string;
  createdAt : option Z
}.
End User.

Module SavedProperty.
Record row : Type := {
  id : Z;
  userId : Z;
  propertyId : Z;
  createdAt : option Z
}.
End SavedProperty.

(** [InsertProperty]: every column but [id]; a column with a default may
    be left out ([None]), a nullable column may be left out or null. *)
Module InsertProperty.
Record t : Type := {
  title : string;
  description : string;
  address : string;
  city : string;
  location : string;
  type : string;
  category : string;
  price : Z;
  priceUnit : option string;
  displayPrice : option string;
  bedrooms : option Z;
  bathrooms : option Z;
  area : option Z;
  amenities : option (list string);
  features : option (list string);
  images : list string;
  latitude : option string;
  longitude : option string;
  builderId : option Z;
  status : option string;
  featured : option (option bool);
  isNewLaunch : option (option bool);
  isExclusive : option (option bool);
  isReadyToMove : option (option bool);
  agentId : option Z
}.
End InsertProperty.

(** [InsertEnquiry]: no [id], no [createdAt]. *)
Module InsertEnquiry.
Record t : Type := {
  name : string;
  email : string;
  phone : string;
  message : string;
  propertyId : option Z;
  agentId : option Z;
  interest : option string
}.
End InsertEnquiry.

(** [InsertUser]: the five picked columns. *)
Module InsertUser.
Record t : Type := {
  username : string;
  password : string;
  email : option string;
  name : option string;
  phone : option string
}.
End InsertUser.

(** [InsertSavedProperty]: no [id], no [createdAt]. *)
Module InsertSavedProperty.
Record t : Type := {
  userId : Z;
  propertyId : Z
}.
End InsertSavedProperty.

(** [PropertyFilter]: every field optional. *)
Module PropertyFilter.
Record t : Type := {
  category : option string;
  type : option string;
  city : option string;
  location : option string;
  minPrice : option Z;
  maxPrice : option Z;
  bedrooms : option Z;
  bathrooms : option Z;
  minArea : option Z;
  maxArea : option Z;
  status : option string;
  featured : option bool
}.

Definition empty : t :=
  {| category := None; type := None; city := None; location := None;
     minPrice := None; maxPrice := None; bedrooms := None;
     bathrooms := None; minArea := None; maxArea := None;
     status := None; featured := None |}.
End PropertyFilter.

(** [Partial<Omit<User, 'id' | 'password'>>], the argument of
    [updateUser]: a field is left out ([None]) or given, and a nullable
    column may be given as null. *)
Module UserUpdates.
Record t : Type := {
  username : option string;
  email : option (option string);
  name : option (option string);
  phone : option (option string);
  role : option string;
  profileImage : option (option string);
  createdAt : option (option Z)
}.
End UserUpdates.

(** A table: its rows in storage order and the next value of its [serial]
    primary key. *)
Record Table (R : Type) : Type := {
  rows : list R;
  serial : Z
}.
Arguments rows {R} _.
Arguments serial {R} _.

Definition empty_table {R : Type} : Table R := {| rows := []; serial := 1 |}.

Record Database : Type := {
  users : Table User.row;
  properties : Table Property.row;
  enquiries : Table Enquiry.row;
  savedProperties : Table SavedProperty.row
}.

Definition empty_database : Database :=
  {| users := empty_table; properties := empty_table;
     enquiries := empty_table; savedProperties := empty_table |}.

End Schema.

(* ===================================================================== *)
(** * The query builder *)
(* ===================================================================== *)

Module Drizzle.

Inductive SqlValue : Type :=
| SqlNull
| SqlText (s : string)
| SqlInt (z : Z)
| SqlBool (b : bool).

Definition nullable {A : Type} (inj : A -> SqlValue) (o : option A) : SqlValue :=
  match o with Some a => inj a | None => SqlNull end.

(** An operand of a condition over rows [R] is what it reads in a row: a
    column reads its field, a bound value reads the same in every row. *)
Definition Column (R : Type) : Type := R -> SqlValue.

Definition text {R : Type} (s : string) : Column R := fun _ => SqlText s.
Definition int {R : Type} (z : Z) : Column R := fun _ => SqlInt z.
Definition boolean {R : Type} (b : bool) : Column R := fun _ => SqlBool b.

(** The columns of the two sides of a join. *)
Definition left {L R : Type} (c : Column L) : Column (L * R) :=
  fun r => c (fst r).
Definition right {L R : Type} (c : Column R) : Column (L * R) :=
  fun r => c (snd r).

(** The conditions [storage.ts] builds: [eq(col, v)], [gte(col, v)],
    [lte(col, v)] and the variadic [and(...)]. *)
Inductive SQL (R : Type) : Type :=
| eq (l r : Column R)
| gte (l r : Column R)
| lte (l r : Column R)
| and (conditions : list (SQL R)).
Arguments eq {R} _ _.
Arguments gte {R} _ _.
Arguments lte {R} _ _.
Arguments and {R} _.

(** SQL comparisons are three-valued: a comparison with NULL is unknown
    ([None]). *)
Definition equal (a b : SqlValue) : option bool :=
  match a, b with
  | SqlText x, SqlText y => Some (x =? y)%string
  | SqlInt x, SqlInt y => Some (x =? y)
  | SqlBool x, SqlBool y => Some (Bool.eqb x y)
  | _, _ => None
  end.

Definition compare (cmp : Z -> Z -> bool) (a b : SqlValue) : option bool :=
  match a, b with
  | SqlInt x, SqlInt y => Some (cmp x y)
  | _, _ => None
  end.

Definition and3 (a b : option bool) : option bool :=
  match a, b with
  | Some false, _ => Some false
  | _, Some false => Some false
  | Some true, Some true => Some true
  | _, _ => None
  end.

Fixpoint eval {R : Type} (c : SQL R) (r : R) : option bool :=
  match c with
  | eq a b => equal (a r) (b r)
  | gte a b => compare Z.geb (a r) (b r)
  | lte a b => compare Z.leb (a r) (b r)
  | and conditions =>
      (fix all (cs : list (SQL R)) : option bool :=
         match cs with
         | [] => Some true
         | c' :: cs' => and3 (eval c' r) (all cs')
         end) conditions
  end.

(** [WHERE c] keeps the rows on which [c] is true (neither false nor
    unknown). *)
Definition holds {R : Type} (c : SQL R) (r : R) : bool :=
  match eval c r with Some true => true | _ => false end.

(** [db.select().from(t)] and [db.select().from(t).where(c)], in storage
    order. *)
Definition select_from {R : Type} (t : Schema.Table R) : list R :=
  Schema.rows t.

Definition select_from_where {R : Type} (t : Schema.Table R) (c : SQL R)
  : list R :=
  filter (holds c) (Schema.rows t).

(** The values of an [integer] column, PostgreSQL's [int4], and of a
    [bigint]. *)
Definition int4 (z : Z) : bool :=
  (-2147483648 <=? z) && (z <=? 2147483647).

Definition int8 (z : Z) : bool :=
  (-9223372036854775808 <=? z) && (z <=? 9223372036854775807).

(** [.limit(n)]: the builder writes a LIMIT for a number that is not
    negative, and none for a negative number or [NaN]; PostgreSQL takes the
    count as a [bigint] and refuses the query ([None]) when it does not
    fit. *)
Definition limit {R : Type} (n : Js.number) (l : list R) : option (list R) :=
  match n with
  | Js.Num z =>
      if 0 <=? z
      then if int8 z then Some (firstn (Z.to_nat z) l) else None
      else Some l
  | Js.NaN => Some l
  end.

(** [.orderBy(desc(col))] on a nullable timestamp.  In descending order
    PostgreSQL puts NULL first; [desc a b] says that a row with key [a]
    may come before a row with key [b]. *)
Definition desc (a b : option Z) : bool :=
  match a, b with
  | None, _ => true
  | Some _, None => false
  | Some x, Some y => y <=? x
  end.

(** The order among equal keys is not fixed by SQL; rows with equal keys
    are kept in storage order here. *)
Fixpoint place {R : Type} (key : R -> option Z) (r : R) (sorted : list R)
  : list R :=
  match sorted with
  | [] => [r]
  | x :: rest =>
      if desc (key r) (key x) then r :: x :: rest
      else x :: place key r rest
  end.

Fixpoint orderBy_desc {R : Type} (key : R -> option Z) (l : list R) : list R :=
  match l with
  | [] => []
  | r :: rest => place key r (orderBy_desc key rest)
  end.

(** [db.insert(t).values(v).returning()]: the row takes the next value of
    the serial key and goes last. *)
Definition insert_returning {R : Type} (make : Z -> R) (t : Schema.Table R)
  : R * Schema.Table R :=
  let r := make (Schema.serial t) in
  (r, {| Schema.rows := Schema.rows t ++ [r];
         Schema.serial := Schema.serial t + 1 |}).

(** [from(l).innerJoin(r, on)]: the pairs of rows on which [on] is true,
    by rows of [l] and, for one row of [l], by rows of [r]. *)
Definition innerJoin {L R : Type} (l : list L) (r : list R) (on : SQL (L * R))
  : list (L * R) :=
  filter (holds on) (list_prod l r).

(** [db.delete(t).where(c)] *)
Definition delete_where {R : Type} (t : Schema.Table R) (c : SQL R)
  : Schema.Table R :=
  {| Schema.rows := filter (fun r => negb (holds c r)) (Schema.rows t);
     Schema.serial := Schema.serial t |}.

(** [UNIQUE] on a nullable text column: two rows clash when both hold the
    same non-null text. *)
Definition clashes (a b : option string) : bool :=
  match a, b with
  | Some x, Some y => (x =? y)%string
  | _, _ => false
  end.

End Drizzle.

(* ===================================================================== *)
(** * Server state and asynchronous computations *)
(* ===================================================================== *)

(** The state a request can see: the database and, for the client making
    the request, the user identifier passport keeps in the session. *)
Record Server : Type := {
  database : Schema.Database;
  session : option Z
}.

(** An [async] function either returns or throws; what it did to the state
    before throwing stays done. *)
Inductive Outcome (A : Type) : Type :=
| Returned (a : A)
| Thrown (error : string).
Arguments Returned {A} _.
Arguments Thrown {A} _.

Definition Async (A : Type) : Type := Server -> Outcome A * Server.

Definition ret {A : Type} (a : A) : Async A := fun s => (Returned a, s).

Definition throw {A : Type} (e : string) : Async A := fun s => (Thrown e, s).

Definition bind {A B : Type} (m : Async A) (k : A -> Async B) : Async B :=
  fun s =>
    match m s with
    | (Returned a, s') => k a s'
    | (Thrown e, s') => (Thrown e, s')
    end.

(** [try { m } catch (error) { h }] *)
Definition try_catch {A : Type} (m : Async A) (h : string -> Async A) : Async A :=
  fun s =>
    match m s with
    | (Returned a, s') => (Returned a, s')
    | (Thrown e, s') => h e s'
    end.

Definition read {A : Type} (f : Schema.Database -> A) : Async A :=
  fun s => (Returned (f (database s)), s).

(** A query that the database may refuse ([None]): the method throws and
    nothing is changed. *)
Definition query {A : Type} (f : Schema.Database -> option A) : Async A :=
  fun s =>
    match f (database s) with
    | Some a => (Returned a, s)
    | None => (Thrown "value out of range", s)
    end.

Definition write (f : Schema.Database -> Schema.Database) : Async unit :=
  fun s => (Returned tt, {| database := f (database s); session := session s |}).

Definition set_session (u : option Z) : Async unit :=
  fun s => (Returned tt, {| database := database s; session := u |}).


Declare Scope async_scope.
Delimit Scope async_scope with async.
Notation "x <- m ;; k" := (bind m (fun x => k))
  (at level 61, m at next level, right associativity) : async_scope.
Notation "m ;;; k" := (bind m (fun _ => k))
  (at level 61, right associativity) : async_scope.
Local Open Scope async_scope.

(* ===================================================================== *)
(** * Libraries the code calls *)
(* ===================================================================== *)

(** [bcryptjs]: [hash(s, rounds)] draws a salt; [compare(s, hash)] checks a
    plaintext against a hash. *)
Class Bcrypt : Type := {
  bcrypt_hash : string -> Z -> string -> string;   (* plaintext, rounds, salt *)
  bcrypt_compare : string -> string -> bool        (* plaintext, hash *)
}.

(** The test behind [z.string().email()]. *)
Class EmailFormat : Type := {
  is_email : string -> bool
}.

(* ===================================================================== *)
(** * Validation schemas *)
(* ===================================================================== *)

Module Zod.

(** The result of [schema.safeParse(v)]; a failure lists the paths of the
    fields that were refused. *)
Inductive SafeParse (T : Type) : Type :=
| Success (data : T)
| Failure (errors : list string).
Arguments Success {T} _.
Arguments Failure {T} _.

(** A field check answers [None] when it refuses the value. *)
Definition string (v : Js.value) : option string :=
  match v with Js.Str s => Some s | _ => None end.

Definition string_min (n : nat) (v : Js.value) : option String.string :=
  match v with
  | Js.Str s => if Nat.leb n (String.length s) then Some s else None
  | _ => None
  end.

Definition string_email `{EmailFormat} (v : Js.value)
  : option String.string :=
  match v with
  | Js.Str s => if is_email s then Some s else None
  | _ => None
  end.

(** [z.number()] refuses [NaN]. *)
Definition number (v : Js.value) : option Z :=
  match v with Js.Number (Js.Num z) => Some z | _ => None end.

Definition boolean (v : Js.value) : option bool :=
  match v with Js.Bool b => Some b | _ => None end.

Definition optional {A : Type} (check : Js.value -> option A) (v : Js.value)
  : option (option A) :=
  match v with
  | Js.Undefined => Some None
  | _ => option_map Some (check v)
  end.

(** [.nullable().optional()], with null and absent both read as no
    value: the insert treats them alike. *)
Definition nullish {A : Type} (check : Js.value -> option A) (v : Js.value)
  : option (option A) :=
  match v with
  | Js.Undefined | Js.Null => Some None
  | _ => option_map Some (check v)
  end.

Definition issue {A : Type} (path : String.string) (r : option A)
  : list String.string :=
  match r with Some _ => [] | None => [path] end.

(** [propertyFilterSchema] *)
Definition propertyFilterSchema (v : Js.value)
  : SafeParse Schema.PropertyFilter.t :=
  match v with
  | Js.Obj o =>
      let category := optional string (Js.get "category" o) in
      let type := optional string (Js.get "type" o) in
      let city := optional string (Js.get "city" o) in
      let location := optional string (Js.get "location" o) in
      let minPrice := optional number (Js.get "minPrice" o) in
      let maxPrice := optional number (Js.get "maxPrice" o) in
      let bedrooms := optional number (Js.get "bedrooms" o) in
      let bathrooms := optional number (Js.get "bathrooms" o) in
      let minArea := optional number (Js.get "minArea" o) in
      let maxArea := optional number (Js.get "maxArea" o) in
      let status := optional string (Js.get "status" o) in
      let featured := optional boolean (Js.get "featured" o) in
      match category, type, city, location, minPrice, maxPrice,
            bedrooms, bathrooms, minArea, maxArea, status, featured with
      | Some category, Some type, Some city, Some location, Some minPrice,
        Some maxPrice, Some bedrooms, Some bathrooms, Some minArea,
        Some maxArea, Some status, Some featured =>
          Success
            {| Schema.PropertyFilter.category := category;
               Schema.PropertyFilter.type := type;
               Schema.PropertyFilter.city := city;
               Schema.PropertyFilter.location := location;
               Schema.PropertyFilter.minPrice := minPrice;
               Schema.PropertyFilter.maxPrice := maxPrice;
               Schema.PropertyFilter.bedrooms := bedrooms;
               Schema.PropertyFilter.bathrooms := bathrooms;
               Schema.PropertyFilter.minArea := minArea;
               Schema.PropertyFilter.maxArea := maxArea;
               Schema.PropertyFilter.status := status;
               Schema.PropertyFilter.featured := featured |}
      | _, _, _, _, _, _, _, _, _, _, _, _ =>
          Failure
            (issue "category" category ++ issue "type" type
             ++ issue "city" city ++ issue "location" location
             ++ issue "minPrice" minPrice ++ issue "maxPrice" maxPrice
             ++ issue "bedrooms" bedrooms ++ issue "bathrooms" bathrooms
             ++ issue "minArea" minArea ++ issue "maxArea" maxArea
             ++ issue "status" status ++ issue "featured" featured)
      end
  | _ => Failure [""]
  end.

(** [insertUserSchema]: [username] and [password] are required strings,
    the other three are nullable and optional; other keys are dropped. *)
Definition insertUserSchema (v : Js.value) : SafeParse Schema.InsertUser.t :=
  match v with
  | Js.Obj o =>
      let username := string (Js.get "username" o) in
      let password := string (Js.get "password" o) in
      let email := nullish string (Js.get "email" o) in
      let name := nullish string (Js.get "name" o) in
      let phone := nullish string (Js.get "phone" o) in
      match username, password, email, name, phone with
      | Some username, Some password, Some email, Some name, Some phone =>
          Success
            {| Schema.InsertUser.username := username;
               Schema.InsertUser.password := password;
               Schema.InsertUser.email := email;
               Schema.InsertUser.name := name;
               Schema.InsertUser.phone := phone |}
      | _, _, _, _, _ =>
          Failure
            (issue "username" username ++ issue "password" password
             ++ issue "email" email ++ issue "name" name
             ++ issue "phone" phone)
      end
  | _ => Failure [""]
  end.

(** [loginSchema] *)
Record Credentials : Type := {
  username : String.string;
  password : String.string
}.

Definition loginSchema (v : Js.value) : SafeParse Credentials :=
  match v with
  | Js.Obj o =>
      let username := string_min 1 (Js.get "username" o) in
      let password := string_min 1 (Js.get "password" o) in
      match username, password with
      | Some username, Some password =>
          Success {| username := username; password := password |}
      | _, _ =>
          Failure (issue "username" username ++ issue "password" password)
      end
  | _ => Failure [""]
  end.

(** [updateSchema] of the profile handler: three optional fields; other
    keys are dropped. *)
Record ProfileUpdate : Type := {
  name : option String.string;
  email : option String.string;
  phone : option String.string
}.

Definition updateSchema `{EmailFormat} (v : Js.value) : SafeParse ProfileUpdate :=
  match v with
  | Js.Obj o =>
      let name := optional (string_min 2) (Js.get "name" o) in
      let email := optional string_email (Js.get "email" o) in
      let phone := optional string (Js.get "phone" o) in
      match name, email, phone with
      | Some name, Some email, Some phone =>
          Success {| name := name; email := email; phone := phone |}
      | _, _, _ =>
          Failure (issue "name" name ++ issue "email" email
                   ++ issue "phone" phone)
      end
  | _ => Failure [""]
  end.

(** The issues as they go into a response body. *)
Definition errors_value (errors : list String.string) : Js.value :=
  Js.Arr (map Js.Str errors).

End Zod.

(* ===================================================================== *)
(** * [DatabaseStorage] *)
(* ===================================================================== *)

Module Storage.

Import Schema.

(** ** Columns *)

Definition users_id : Drizzle.Column User.row :=
  fun u => Drizzle.SqlInt (User.id u).
Definition users_username : Drizzle.Column User.row :=
  fun u => Drizzle.SqlText (User.username u).

Definition properties_id : Drizzle.Column Property.row :=
  fun p => Drizzle.SqlInt (Property.id p).
Definition properties_category : Drizzle.Column Property.row :=
  fun p => Drizzle.SqlText (Property.category p).
Definition properties_type : Drizzle.Column Property.row :=
  fun p => Drizzle.SqlText (Property.type p).
Definition properties_city : Drizzle.Column Property.row :=
  fun p => Drizzle.SqlText (Property.city p).
Definition properties_location : Drizzle.Column Property.row :=
  fun p => Drizzle.SqlText (Property.location p).
Definition properties_price : Drizzle.Column Property.row :=
  fun p => Drizzle.SqlInt (Property.price p).
Definition properties_bedrooms : Drizzle.Column Property.row :=
  fun p => Drizzle.nullable Drizzle.SqlInt (Property.bedrooms p).
Definition properties_bathrooms : Drizzle.Column Property.row :=
  fun p => Drizzle.nullable Drizzle.SqlInt (Property.bathrooms p).
Definition properties_area : Drizzle.Column Property.row :=
  fun p => Drizzle.nullable Drizzle.SqlInt (Property.area p).
Definition properties_status : Drizzle.Column Property.row :=
  fun p => Drizzle.SqlText (Property.status p).
Definition properties_featured : Drizzle.Column Property.row :=
  fun p => Drizzle.nullable Drizzle.SqlBool (Property.featured p).

Definition enquiries_id : Drizzle.Column Enquiry.row :=
  fun e => Drizzle.SqlInt (Enquiry.id e).

Definition savedProperties_userId : Drizzle.Column SavedProperty.row :=
  fun r => Drizzle.SqlInt (SavedProperty.userId r).
Definition savedProperties_propertyId : Drizzle.Column SavedProperty.row :=
  fun r => Drizzle.SqlInt (SavedProperty.propertyId r).

(** ** Replacing one table of the database *)

Definition with_users (t : Table User.row) (db : Database) : Database :=
  {| users := t; properties := properties db;
     enquiries := enquiries db; savedProperties := savedProperties db |}.


Definition with_enquiries (t : Table Enquiry.row) (db : Database) : Database :=
  {| users := users db; properties := properties db;
     enquiries := t; savedProperties := savedProperties db |}.

Definition with_savedProperties (t : Table SavedProperty.row) (db : Database)
  : Database :=
  {| users := users db; properties := properties db;
     enquiries := enquiries db; savedProperties := t |}.

(** The numbers a statement binds to [integer] columns: PostgreSQL reads
    each as a 32-bit integer and refuses the statement, before it runs, when
    one does not fit.  The methods that a route can hand a number of the
    request bind it here: [getProperty], [getEnquiry], [getProperties],
    [isPropertySaved], [createProperty].  [getUser], [updateUser],
    [getSavedProperties], [saveProperty] and [unsaveProperty] are written
    for identifiers that fit: the routes hand them the identifier of the
    session's user and identifiers that a schema or a look-up has let
    through, and the route that unsaves binds its two numbers itself
    ([Routes.delete_saved_properties]). *)
Definition parameters (bound : list Z) : Async unit :=
  if forallb Drizzle.int4 bound then ret tt
  else throw "value out of range for type integer".

(** ** User methods *)

Definition getUser (id : Z) : Async (option User.row) :=
  rows <- read (fun db =>
    Drizzle.select_from_where (users db)
      (Drizzle.eq users_id (Drizzle.int id))) ;;
  ret (hd_error rows).

Definition getUserByUsername (username : string) : Async (option User.row) :=
  rows <- read (fun db =>
    Drizzle.select_from_where (users db)
      (Drizzle.eq users_username (Drizzle.text username))) ;;
  ret (hd_error rows).

(** [db.insert(users).values(v).returning()].  [username] and [email] are
    [unique()]: the insert throws when a row already holds the username or
    the (non-null) email; the value of the serial key that the refused row
    had taken is not given again.  [role] and [createdAt] take their
    defaults. *)
Definition insert_users (v : InsertUser.t) (now : Z) : Async User.row :=
  fun s =>
    let t := users (database s) in
    if existsb
         (fun u =>
            (User.username u =? InsertUser.username v)%string
            || Drizzle.clashes (User.email u) (InsertUser.email v))
         (rows t)
    then (Thrown "duplicate key value violates unique constraint",
          {| database :=
               with_users {| rows := rows t; serial := serial t + 1 |}
                          (database s);
             session := session s |})
    else
      let '(user, t') :=
        Drizzle.insert_returning
          (fun id =>
             {| User.id := id;
                User.username := InsertUser.username v;
                User.password := InsertUser.password v;
                User.email := InsertUser.email v;
                User.name := InsertUser.name v;
                User.phone := InsertUser.phone v;
                User.role := "user";
                User.profileImage := None;
                User.createdAt := Some now |}) t in
      (Returned user,
       {| database := with_users t' (database s); session := session s |}).

Definition createUser `{Bcrypt} (salt : string) (now : Z)
    (insertUser : InsertUser.t) : Async User.row :=
  let hashedPassword := bcrypt_hash (InsertUser.password insertUser) 10 salt in
  insert_users
    {| InsertUser.username := InsertUser.username insertUser;
       InsertUser.password := hashedPassword;
       InsertUser.email := InsertUser.email insertUser;
       InsertUser.name := InsertUser.name insertUser;
       InsertUser.phone := InsertUser.phone insertUser |}
    now.

(** [.set(updates)] on one row: a field that is given replaces the
    column. *)
Definition given {A : Type} (update : option A) (old : A) : A :=
  match update with Some a => a | None => old end.

Definition set_user (updates : UserUpdates.t) (u : User.row) : User.row :=
  {| User.id := User.id u;
     User.username := given (UserUpdates.username updates) (User.username u);
     User.password := User.password u;
     User.email := given (UserUpdates.email updates) (User.email u);
     User.name := given (UserUpdates.name updates) (User.name u);
     User.phone := given (UserUpdates.phone updates) (User.phone u);
     User.role := given (UserUpdates.role updates) (User.role u);
     User.profileImage :=
       given (UserUpdates.profileImage updates) (User.profileImage u);
     User.createdAt := given (UserUpdates.createdAt updates) (User.createdAt u) |}.

Definition no_values (updates : UserUpdates.t) : bool :=
  match UserUpdates.username updates, UserUpdates.email updates,
        UserUpdates.name updates, UserUpdates.phone updates,
        UserUpdates.role updates, UserUpdates.profileImage updates,
        UserUpdates.createdAt updates with
  | None, None, None, None, None, None, None => true
  | _, _, _, _, _, _, _ => false
  end.

(** [db.update(users).set(updates).where(eq(users.id, id)).returning()].
    The builder throws on an empty [updates]; the database throws when an
    updated row takes the username or the email of another row. *)
Definition update_users (updates : UserUpdates.t) (id : Z)
  : Async (list User.row) :=
  fun s =>
    if no_values updates then (Thrown "No values to set", s)
    else
      let t := users (database s) in
      let hit := Drizzle.holds (Drizzle.eq users_id (Drizzle.int id)) in
      let updated := map (set_user updates) (filter hit (rows t)) in
      if existsb
           (fun u' =>
              existsb
                (fun other =>
                   negb (hit other)
                   && ((User.username other =? User.username u')%string
                       || Drizzle.clashes (User.email other) (User.email u')))
                (rows t))
           updated
      then (Thrown "duplicate key value violates unique constraint", s)
      else
        (Returned updated,
         {| database :=
              with_users
                {| rows := map (fun u => if hit u then set_user updates u else u)
                               (rows t);
                   serial := serial t |}
                (database s);
            session := session s |}).

Definition updateUser (id : Z) (updates : UserUpdates.t)
  : Async (option User.row) :=
  try_catch
    (userExists <- getUser id ;;
     match userExists with
     | None => ret None
     | Some _ =>
         rows <- update_users updates id ;;
         ret (hd_error rows)
     end)
    (fun error => ret None).

(** ** Property methods *)

Definition getProperty (id : Z) : Async (option Property.row) :=
  parameters [id] ;;;
  rows <- read (fun db =>
    Drizzle.select_from_where (properties db)
      (Drizzle.eq properties_id (Drizzle.int id))) ;;
  ret (hd_error rows).

(** [queryConditions.push(c)] *)
Definition push {A : Type} (l : list A) (x : A) : list A := l ++ [x].

(** [if (filter.f) queryConditions.push(mk(filter.f))] for a string field:
    an absent field and the empty string are both falsy. *)
Definition if_truthy {C : Type} (field : option string) (mk : string -> C)
    (queryConditions : list C) : list C :=
  match field with
  | Some v => if Js.truthy (Js.Str v) then push queryConditions (mk v)
              else queryConditions
  | None => queryConditions
  end.

(** [if (filter.f !== undefined) queryConditions.push(mk(filter.f))] *)
Definition if_defined {A C : Type} (field : option A) (mk : A -> C)
    (queryConditions : list C) : list C :=
  match field with
  | Some v => push queryConditions (mk v)
  | None => queryConditions
  end.

Definition queryConditions_of (filter : option PropertyFilter.t)
  : list (Drizzle.SQL Property.row) :=
  let queryConditions := [] in
  match filter with
  | Some filter =>
      let queryConditions :=
        if_truthy (PropertyFilter.category filter)
          (fun v => Drizzle.eq properties_category (Drizzle.text v))
          queryConditions in
      let queryConditions :=
        if_truthy (PropertyFilter.type filter)
          (fun v => Drizzle.eq properties_type (Drizzle.text v))
          queryConditions in
      let queryConditions :=
        if_truthy (PropertyFilter.city filter)
          (fun v => Drizzle.eq properties_city (Drizzle.text v))
          queryConditions in
      let queryConditions :=
        if_truthy (PropertyFilter.location filter)
          (fun v => Drizzle.eq properties_location (Drizzle.text v))
          queryConditions in
      let queryConditions :=
        if_defined (PropertyFilter.minPrice filter)
          (fun v => Drizzle.gte properties_price (Drizzle.int v))
          queryConditions in
      let queryConditions :=
        if_defined (PropertyFilter.maxPrice filter)
          (fun v => Drizzle.lte properties_price (Drizzle.int v))
          queryConditions in
      let queryConditions :=
        if_defined (PropertyFilter.bedrooms filter)
          (fun v => Drizzle.gte properties_bedrooms (Drizzle.int v))
          queryConditions in
      let queryConditions :=
        if_defined (PropertyFilter.bathrooms filter)
          (fun v => Drizzle.gte properties_bathrooms (Drizzle.int v))
          queryConditions in
      let queryConditions :=
        if_defined (PropertyFilter.minArea filter)
          (fun v => Drizzle.gte properties_area (Drizzle.int v))
          queryConditions in
      let queryConditions :=
        if_defined (PropertyFilter.maxArea filter)
          (fun v => Drizzle.lte properties_area (Drizzle.int v))
          queryConditions in
      let queryConditions :=
        if_truthy (PropertyFilter.status filter)
          (fun v => Drizzle.eq properties_status (Drizzle.text v))
          queryConditions in
      let queryConditions :=
        if_defined (PropertyFilter.featured filter)
          (fun v => Drizzle.eq properties_featured (Drizzle.boolean v))
          queryConditions in
      queryConditions
  | None => queryConditions
  end.

(** The numbers that the conditions of a filter bind to the integer
    columns [price], [bedrooms], [bathrooms] and [area]. *)
Definition given_integers (fields : list (option Z)) : list Z :=
  flat_map (fun field => match field with Some z => [z] | None => [] end)
           fields.

Definition parameters_of (filter : option PropertyFilter.t) : list Z :=
  match filter with
  | Some filter =>
      given_integers
        [PropertyFilter.minPrice filter; PropertyFilter.maxPrice filter;
         PropertyFilter.bedrooms filter; PropertyFilter.bathrooms filter;
         PropertyFilter.minArea filter; PropertyFilter.maxArea filter]
  | None => []
  end.

Definition getProperties (filter : option PropertyFilter.t)
  : Async (list Property.row) :=
  let queryConditions := queryConditions_of filter in
  if (0 <? List.length queryConditions)%nat
  then parameters (parameters_of filter) ;;;
       read (fun db =>
         Drizzle.select_from_where (properties db)
           (Drizzle.and queryConditions))
  else read (fun db => Drizzle.select_from (properties db)).

(** [limit] is a JavaScript number: the routes pass what [parseInt] made
    of the query string. *)
Definition getFeaturedProperties (limit : Js.number)
  : Async (list Property.row) :=
  query (fun db =>
    Drizzle.limit limit
      (Drizzle.select_from_where (properties db)
         (Drizzle.eq properties_featured (Drizzle.boolean true)))).

Definition getPropertiesByCity (city : string) (limit : Js.number)
  : Async (list Property.row) :=
  query (fun db =>
    Drizzle.limit limit
      (Drizzle.select_from_where (properties db)
         (Drizzle.eq properties_city (Drizzle.text city)))).




(** ** Enquiry methods *)

Definition getEnquiry (id : Z) : Async (option Enquiry.row) :=
  parameters [id] ;;;
  rows <- read (fun db =>
    Drizzle.select_from_where (enquiries db)
      (Drizzle.eq enquiries_id (Drizzle.int id))) ;;
  ret (hd_error rows).

Definition getEnquiries : Async (list Enquiry.row) :=
  read (fun db =>
    Drizzle.orderBy_desc Enquiry.createdAt
      (Drizzle.select_from (enquiries db))).

Definition createEnquiry (now : Z) (insertEnquiry : InsertEnquiry.t)
  : Async Enquiry.row :=
  fun s =>
    let '(enquiry, t') :=
      Drizzle.insert_returning
        (fun id =>
           {| Enquiry.id := id;
              Enquiry.name := InsertEnquiry.name insertEnquiry;
              Enquiry.email := InsertEnquiry.email insertEnquiry;
              Enquiry.phone := InsertEnquiry.phone insertEnquiry;
              Enquiry.message := InsertEnquiry.message insertEnquiry;
              Enquiry.propertyId := InsertEnquiry.propertyId insertEnquiry;
              Enquiry.agentId := InsertEnquiry.agentId insertEnquiry;
              Enquiry.interest := InsertEnquiry.interest insertEnquiry;
              Enquiry.createdAt := Some now |})
        (enquiries (database s)) in
    (Returned enquiry,
     {| database := with_enquiries t' (database s); session := session s |}).

(** ** Saved properties methods *)

(** The joined rows of [getSavedProperties], before [.map(r => r.property)]:
    [savedProperties] on the left and [properties] on the right. *)
Definition getSavedProperties_result (userId : Z) (db : Database)
  : list (SavedProperty.row * Property.row) :=
  Drizzle.orderBy_desc (fun r => SavedProperty.createdAt (fst r))
    (filter
       (Drizzle.holds
          (Drizzle.eq (Drizzle.left savedProperties_userId)
                      (Drizzle.int userId)))
       (Drizzle.innerJoin
          (rows (savedProperties db)) (rows (properties db))
          (Drizzle.eq (Drizzle.left savedProperties_propertyId)
                      (Drizzle.right properties_id)))).

Definition getSavedProperties (userId : Z) : Async (list Property.row) :=
  result <- read (getSavedProperties_result userId) ;;
  ret (map snd result).

(** The condition [and(eq(userId, u), eq(propertyId, p))] that
    [saveProperty], [unsaveProperty] and [isPropertySaved] share. *)
Definition same_pair (userId propertyId : Z) : Drizzle.SQL SavedProperty.row :=
  Drizzle.and
    [Drizzle.eq savedProperties_userId (Drizzle.int userId);
     Drizzle.eq savedProperties_propertyId (Drizzle.int propertyId)].

Definition insert_savedProperties (now : Z) (v : InsertSavedProperty.t)
  : Async SavedProperty.row :=
  fun s =>
    let '(row, t') :=
      Drizzle.insert_returning
        (fun id =>
           {| SavedProperty.id := id;
              SavedProperty.userId := InsertSavedProperty.userId v;
              SavedProperty.propertyId := InsertSavedProperty.propertyId v;
              SavedProperty.createdAt := Some now |})
        (savedProperties (database s)) in
    (Returned row,
     {| database := with_savedProperties t' (database s);
        session := session s |}).

Definition saveProperty (now : Z) (savedProperty : InsertSavedProperty.t)
  : Async SavedProperty.row :=
  existing <- read (fun db =>
    Drizzle.select_from_where (savedProperties db)
      (same_pair (InsertSavedProperty.userId savedProperty)
                 (InsertSavedProperty.propertyId savedProperty))) ;;
  match existing with
  | first :: _ => ret first
  | [] => insert_savedProperties now savedProperty
  end.

Definition unsaveProperty (userId propertyId : Z) : Async unit :=
  write (fun db =>
    with_savedProperties
      (Drizzle.delete_where (savedProperties db)
         (same_pair userId propertyId))
      db).

Definition isPropertySaved (userId propertyId : Z) : Async bool :=
  parameters [userId; propertyId] ;;;
  result <- read (fun db =>
    Drizzle.select_from_where (savedProperties db)
      (same_pair userId propertyId)) ;;
  ret (0 <? List.length result)%nat.

End Storage.

(* ===================================================================== *)
(** * Responses *)
(* ===================================================================== *)

(** What [res.status(n).json(v)] sends.  A list of properties is kept as
    rows; everything else is a JavaScript value. *)
Inductive Body : Type :=
| Json (v : Js.value)
| Properties (rows : list Schema.Property.row).

Record Response : Type := {
  status : Z;
  body : Body
}.

Definition respond (code : Z) (v : Js.value) : Response :=
  {| status := code; body := Json v |}.

Definition message_only (m : string) : Js.value :=
  Js.Obj [("message", Js.Str m)].

Definition message_errors (m : string) (errors : list string) : Js.value :=
  Js.Obj [("message", Js.Str m); ("errors", Zod.errors_value errors)].

Definition nullable_value {A : Type} (inj : A -> Js.value) (o : option A)
  : Js.value :=
  match o with Some a => inj a | None => Js.Null end.

(** A row of [users] as the object the query returns, keys in column
    order. *)
Definition user_object (u : Schema.User.row) : Js.object :=
  [ ("id", Js.Number (Js.Num (Schema.User.id u)));
    ("username", Js.Str (Schema.User.username u));
    ("password", Js.Str (Schema.User.password u));
    ("email", nullable_value Js.Str (Schema.User.email u));
    ("name", nullable_value Js.Str (Schema.User.name u));
    ("phone", nullable_value Js.Str (Schema.User.phone u));
    ("role", Js.Str (Schema.User.role u));
    ("profileImage", nullable_value Js.Str (Schema.User.profileImage u));
    ("createdAt",
     nullable_value (fun t => Js.Number (Js.Num t)) (Schema.User.createdAt u)) ].

(** [const { password, ...userWithoutPassword } = user] *)
Definition userWithoutPassword (u : Schema.User.row) : Js.object :=
  Js.omit "password" (user_object u).

(** The error middleware installed after the routes: what a handler hands
    to [next(err)] is answered with status 500 and the error's message. *)
Definition next_error (err : string) : Response :=
  respond 500
    (message_only (if Js.truthy (Js.Str err) then err else "Internal Server Error")).

(* ===================================================================== *)
(** * Authentication *)
(* ===================================================================== *)

Module Auth.

(** The three ways the verify callback calls [done]. *)
Inductive Done : Type :=
| done_error (err : string)                 (* done(err) *)
| done_false (message : string)             (* done(null, false, { message }) *)
| done_user (user : Schema.User.row).       (* done(null, user) *)

(** The callback given to [LocalStrategy]. *)
Definition verify `{Bcrypt} (username password : string) : Async Done :=
  try_catch
    (user <- Storage.getUserByUsername username ;;
     match user with
     | None => ret (done_false "Incorrect username.")
     | Some user =>
         let isValid := bcrypt_compare password (Schema.User.password user) in
         if negb isValid then ret (done_false "Incorrect password.")
         else ret (done_user user)
     end)
    (fun err => ret (done_error err)).

(** [passport.authenticate('local', callback)]: the strategy reads
    [username] and [password] in the body and fails with "Missing
    credentials" before calling [verify] when one of them is falsy. *)
Definition authenticate_local `{Bcrypt} (body : Js.value) : Async Done :=
  match body with
  | Js.Obj fields =>
      match Js.get "username" fields, Js.get "password" fields with
      | Js.Str username, Js.Str password =>
          if Js.truthy (Js.Str username) && Js.truthy (Js.Str password)
          then verify username password
          else ret (done_false "Missing credentials")
      | _, _ => ret (done_false "Missing credentials")
      end
  | _ => ret (done_false "Missing credentials")
  end.

(** [serializeUser]: the session keeps the user's id. *)
Definition serializeUser (user : Schema.User.row) : Z := Schema.User.id user.

(** [req.logIn(user, callback)] *)
Definition logIn (user : Schema.User.row) : Async unit :=
  set_session (Some (serializeUser user)).

(** [deserializeUser]: [inl] is [done(err, null)], [inr] is
    [done(null, userWithoutPassword)]. *)
Definition deserializeUser (id : Z) : Async (string + Js.object) :=
  try_catch
    (user <- Storage.getUser id ;;
     match user with
     | None => ret (inl "User not found")
     | Some user => ret (inr (userWithoutPassword user))
     end)
    (fun err => ret (inl err)).

(** [passport.session()]: [req.user] for a request of the client. *)
Definition session_user : Async (string + option Js.object) :=
  fun s =>
    match session s with
    | None => (Returned (inr None), s)
    | Some id =>
        match deserializeUser id s with
        | (Returned (inr user), s') => (Returned (inr (Some user)), s')
        | (Returned (inl err), s') => (Returned (inl err), s')
        | (Thrown err, s') => (Returned (inl err), s')
        end
    end.

End Auth.

(* ===================================================================== *)
(** * Routes *)
(* ===================================================================== *)

Module Routes.

(** The parsed query string, [req.query]: the value of a name is a string,
    an array when the name is repeated or written with brackets, or an
    object when it is written with a key in brackets. *)
Inductive QueryValue : Type :=
| QStr (s : string)
| QArr (items : list QueryValue)
| QObj (fields : list (string * QueryValue)).

Definition Query := list (string * QueryValue).

Fixpoint query_get (k : string) (q : Query) : option QueryValue :=
  match q with
  | [] => None
  | (k', v) :: rest => if (k' =? k)%string then Some v else query_get k rest
  end.

(** A value of the query as the JavaScript value it is. *)
Fixpoint value_of (v : QueryValue) : Js.value :=
  match v with
  | QStr s => Js.Str s
  | QArr items => Js.Arr (map value_of items)
  | QObj fields =>
      Js.Obj
        (map
           (fun kv : string * QueryValue =>
              match kv with
              | (k, v') => (k, value_of v')
              end)
           fields)
  end.

(** [String(v)], which is what [parseInt] reads of a value that is not a
    string: an array is its items joined by commas. *)
Fixpoint to_string (v : QueryValue) : string :=
  match v with
  | QStr s => s
  | QArr items => String.concat "," (map to_string items)
  | QObj _ => "[object Object]"
  end.

(** The middleware [isAuthenticated]; [req.isAuthenticated()] is true
    when passport has put a user on the request. *)
Definition isAuthenticated (user : option Js.object)
    (next : Js.object -> Async Response) : Async Response :=
  match user with
  | Some u => next u
  | None => ret (respond 401 (message_only "Unauthorized, please log in"))
  end.

(** A number handed to a method of the storage: [NaN] and values that are
    not numbers make the query throw.  Whether the number fits the column is
    checked where it is bound ([Storage.parameters]), except for the
    identifier of the session's user and for the identifier of the path of
    [PATCH /api/users/:id], which reaches the storage only when it is the
    session user's. *)
Definition integer {A : Type} (v : Js.value) (k : Z -> Async A) : Async A :=
  match v with
  | Js.Number (Js.Num z) => k z
  | _ => throw "invalid input syntax for type integer"
  end.

(** ** [GET /api/properties] *)

(** [if (req.query.k) filter.k = req.query.k as string] *)
Definition copy_string (q : Query) (k : string) (filter : Js.object)
  : Js.object :=
  match query_get k q with
  | Some v =>
      if Js.truthy (value_of v) then Js.set k (value_of v) filter else filter
  | None => filter
  end.

(** [if (req.query.k) filter.k = parseInt(req.query.k as string)] *)
Definition copy_int (q : Query) (k : string) (filter : Js.object) : Js.object :=
  match query_get k q with
  | Some v =>
      if Js.truthy (value_of v)
      then Js.set k (Js.Number (Js.parseInt (to_string v))) filter
      else filter
  | None => filter
  end.

(** [if (req.query.k) filter.k = req.query.k === 'true'] *)
Definition copy_flag (q : Query) (k : string) (filter : Js.object) : Js.object :=
  match query_get k q with
  | Some v =>
      if Js.truthy (value_of v)
      then Js.set k (Js.Bool (Js.strict_eq (value_of v) (Js.Str "true"))) filter
      else filter
  | None => filter
  end.

Definition filter_of_query (q : Query) : Js.object :=
  let filter := [] in
  let filter := copy_string q "category" filter in
  let filter := copy_string q "type" filter in
  let filter := copy_string q "city" filter in
  let filter := copy_string q "location" filter in
  let filter := copy_int q "minPrice" filter in
  let filter := copy_int q "maxPrice" filter in
  let filter := copy_int q "bedrooms" filter in
  let filter := copy_int q "minArea" filter in
  let filter := copy_int q "maxArea" filter in
  let filter := copy_string q "status" filter in
  let filter := copy_flag q "featured" filter in
  filter.

Definition get_properties (q : Query) : Async Response :=
  try_catch
    (let filter := filter_of_query q in
     let filterResult := Zod.propertyFilterSchema (Js.Obj filter) in
     match filterResult with
     | Zod.Failure errors =>
         ret (respond 400 (message_errors "Invalid filter parameters" errors))
     | Zod.Success data =>
         properties <- Storage.getProperties (Some data) ;;
         ret {| status := 200; body := Properties properties |}
     end)
    (fun error => ret (respond 500 (message_only "Failed to fetch properties"))).

(** ** [POST /api/users/register] *)

Definition post_users_register `{Bcrypt} (salt : string) (now : Z)
    (body : Js.value) : Async Response :=
  try_catch
    (match Zod.insertUserSchema body with
     | Zod.Failure errors =>
         ret (respond 400 (message_errors "Invalid user data" errors))
     | Zod.Success data =>
         existingUser <-
           Storage.getUserByUsername (Schema.InsertUser.username data) ;;
         match existingUser with
         | Some _ => ret (respond 409 (message_only "Username already exists"))
         | None =>
             user <- Storage.createUser salt now data ;;
             ret (respond 201 (Js.Obj (userWithoutPassword user)))
         end
     end)
    (fun error => ret (respond 500 (message_only "Failed to register user"))).

(** ** [POST /api/auth/login] *)

Definition post_auth_login `{Bcrypt} (body : Js.value) : Async Response :=
  try_catch
    (match Zod.loginSchema body with
     | Zod.Failure errors =>
         ret (respond 400 (message_errors "Invalid login data" errors))
     | Zod.Success _ =>
         outcome <- Auth.authenticate_local body ;;
         match outcome with
         | Auth.done_error err => ret (next_error err)
         | Auth.done_false message =>
             ret (respond 401
                    (message_only
                       (if Js.truthy (Js.Str message) then message
                        else "Login failed")))
         | Auth.done_user user =>
             Auth.logIn user ;;;
             ret (respond 200
                    (Js.Obj [("message", Js.Str "Login successful");
                             ("user", Js.Obj (userWithoutPassword user))]))
         end
     end)
    (fun error => ret (respond 500 (message_only "Login failed"))).

(** ** [PATCH /api/users/:id] *)

(** The validated body as the [updates] argument of [updateUser]. *)
Definition updates_of (data : Zod.ProfileUpdate) : Schema.UserUpdates.t :=
  {| Schema.UserUpdates.username := None;
     Schema.UserUpdates.email := option_map Some (Zod.email data);
     Schema.UserUpdates.name := option_map Some (Zod.name data);
     Schema.UserUpdates.phone := option_map Some (Zod.phone data);
     Schema.UserUpdates.role := None;
     Schema.UserUpdates.profileImage := None;
     Schema.UserUpdates.createdAt := None |}.

Definition patch_users_id `{EmailFormat} (id : string)
    (req_user : option Js.object) (body : Js.value) : Async Response :=
  isAuthenticated req_user (fun user =>
    try_catch
      (let userId := Js.parseInt id in
       if Js.truthy (Js.Obj user)
          && negb (Js.strict_eq (Js.get "id" user) (Js.Number userId))
       then ret (respond 403
                   (message_only "You can only update your own profile"))
       else
         match Zod.updateSchema body with
         | Zod.Failure errors =>
             ret (respond 400 (message_errors "Invalid profile data" errors))
         | Zod.Success data =>
             user <- integer (Js.Number userId) Storage.getUser ;;
             match user with
             | None => ret (respond 404 (message_only "User not found"))
             | Some _ =>
                 updatedUser <-
                   integer (Js.Number userId)
                     (fun userId => Storage.updateUser userId (updates_of data)) ;;
                 match updatedUser with
                 | None =>
                     ret (respond 500 (message_only "Failed to update user"))
                 | Some updatedUser =>
                     ret (respond 200
                            (Js.Obj
                               [("message", Js.Str "Profile updated successfully");
                                ("user",
                                 Js.Obj (userWithoutPassword updatedUser))]))
                 end
             end
         end)
      (fun error => ret (respond 500 (message_only "Failed to update profile")))).

(** ** [DELETE /api/saved-properties/:propertyId] *)

(** [storage.unsaveProperty(userId, propertyId)] as the route calls it:
    [propertyId] is whatever number the path holds, and the statement binds
    both numbers to integer columns. *)
Definition delete_saved_properties (propertyId : string)
    (req_user : option Js.object) : Async Response :=
  isAuthenticated req_user (fun user =>
    try_catch
      (let userId := Js.get "id" user in
       let propertyId := Js.parseInt propertyId in
       if Js.isNaN propertyId
       then ret (respond 400 (message_only "Invalid property ID"))
       else
         integer userId (fun userId =>
           integer (Js.Number propertyId) (fun propertyId =>
             Storage.parameters [userId; propertyId] ;;;
             Storage.unsaveProperty userId propertyId)) ;;;
         ret (respond 200
                (message_only "Property removed from saved list successfully")))
      (fun error =>
         ret (respond 500 (message_only "Failed to remove saved property")))).

(** A request of a client: passport puts the session's user on the
    request, then the route runs. *)
Definition serve (route : option Js.object -> Async Response) : Async Response :=
  user <- Auth.session_user ;;
  match user with
  | inl err => ret (next_error err)
  | inr user => route user
  end.

End Routes.

(* ===================================================================== *)
(** * The filter of the specification *)
(* ===================================================================== *)

(** The conditions as the specification words them, to be compared with
    the conditions [getProperties] builds: one condition per present field,
    all of them joined by AND. *)
Module Spec.

Import Schema.

(** Equality with a text column. *)
Definition equals (wanted : option string) (actual : string) : bool :=
  match wanted with
  | Some w => (actual =? w)%string
  | None => true
  end.

(** Equality with the nullable flag. *)
Definition is_flag (wanted : option bool) (actual : option bool) : bool :=
  match wanted, actual with
  | Some w, Some a => Bool.eqb a w
  | Some _, None => false
  | None, _ => true
  end.

(** Inclusive lower bound on a number that may be missing. *)
Definition at_least (bound : option Z) (actual : option Z) : bool :=
  match bound, actual with
  | Some b, Some a => b <=? a
  | Some _, None => false
  | None, _ => true
  end.

(** Inclusive upper bound. *)
Definition at_most (bound : option Z) (actual : option Z) : bool :=
  match bound, actual with
  | Some b, Some a => a <=? b
  | Some _, None => false
  | None, _ => true
  end.

Definition matches (f : PropertyFilter.t) (p : Property.row) : bool :=
  equals (PropertyFilter.category f) (Property.category p)
  && equals (PropertyFilter.type f) (Property.type p)
  && equals (PropertyFilter.city f) (Property.city p)
  && equals (PropertyFilter.location f) (Property.location p)
  && at_least (PropertyFilter.minPrice f) (Some (Property.price p))
  && at_most (PropertyFilter.maxPrice f) (Some (Property.price p))
  && at_least (PropertyFilter.bedrooms f) (Property.bedrooms p)
  && at_least (PropertyFilter.bathrooms f) (Property.bathrooms p)
  && at_least (PropertyFilter.minArea f) (Property.area p)
  && at_most (PropertyFilter.maxArea f) (Property.area p)
  && equals (PropertyFilter.status f) (Property.status p)
  && is_flag (PropertyFilter.featured f) (Property.featured p).

(** A string field that is present but empty, read as absent. *)
Definition nonempty (field : option string) : option string :=
  match field with
  | Some v => if (v =? "")%string then None else Some v
  | None => None
  end.

Definition effective (f : PropertyFilter.t) : PropertyFilter.t :=
  {| PropertyFilter.category := nonempty (PropertyFilter.category f);
     PropertyFilter.type := nonempty (PropertyFilter.type f);
     PropertyFilter.city := nonempty (PropertyFilter.city f);
     PropertyFilter.location := nonempty (PropertyFilter.location f);
     PropertyFilter.minPrice := PropertyFilter.minPrice f;
     PropertyFilter.maxPrice := PropertyFilter.maxPrice f;
     PropertyFilter.bedrooms := PropertyFilter.bedrooms f;
     PropertyFilter.bathrooms := PropertyFilter.bathrooms f;
     PropertyFilter.minArea := PropertyFilter.minArea f;
     PropertyFilter.maxArea := PropertyFilter.maxArea f;
     PropertyFilter.status := nonempty (PropertyFilter.status f);
     PropertyFilter.featured := PropertyFilter.featured f |}.

(** [a] may come before [b] in descending order of the key. *)
Definition before {R : Type} (key : R -> option Z) (a b : R) : Prop :=
  Drizzle.desc (key a) (key b) = true.

(** Newest first: of two rows of the list that carry a timestamp, the one
    that comes first is not the older one. *)
Definition newest_first {R : Type} (createdAt : R -> option Z) (l : list R)
  : Prop :=
  forall l1 a l2 b l3,
    l = l1 ++ a :: l2 ++ b :: l3 ->
    forall ta tb, createdAt a = Some ta -> createdAt b = Some tb -> tb <= ta.


(** The columns of a user that a profile update leaves alone. *)
Definition same_account (old new : User.row) : Prop :=
  User.id new = User.id old
  /\ User.username new = User.username old
  /\ User.password new = User.password old
  /\ User.role new = User.role old
  /\ User.profileImage new = User.profileImage old
  /\ User.createdAt new = User.createdAt old.

(** Between two states: the users are the same rows in the same order; a
    row differs from what it was only if its identifier is [owner], and then
    in name, email and phone only; and nothing else differs. *)
Definition only_profile_differs (owner : Js.value) (s s' : Server) : Prop :=
  Forall2
    (fun old new =>
       same_account old new
       /\ (Js.Number (Js.Num (User.id old)) <> owner -> new = old))
    (rows (users (database s))) (rows (users (database s')))
  /\ serial (users (database s')) = serial (users (database s))
  /\ properties (database s') = properties (database s)
  /\ enquiries (database s') = enquiries (database s)
  /\ savedProperties (database s') = savedProperties (database s)
  /\ session s' = session s.


(** A row after a profile update of the user [userId] with the validated
    fields [data]: the row of another user is as it was; in the row of the
    user a field that is given is replaced, and nothing else. *)
Definition profile_set (userId : Z) (data : Zod.ProfileUpdate)
    (old new : User.row) : Prop :=
  if User.id old =? userId
  then same_account old new
       /\ User.name new
          = match Zod.name data with Some n => Some n | None => User.name old end
       /\ User.email new
          = match Zod.email data with Some e => Some e | None => User.email old end
       /\ User.phone new
          = match Zod.phone data with Some p => Some p | None => User.phone old end
  else new = old.

(** The 32 bits of an [integer] column. *)
Definition fits (z : Z) : Prop := -2147483648 <= z <= 2147483647.

(** The numeric bounds a filter gives. *)
Definition bounds (f : PropertyFilter.t) : list (option Z) :=
  [PropertyFilter.minPrice f; PropertyFilter.maxPrice f;
   PropertyFilter.bedrooms f; PropertyFilter.bathrooms f;
   PropertyFilter.minArea f; PropertyFilter.maxArea f].


(** Every number that is given fits. *)
Definition all_fit (l : list (option Z)) : Prop :=
  forall z, In (Some z) l -> fits z.

(** A limit that the database takes: [NaN] and a negative number are left
    out of the query, any other number has to fit a [bigint]. *)
Definition limit_taken (limit : Js.number) : Prop :=
  match limit with
  | Js.Num z => z <= 9223372036854775807
  | Js.NaN => True
  end.

(** The rows up to a limit: the first [n] for a number [n] that is not
    negative, all of them for a negative number and for [NaN]. *)
Definition up_to {R : Type} (limit : Js.number) (l : list R) : list R :=
  match limit with
  | Js.Num z => if z <? 0 then l else firstn (Z.to_nat z) l
  | Js.NaN => l
  end.

End Spec.

(* ===================================================================== *)
(** * Sample data *)
(* ===================================================================== *)

(** Rows and states for the examples, after the seeding script. *)
Module Sample.

Import Schema.

(** The first seeded property. *)
Definition skyline : Property.row :=
  {| Property.id := 1;
     Property.title := "Skyline Residency";
     Property.description := "A beautiful 3BHK apartment";
     Property.address := "Skyline Residency, Bandra West";
     Property.city := "Mumbai";
     Property.location := "Bandra West";
     Property.type := "apartment";
     Property.category := "buy";
     Property.price := 12500000;
     Property.priceUnit := "₹";
     Property.displayPrice := Some "₹ 1.25 Cr";
     Property.bedrooms := Some 3;
     Property.bathrooms := Some 2;
     Property.area := Some 1250;
     Property.amenities := Some ["Swimming Pool"; "Gym"];
     Property.features := Some ["Balcony"; "Parking"];
     Property.images := ["https://images.unsplash.com/photo-1560448204"];
     Property.latitude := Some "19.0596";
     Property.longitude := Some "72.8295";
     Property.builderId := None;
     Property.status := "available";
     Property.featured := Some true;
     Property.isNewLaunch := Some false;
     Property.isExclusive := Some false;
     Property.isReadyToMove := Some false;
     Property.agentId := Some 1 |}.



(** Two filters: three bedrooms or more, and a price from a number that
    no integer column holds. *)
Definition spacious : PropertyFilter.t :=
  {| PropertyFilter.category := None; PropertyFilter.type := None;
     PropertyFilter.city := None; PropertyFilter.location := None;
     PropertyFilter.minPrice := None; PropertyFilter.maxPrice := None;
     PropertyFilter.bedrooms := Some 3; PropertyFilter.bathrooms := None;
     PropertyFilter.minArea := None; PropertyFilter.maxArea := None;
     PropertyFilter.status := None; PropertyFilter.featured := None |}.

Definition priceless : PropertyFilter.t :=
  {| PropertyFilter.category := None; PropertyFilter.type := None;
     PropertyFilter.city := None; PropertyFilter.location := None;
     PropertyFilter.minPrice := Some 99999999999;
     PropertyFilter.maxPrice := None;
     PropertyFilter.bedrooms := None; PropertyFilter.bathrooms := None;
     PropertyFilter.minArea := None; PropertyFilter.maxArea := None;
     PropertyFilter.status := None; PropertyFilter.featured := None |}.

Definition alice : User.row :=
  {| User.id := 1;
     User.username := "alice";
     User.password := "$2a$10$secret1";
     User.email := Some "alice@example.com";
     User.name := Some "Alice";
     User.phone := None;
     User.role := "user";
     User.profileImage := None;
     User.createdAt := Some 1000 |}.

(** An administrator, as the seeding script creates one. *)
Definition admin : User.row :=
  {| User.id := 2;
     User.username := "admin";
     User.password := "$2a$10$admin123";
     User.email := Some "admin@homequest.com";
     User.name := Some "Admin User";
     User.phone := None;
     User.role := "admin";
     User.profileImage := None;
     User.createdAt := Some 1000 |}.

Definition seeded : Database :=
  {| users := {| rows := [alice; admin]; serial := 3 |};
     properties := {| rows := [skyline]; serial := 2 |};
     enquiries := empty_table;
     savedProperties := empty_table |}.

(** The server with nobody logged in on the client's session. *)
Definition server : Server :=
  {| database := seeded; session := None |}.

(** A stand-in for bcrypt, enough to run the examples: the hash is the
    plaintext behind the version and cost prefix. *)
#[local] Instance bcrypt : Bcrypt :=
  {| bcrypt_hash := fun s _ _ => ("$2a$10$" ++ s)%string;
     bcrypt_compare := fun s hash => (hash =? "$2a$10$" ++ s)%string |}.

(** A stand-in for the e-mail test: the text holds an [@]. *)
Fixpoint has_at (s : string) : bool :=
  match s with
  | EmptyString => false
  | String c rest => if Ascii.eqb c "@" then true else has_at rest
  end.

#[local] Instance email_format : EmailFormat :=
  {| is_email := has_at |}.

End Sample.

(* ===================================================================== *)
(** * Sequential histories *)
(* ===================================================================== *)

(** The calls that write the table of saved properties, made one after the
    other, starting from the empty database. *)
Module History.

Import Schema.

Inductive call : Type :=
| save (now userId propertyId : Z)
| unsave (userId propertyId : Z).

Definition step (s : Server) (c : call) : Server :=
  match c with
  | save now userId propertyId =>
      snd (Storage.saveProperty now
             {| InsertSavedProperty.userId := userId;
                InsertSavedProperty.propertyId := propertyId |} s)
  | unsave userId propertyId =>
      snd (Storage.unsaveProperty userId propertyId s)
  end.

Definition initial : Server :=
  {| database := empty_database; session := None |}.

Definition run (h : list call) : Server := fold_left step h initial.

(** The stored rows for a pair (user, property). *)
Definition rows_of (userId propertyId : Z) (s : Server)
  : list SavedProperty.row :=
  filter
    (fun r => (SavedProperty.userId r =? userId)
              && (SavedProperty.propertyId r =? propertyId))
    (rows (savedProperties (database s))).

End History.

(* ===================================================================== *)
(** * The other routes *)
(* ===================================================================== *)

(** The rows that leave the server as objects, keys in column order. *)
Module Wire.

Import Schema.

Definition number_value (z : Z) : Js.value := Js.Number (Js.Num z).

Definition strings_value (l : list string) : Js.value := Js.Arr (map Js.Str l).

Definition property_object (p : Property.row) : Js.object :=
  [ ("id", number_value (Property.id p));
    ("title", Js.Str (Property.title p));
    ("description", Js.Str (Property.description p));
    ("address", Js.Str (Property.address p));
    ("city", Js.Str (Property.city p));
    ("location", Js.Str (Property.location p));
    ("type", Js.Str (Property.type p));
    ("category", Js.Str (Property.category p));
    ("price", number_value (Property.price p));
    ("priceUnit", Js.Str (Property.priceUnit p));
    ("displayPrice", nullable_value Js.Str (Property.displayPrice p));
    ("bedrooms", nullable_value number_value (Property.bedrooms p));
    ("bathrooms", nullable_value number_value (Property.bathrooms p));
    ("area", nullable_value number_value (Property.area p));
    ("amenities", nullable_value strings_value (Property.amenities p));
    ("features", nullable_value strings_value (Property.features p));
    ("images", strings_value (Property.images p));
    ("latitude", nullable_value Js.Str (Property.latitude p));
    ("longitude", nullable_value Js.Str (Property.longitude p));
    ("builderId", nullable_value number_value (Property.builderId p));
    ("status", Js.Str (Property.status p));
    ("featured", nullable_value Js.Bool (Property.featured p));
    ("isNewLaunch", nullable_value Js.Bool (Property.isNewLaunch p));
    ("isExclusive", nullable_value Js.Bool (Property.isExclusive p));
    ("isReadyToMove", nullable_value Js.Bool (Property.isReadyToMove p));
    ("agentId", nullable_value number_value (Property.agentId p)) ].

Definition enquiry_object (e : Enquiry.row) : Js.object :=
  [ ("id", number_value (Enquiry.id e));
    ("name", Js.Str (Enquiry.name e));
    ("email", Js.Str (Enquiry.email e));
    ("phone", Js.Str (Enquiry.phone e));
    ("message", Js.Str (Enquiry.message e));
    ("propertyId", nullable_value number_value (Enquiry.propertyId e));
    ("agentId", nullable_value number_value (Enquiry.agentId e));
    ("interest", nullable_value Js.Str (Enquiry.interest e));
    ("createdAt", nullable_value number_value (Enquiry.createdAt e)) ].

Definition savedProperty_object (r : SavedProperty.row) : Js.object :=
  [ ("id", number_value (SavedProperty.id r));
    ("userId", number_value (SavedProperty.userId r));
    ("propertyId", number_value (SavedProperty.propertyId r));
    ("createdAt", nullable_value number_value (SavedProperty.createdAt r)) ].

(** [v.k] on any value: reading a property of [undefined] or [null]
    throws, a primitive or an array has no such property. *)
Definition member (k : string) (v : Js.value) : Async Js.value :=
  match v with
  | Js.Obj fields => ret (Js.get k fields)
  | Js.Undefined | Js.Null => throw "Cannot read properties of undefined"
  | _ => ret Js.Undefined
  end.

(** Whether a value has a property named [k], at any depth. *)
Fixpoint has_key (k : string) (v : Js.value) : bool :=
  match v with
  | Js.Arr items => existsb (has_key k) items
  | Js.Obj fields =>
      existsb
        (fun kv : string * Js.value =>
           match kv with
           | (k', v') => (k' =? k)%string || has_key k v'
           end)
        fields
  | _ => false
  end.

(** What [createInsertSchema] makes of an [integer] column: a number that
    is an integer and fits the 32 bits of the column. *)
Definition integer (v : Js.value) : option Z :=
  match Zod.number v with
  | Some z => if Drizzle.int4 z then Some z else None
  | None => None
  end.

(** [insertSavedPropertySchema]: two required integers. *)
Definition insertSavedPropertySchema (v : Js.value)
  : Zod.SafeParse InsertSavedProperty.t :=
  match v with
  | Js.Obj o =>
      let userId := integer (Js.get "userId" o) in
      let propertyId := integer (Js.get "propertyId" o) in
      match userId, propertyId with
      | Some userId, Some propertyId =>
          Zod.Success
            {| InsertSavedProperty.userId := userId;
               InsertSavedProperty.propertyId := propertyId |}
      | _, _ =>
          Zod.Failure (Zod.issue "userId" userId
                       ++ Zod.issue "propertyId" propertyId)
      end
  | _ => Zod.Failure [""]
  end.

(** [insertEnquirySchema]: four required strings; the two references and
    the interest are nullable and optional; [id] and [createdAt] are not
    part of it and are dropped with the other unknown keys. *)
Definition insertEnquirySchema (v : Js.value) : Zod.SafeParse InsertEnquiry.t :=
  match v with
  | Js.Obj o =>
      let name := Zod.string (Js.get "name" o) in
      let email := Zod.string (Js.get "email" o) in
      let phone := Zod.string (Js.get "phone" o) in
      let message := Zod.string (Js.get "message" o) in
      let propertyId := Zod.nullish integer (Js.get "propertyId" o) in
      let agentId := Zod.nullish integer (Js.get "agentId" o) in
      let interest := Zod.nullish Zod.string (Js.get "interest" o) in
      match name, email, phone, message, propertyId, agentId, interest with
      | Some name, Some email, Some phone, Some message, Some propertyId,
        Some agentId, Some interest =>
          Zod.Success
            {| InsertEnquiry.name := name;
               InsertEnquiry.email := email;
               InsertEnquiry.phone := phone;
               InsertEnquiry.message := message;
               InsertEnquiry.propertyId := propertyId;
               InsertEnquiry.agentId := agentId;
               InsertEnquiry.interest := interest |}
      | _, _, _, _, _, _, _ =>
          Zod.Failure
            (Zod.issue "name" name ++ Zod.issue "email" email
             ++ Zod.issue "phone" phone ++ Zod.issue "message" message
             ++ Zod.issue "propertyId" propertyId
             ++ Zod.issue "agentId" agentId ++ Zod.issue "interest" interest)
      end
  | _ => Zod.Failure [""]
  end.

End Wire.

Module Api.

Import Schema.

(** [req.query.limit ? parseInt(req.query.limit as string) : 10] *)
Definition limit_of (q : Routes.Query) : Js.number :=
  match Routes.query_get "limit" q with
  | Some v =>
      if Js.truthy (Routes.value_of v)
      then Js.parseInt (Routes.to_string v)
      else Js.Num 10
  | None => Js.Num 10
  end.

(** [GET /api/properties/featured] *)
Definition get_properties_featured (q : Routes.Query) : Async Response :=
  try_catch
    (let limit := limit_of q in
     properties <- Storage.getFeaturedProperties limit ;;
     ret {| status := 200; body := Properties properties |})
    (fun error =>
       ret (respond 500 (message_only "Failed to fetch featured properties"))).

(** [GET /api/properties/city/:city] *)
Definition get_properties_city (city : string) (q : Routes.Query)
  : Async Response :=
  try_catch
    (let limit := limit_of q in
     properties <- Storage.getPropertiesByCity city limit ;;
     ret {| status := 200; body := Properties properties |})
    (fun error =>
       ret (respond 500 (message_only "Failed to fetch properties by city"))).

(** [GET /api/properties/:id] *)
Definition get_properties_id (id : string) : Async Response :=
  try_catch
    (let id := Js.parseInt id in
     property <- Routes.integer (Js.Number id) Storage.getProperty ;;
     match property with
     | None => ret (respond 404 (message_only "Property not found"))
     | Some property => ret (respond 200 (Js.Obj (Wire.property_object property)))
     end)
    (fun error => ret (respond 500 (message_only "Failed to fetch property"))).

(** [POST /api/enquiries] *)
Definition post_enquiries (now : Z) (body : Js.value) : Async Response :=
  try_catch
    (match Wire.insertEnquirySchema body with
     | Zod.Failure errors =>
         ret (respond 400 (message_errors "Invalid enquiry data" errors))
     | Zod.Success data =>
         enquiry <- Storage.createEnquiry now data ;;
         ret (respond 201 (Js.Obj (Wire.enquiry_object enquiry)))
     end)
    (fun error => ret (respond 500 (message_only "Failed to create enquiry"))).

(** [POST /api/auth/logout]: [req.logout] takes the user out of the
    session. *)
Definition post_auth_logout : Async Response :=
  set_session None ;;;
  ret (respond 200 (message_only "Logout successful")).

(** [GET /api/auth/me] *)
Definition get_auth_me (req_user : option Js.object) : Async Response :=
  Routes.isAuthenticated req_user (fun user => ret (respond 200 (Js.Obj user))).

(** [GET /api/auth/status] *)
Definition get_auth_status (req_user : option Js.object) : Async Response :=
  match req_user with
  | Some user =>
      ret (respond 200
             (Js.Obj [("isAuthenticated", Js.Bool true); ("user", Js.Obj user)]))
  | None => ret (respond 200 (Js.Obj [("isAuthenticated", Js.Bool false)]))
  end.

(** [GET /api/saved-properties] *)
Definition get_saved_properties (req_user : option Js.object) : Async Response :=
  Routes.isAuthenticated req_user (fun user =>
    try_catch
      (let userId := Js.get "id" user in
       properties <- Routes.integer userId Storage.getSavedProperties ;;
       ret {| status := 200; body := Properties properties |})
      (fun error =>
         ret (respond 500 (message_only "Failed to get saved properties")))).

(** [POST /api/saved-properties] *)
Definition post_saved_properties (now : Z) (req_user : option Js.object)
    (body : Js.value) : Async Response :=
  Routes.isAuthenticated req_user (fun user =>
    try_catch
      (let userId := Js.get "id" user in
       propertyId <- Wire.member "propertyId" body ;;
       match Wire.insertSavedPropertySchema
               (Js.Obj [("userId", userId); ("propertyId", propertyId)]) with
       | Zod.Failure errors =>
           ret (respond 400 (message_errors "Invalid property data" errors))
       | Zod.Success data =>
           property <- Storage.getProperty (InsertSavedProperty.propertyId data) ;;
           match property with
           | None => ret (respond 404 (message_only "Property not found"))
           | Some _ =>
               savedProperty <- Storage.saveProperty now data ;;
               ret (respond 201 (Js.Obj (Wire.savedProperty_object savedProperty)))
           end
       end)
      (fun error => ret (respond 500 (message_only "Failed to save property")))).

(** [GET /api/saved-properties/:propertyId/check] *)
Definition get_saved_properties_check (propertyId : string)
    (req_user : option Js.object) : Async Response :=
  Routes.isAuthenticated req_user (fun user =>
    try_catch
      (let userId := Js.get "id" user in
       let propertyId := Js.parseInt propertyId in
       if Js.isNaN propertyId
       then ret (respond 400 (message_only "Invalid property ID"))
       else
         isSaved <-
           Routes.integer userId (fun userId =>
             Routes.integer (Js.Number propertyId) (fun propertyId =>
               Storage.isPropertySaved userId propertyId)) ;;
         ret (respond 200 (Js.Obj [("isSaved", Js.Bool isSaved)])))
      (fun error =>
         ret (respond 500
                (message_only "Failed to check saved property status")))).

(** The requests of the interface that read or write the four modelled
    tables and the session. *)
Inductive Request : Type :=
| GET_properties (q : Routes.Query)
| GET_properties_featured (q : Routes.Query)
| GET_properties_city (city : string) (q : Routes.Query)
| GET_properties_id (id : string)
| POST_enquiries (body : Js.value)
| POST_users_register (body : Js.value)
| POST_auth_login (body : Js.value)
| POST_auth_logout
| GET_auth_me
| GET_auth_status
| PATCH_users_id (id : string) (body : Js.value)
| GET_saved_properties
| POST_saved_properties (body : Js.value)
| DELETE_saved_properties (propertyId : string)
| GET_saved_properties_check (propertyId : string).

(** The route of a request; [salt] is what bcrypt draws and [now] the time
    of the database, should the route need them. *)
Definition route `{Bcrypt} `{EmailFormat} (salt : string) (now : Z)
    (r : Request) (req_user : option Js.object) : Async Response :=
  match r with
  | GET_properties q => Routes.get_properties q
  | GET_properties_featured q => get_properties_featured q
  | GET_properties_city city q => get_properties_city city q
  | GET_properties_id id => get_properties_id id
  | POST_enquiries body => post_enquiries now body
  | POST_users_register body => Routes.post_users_register salt now body
  | POST_auth_login body => Routes.post_auth_login body
  | POST_auth_logout => post_auth_logout
  | GET_auth_me => get_auth_me req_user
  | GET_auth_status => get_auth_status req_user
  | PATCH_users_id id body => Routes.patch_users_id id req_user body
  | GET_saved_properties => get_saved_properties req_user
  | POST_saved_properties body => post_saved_properties now req_user body
  | DELETE_saved_properties propertyId =>
      Routes.delete_saved_properties propertyId req_user
  | GET_saved_properties_check propertyId =>
      get_saved_properties_check propertyId req_user
  end.

(** One request of the client, passport's session middleware first. *)
Definition handle `{Bcrypt} `{EmailFormat} (salt : string) (now : Z)
    (r : Request) : Async Response :=
  Routes.serve (route salt now r).

(** Requests made with the method GET. *)
Definition is_GET (r : Request) : bool :=
  match r with
  | GET_properties _ | GET_properties_featured _ | GET_properties_city _ _
  | GET_properties_id _ | GET_auth_me | GET_auth_status | GET_saved_properties
  | GET_saved_properties_check _ => true
  | _ => false
  end.

(** Requests on the routes that carry the [isAuthenticated] middleware. *)
Definition is_protected (r : Request) : bool :=
  match r with
  | GET_auth_me | PATCH_users_id _ _ | GET_saved_properties
  | POST_saved_properties _ | DELETE_saved_properties _
  | GET_saved_properties_check _ => true
  | _ => false
  end.

(** The parameters of [GET /api/properties] that the route copies as they
    are, and the ones it passes through [parseInt]. *)
Definition text_parameters : list string :=
  ["category"; "type"; "city"; "location"; "status"].

Definition numeric_parameters : list string :=
  ["minPrice"; "maxPrice"; "bedrooms"; "minArea"; "maxArea"].

(** A text parameter that is given and is not a string. *)
Definition not_text (q : Routes.Query) (k : string) : bool :=
  match Routes.query_get k q with
  | Some (Routes.QStr _) | None => false
  | Some _ => true
  end.

(** What [parseInt] makes of a numeric parameter that is given and is not
    the empty string. *)
Definition parsed (q : Routes.Query) (k : string) : option Js.number :=
  match Routes.query_get k q with
  | Some v =>
      if Js.truthy (Routes.value_of v)
      then Some (Js.parseInt (Routes.to_string v))
      else None
  | None => None
  end.

(** A numeric parameter that does not parse, and one that parses to a
    number outside the 32 bits of the column. *)
Definition unreadable (q : Routes.Query) (k : string) : bool :=
  match parsed q k with
  | Some Js.NaN => true
  | _ => false
  end.

Definition too_large (q : Routes.Query) (k : string) : bool :=
  match parsed q k with
  | Some (Js.Num z) => negb (Drizzle.int4 z)
  | _ => false
  end.

(** The bound a numeric parameter gives to the filter, when it parses. *)
Definition bound (q : Routes.Query) (k : string) : option Z :=
  match parsed q k with
  | Some (Js.Num z) => Some z
  | _ => None
  end.

(** A query whose filter the schema refuses, and one with a bound that no
    integer column can be compared with. *)
Definition refused (q : Routes.Query) : bool :=
  existsb (not_text q) text_parameters
  || existsb (unreadable q) numeric_parameters.

Definition out_of_range (q : Routes.Query) : bool :=
  existsb (too_large q) numeric_parameters.

(** Whether a response carries a [password] property anywhere. *)
Definition exposes_password (r : Response) : bool :=
  match body r with
  | Json v => Wire.has_key "password" v
  | Properties _ => false
  end.

End Api.

(** The request logger of [index.ts], from the point where the line is
    built: a line longer than 80 code units is cut to its first 79 and an
    ellipsis.  The type of code units is left open. *)
Module Logging.

Definition clip {U : Type} (ellipsis : U) (logLine : list U) : list U :=
  if (80 <? List.length logLine)%nat
  then firstn 79 logLine ++ [ellipsis]
  else logLine.

End Logging.

(** Judgements on asynchronous computations, to reason route by route. *)
Module Logic.

(** [m] leaves the state as it is, whether it returns or throws. *)
Definition readonly {A : Type} (m : Async A) : Prop :=
  forall s, snd (m s) = s.

(** What [m] returns, when it returns, satisfies [ok]. *)
Definition yields {A : Type} (ok : A -> Prop) (m : Async A) : Prop :=
  forall s, match fst (m s) with Returned a => ok a | Thrown _ => True end.

(** [m] returns, never throws, and what it returns satisfies [ok]. *)
Definition answers {A : Type} (ok : A -> Prop) (m : Async A) : Prop :=
  forall s, exists a, fst (m s) = Returned a /\ ok a.

(** From a state that satisfies [pre], [m] returns a value and a state
    that satisfy [post], or throws in a state that satisfies [thrown]. *)
Definition hoare {A : Type} (pre : Server -> Prop) (m : Async A)
    (post : A -> Server -> Prop) (thrown : Server -> Prop) : Prop :=
  forall s, pre s ->
    match m s with
    | (Returned a, s') => post a s'
    | (Thrown _, s') => thrown s'
    end.

(** [m] keeps [inv], whether it returns or throws. *)
Definition keeps {A : Type} (inv : Server -> Prop) (m : Async A) : Prop :=
  hoare inv m (fun _ => inv) inv.

End Logic.

(** What the tables promise each other. *)
Module Consistent.

Import Schema.

(** The emails that are set, in row order. *)
Definition emails (l : list User.row) : list string :=
  flat_map (fun u => match User.email u with Some e => [e] | None => [] end) l.

(** Identifiers are distinct and below the serial; usernames are distinct;
    emails, where set, are distinct. *)
Definition users_ok (db : Database) : Prop :=
  NoDup (map User.id (rows (users db)))
  /\ Forall (fun u => User.id u < serial (users db)) (rows (users db))
  /\ NoDup (map User.username (rows (users db)))
  /\ NoDup (emails (rows (users db))).

Definition pair_of (r : SavedProperty.row) : Z * Z :=
  (SavedProperty.userId r, SavedProperty.propertyId r).

(** No pair is saved twice, and every saved row names a stored user and a
    stored property. *)
Definition saved_ok (db : Database) : Prop :=
  NoDup (map pair_of (rows (savedProperties db)))
  /\ Forall
       (fun r =>
          In (SavedProperty.userId r) (map User.id (rows (users db)))
          /\ In (SavedProperty.propertyId r)
                (map Property.id (rows (properties db))))
       (rows (savedProperties db)).

(** A session names a stored user. *)
Definition session_ok (s : Server) : Prop :=
  forall id, session s = Some id ->
             In id (map User.id (rows (users (database s)))).

Definition server_ok (s : Server) : Prop :=
  users_ok (database s) /\ saved_ok (database s) /\ session_ok s.

(** The state after a list of requests, each with its salt and time. *)
Definition after `{Bcrypt} `{EmailFormat}
    (requests : list (string * Z * Api.Request)) (s : Server) : Server :=
  fold_left
    (fun s r => let '(salt, now, request) := r in
                snd (Api.handle salt now request s))
    requests s.

End Consistent.

(* ===================================================================== *)
(** * Properties of the query builder *)
(* ===================================================================== *)

Section Conditions.

Context {R : Type}.

Lemma eval_and_cons (c : Drizzle.SQL R) (cs : list (Drizzle.SQL R)) (r : R) :
  Drizzle.eval (Drizzle.and (c :: cs)) r
  = Drizzle.and3 (Drizzle.eval c r) (Drizzle.eval (Drizzle.and cs) r).
Proof. reflexivity. Qed.

(** A conjunction is true on a row exactly when each condition is. *)
Lemma holds_and (cs : list (Drizzle.SQL R)) (r : R) :
  Drizzle.holds (Drizzle.and cs) r
  = forallb (fun c => Drizzle.holds c r) cs.
Proof.
  induction cs as [|c cs IH].
  - reflexivity.
  - unfold Drizzle.holds in *. rewrite eval_and_cons. simpl forallb.
    rewrite <- IH.
    destruct (Drizzle.eval c r) as [[|]|];
      destruct (Drizzle.eval (Drizzle.and cs) r) as [[|]|]; reflexivity.
Qed.

Lemma forallb_push (h : Drizzle.SQL R -> bool) (cs : list (Drizzle.SQL R))
    (c : Drizzle.SQL R) :
  forallb h (Storage.push cs c) = forallb h cs && h c.
Proof.
  unfold Storage.push. rewrite forallb_app. simpl.
  now rewrite andb_true_r.
Qed.

Lemma forallb_if_defined {A : Type} (h : Drizzle.SQL R -> bool)
    (field : option A) (mk : A -> Drizzle.SQL R) (cs : list (Drizzle.SQL R)) :
  forallb h (Storage.if_defined field mk cs)
  = forallb h cs && match field with Some v => h (mk v) | None => true end.
Proof.
  destruct field; simpl.
  - apply forallb_push.
  - now rewrite andb_true_r.
Qed.

Lemma forallb_if_truthy (h : Drizzle.SQL R -> bool)
    (field : option string) (mk : string -> Drizzle.SQL R)
    (cs : list (Drizzle.SQL R)) :
  forallb h (Storage.if_truthy field mk cs)
  = forallb h cs
    && match Spec.nonempty field with Some v => h (mk v) | None => true end.
Proof.
  destruct field as [v|]; simpl.
  - destruct (v =? "")%string; simpl.
    + now rewrite andb_true_r.
    + apply forallb_push.
  - now rewrite andb_true_r.
Qed.

(** The single conditions of [getProperties], read on a row. *)
Lemma holds_eq_text (get : R -> string) (s : string) (r : R) :
  Drizzle.holds
    (Drizzle.eq (fun r => Drizzle.SqlText (get r)) (Drizzle.text s)) r
  = Spec.equals (Some s) (get r).
Proof.
  unfold Drizzle.holds; simpl. now destruct (get r =? s)%string.
Qed.

Lemma holds_gte_int (get : R -> Z) (z : Z) (r : R) :
  Drizzle.holds
    (Drizzle.gte (fun r => Drizzle.SqlInt (get r)) (Drizzle.int z)) r
  = Spec.at_least (Some z) (Some (get r)).
Proof.
  unfold Drizzle.holds; simpl. rewrite Z.geb_leb.
  now destruct (z <=? get r).
Qed.

Lemma holds_lte_int (get : R -> Z) (z : Z) (r : R) :
  Drizzle.holds
    (Drizzle.lte (fun r => Drizzle.SqlInt (get r)) (Drizzle.int z)) r
  = Spec.at_most (Some z) (Some (get r)).
Proof.
  unfold Drizzle.holds; simpl. now destruct (get r <=? z).
Qed.

Lemma holds_gte_nullable (get : R -> option Z) (z : Z) (r : R) :
  Drizzle.holds
    (Drizzle.gte (fun r => Drizzle.nullable Drizzle.SqlInt (get r))
                 (Drizzle.int z)) r
  = Spec.at_least (Some z) (get r).
Proof.
  unfold Drizzle.holds; simpl. destruct (get r) as [a|]; simpl.
  - rewrite Z.geb_leb. now destruct (z <=? a).
  - reflexivity.
Qed.

Lemma holds_lte_nullable (get : R -> option Z) (z : Z) (r : R) :
  Drizzle.holds
    (Drizzle.lte (fun r => Drizzle.nullable Drizzle.SqlInt (get r))
                 (Drizzle.int z)) r
  = Spec.at_most (Some z) (get r).
Proof.
  unfold Drizzle.holds; simpl. destruct (get r) as [a|]; simpl.
  - now destruct (a <=? z).
  - reflexivity.
Qed.

Lemma holds_eq_flag (get : R -> option bool) (b : bool) (r : R) :
  Drizzle.holds
    (Drizzle.eq (fun r => Drizzle.nullable Drizzle.SqlBool (get r))
                (Drizzle.boolean b)) r
  = Spec.is_flag (Some b) (get r).
Proof.
  unfold Drizzle.holds; simpl. destruct (get r) as [a|]; simpl.
  - now destruct (Bool.eqb a b).
  - reflexivity.
Qed.

Lemma filter_true (l : list R) : filter (fun _ => true) l = l.
Proof. induction l; simpl; congruence. Qed.

End Conditions.

(** The conditions pushed for a filter are, together, the conjunction of
    the specification on the filter with its empty strings read as absent. *)
Lemma queryConditions_matches (f : Schema.PropertyFilter.t)
    (p : Schema.Property.row) :
  forallb (fun c => Drizzle.holds c p) (Storage.queryConditions_of (Some f))
  = Spec.matches (Spec.effective f) p.
Proof.
  unfold Storage.queryConditions_of.
  repeat (rewrite forallb_if_defined || rewrite forallb_if_truthy).
  simpl forallb. unfold Spec.matches, Spec.effective; simpl.
  repeat match goal with
         | |- (_ && _) = (_ && _) => f_equal
         end.
  all: try match goal with
       | |- context [Spec.nonempty ?o] => destruct (Spec.nonempty o); reflexivity
       end.
  all: try match goal with
       | |- context [match ?o with Some _ => _ | None => _ end] =>
           destruct o; try reflexivity
       end.
  all: unfold Storage.properties_category, Storage.properties_type,
         Storage.properties_city, Storage.properties_location,
         Storage.properties_price, Storage.properties_bedrooms,
         Storage.properties_bathrooms, Storage.properties_area,
         Storage.properties_status, Storage.properties_featured.
  all: first [ apply holds_eq_text | apply holds_gte_int | apply holds_lte_int
             | apply holds_gte_nullable | apply holds_lte_nullable
             | apply holds_eq_flag ].
Qed.

(* ===================================================================== *)
(** * Listing properties *)
(* ===================================================================== *)

(** The range of an integer column, as the model tests it and as the
    theorems say it. *)
Lemma int4_fits (z : Z) : Drizzle.int4 z = true <-> Spec.fits z.
Proof.
  unfold Drizzle.int4, Spec.fits. rewrite andb_true_iff, !Z.leb_le. tauto.
Qed.

Lemma int4_not_fits (z : Z) : Drizzle.int4 z = false <-> ~ Spec.fits z.
Proof.
  rewrite <- int4_fits. destruct (Drizzle.int4 z); split; intro H;
    try discriminate; try reflexivity; now contradiction H.
Qed.

Lemma given_integers_fit (l : list (option Z)) :
  forallb Drizzle.int4 (Storage.given_integers l) = true <-> Spec.all_fit l.
Proof.
  unfold Spec.all_fit. induction l as [|[z|] l IH]; simpl.
  - split; [intros _ z [] | reflexivity].
  - rewrite andb_true_iff, IH, int4_fits. split.
    + intros [Hz Hl] z' [E|Hin]; [injection E as <-; exact Hz | now apply Hl].
    + intro H. split; [apply H; now left | intros z' Hz'; apply H; now right].
  - rewrite IH. split.
    + intros Hl z' [E|Hin]; [discriminate E | now apply Hl].
    + intros H z' Hz'. apply H. now right.
Qed.

(** Binding numbers that fit changes nothing; a number that does not fit
    makes the statement throw before it runs. *)
Lemma parameters_fit (bound : list Z) (s : Server) :
  forallb Drizzle.int4 bound = true ->
  Storage.parameters bound s = (Returned tt, s).
Proof. intro H. unfold Storage.parameters. now rewrite H. Qed.

Lemma parameters_refused (bound : list Z) (s : Server) :
  forallb Drizzle.int4 bound = false ->
  Storage.parameters bound s
  = (Thrown "value out of range for type integer", s).
Proof. intro H. unfold Storage.parameters. now rewrite H. Qed.

(** A bound that is given pushes a condition. *)
Lemma nonempty_push {C : Type} (cs : list C) (c : C) :
  (0 <? List.length (Storage.push cs c))%nat = true.
Proof.
  unfold Storage.push. rewrite length_app. simpl. apply Nat.ltb_lt. lia.
Qed.

Lemma nonempty_if_defined_given {A C : Type} (v : A) (mk : A -> C)
    (cs : list C) :
  (0 <? List.length (Storage.if_defined (Some v) mk cs))%nat = true.
Proof. apply nonempty_push. Qed.

Lemma nonempty_if_defined {A C : Type} (field : option A) (mk : A -> C)
    (cs : list C) :
  (0 <? List.length cs)%nat = true ->
  (0 <? List.length (Storage.if_defined field mk cs))%nat = true.
Proof. destruct field; [intros _; apply nonempty_push | auto]. Qed.

Lemma nonempty_if_truthy {C : Type} (field : option string) (mk : string -> C)
    (cs : list C) :
  (0 <? List.length cs)%nat = true ->
  (0 <? List.length (Storage.if_truthy field mk cs))%nat = true.
Proof.
  destruct field as [v|]; simpl; [|auto].
  destruct (negb (v =? "")%string); [intros _; apply nonempty_push | auto].
Qed.

Lemma queryConditions_of_bound (f : Schema.PropertyFilter.t) (z : Z) :
  In (Some z) (Spec.bounds f) ->
  (0 <? List.length (Storage.queryConditions_of (Some f)))%nat = true.
Proof.
  intros [H|[H|[H|[H|[H|[H|[]]]]]]];
    unfold Storage.queryConditions_of; cbv zeta; rewrite H;
    repeat first [ apply nonempty_if_defined_given
                 | apply nonempty_if_defined
                 | apply nonempty_if_truthy ].
Qed.

(** [getProperties] on a filter, by whether its bounds fit the columns. *)
Lemma getProperties_fit (s : Server) (f : Schema.PropertyFilter.t) :
  Spec.all_fit (Spec.bounds f) ->
  Storage.getProperties (Some f) s
  = (Returned (filter (Spec.matches (Spec.effective f))
                      (Schema.rows (Schema.properties (database s)))), s).
Proof.
  intro Hfit. unfold Storage.getProperties.
  pose proof (queryConditions_matches f) as Hm.
  destruct (Storage.queryConditions_of (Some f)) as [|c cs] eqn:Hqc.
  - simpl. unfold read, Drizzle.select_from. f_equal. f_equal.
    transitivity (filter (fun _ => true)
                    (Schema.rows (Schema.properties (database s)))).
    + symmetry. apply filter_true.
    + apply filter_ext. intro p. now rewrite <- Hm.
  - cbn [List.length Nat.ltb Nat.leb]. unfold bind.
    rewrite parameters_fit by now apply given_integers_fit.
    unfold read, Drizzle.select_from_where. f_equal. f_equal.
    apply filter_ext. intro p. rewrite holds_and. apply Hm.
Qed.

Lemma getProperties_refused (s : Server) (f : Schema.PropertyFilter.t) :
  ~ Spec.all_fit (Spec.bounds f) ->
  Storage.getProperties (Some f) s
  = (Thrown "value out of range for type integer", s).
Proof.
  intro Hfit. unfold Storage.getProperties.
  assert (Hbound : forallb Drizzle.int4 (Storage.parameters_of (Some f)) = false).
  { apply not_true_is_false. intro H. apply Hfit.
    now apply given_integers_fit. }
  assert (Hsome : exists z, In (Some z) (Spec.bounds f)).
  { destruct (Schema.PropertyFilter.minPrice f) as [z|] eqn:E1;
      [exists z; rewrite <- E1; simpl; auto|].
    destruct (Schema.PropertyFilter.maxPrice f) as [z|] eqn:E2;
      [exists z; rewrite <- E2; simpl; auto|].
    destruct (Schema.PropertyFilter.bedrooms f) as [z|] eqn:E3;
      [exists z; rewrite <- E3; simpl; auto|].
    destruct (Schema.PropertyFilter.bathrooms f) as [z|] eqn:E4;
      [exists z; rewrite <- E4; simpl; auto|].
    destruct (Schema.PropertyFilter.minArea f) as [z|] eqn:E5;
      [exists z; rewrite <- E5; simpl; auto 7|].
    destruct (Schema.PropertyFilter.maxArea f) as [z|] eqn:E6;
      [exists z; rewrite <- E6; simpl; auto 7|].
    exfalso. apply Hfit. intros z Hz. unfold Spec.bounds in Hz.
    rewrite E1, E2, E3, E4, E5, E6 in Hz.
    destruct Hz as [H|[H|[H|[H|[H|[H|[]]]]]]]; discriminate H. }
  destruct Hsome as (z & Hz).
  rewrite (queryConditions_of_bound f z Hz). unfold bind.
  now rewrite parameters_refused.
Qed.

(** C1, as amended.  For every filter whose numeric bounds fit the 32 bits
    of an integer column, [getProperties] returns, in storage order, exactly
    the properties that satisfy the conjunction of the per-field conditions
    of the filter (equality for category, type, city, location, status and
    featured; inclusive lower bounds for minPrice, bedrooms, bathrooms and
    minArea; inclusive upper bounds for maxPrice and maxArea), where a
    string field counts as present only when it is not the empty string;
    with no field present, and with no filter at all, it returns every
    property.  For a filter with a bound that does not fit, it throws.  The
    state is left as it was in every case. *)
Theorem getProperties_conjunction (s : Server) (f : Schema.PropertyFilter.t) :
  (Spec.all_fit (Spec.bounds f) ->
   Storage.getProperties (Some f) s
   = (Returned (filter (Spec.matches (Spec.effective f))
                       (Schema.rows (Schema.properties (database s)))), s))
  /\ (~ Spec.all_fit (Spec.bounds f) ->
      exists error, Storage.getProperties (Some f) s = (Thrown error, s))
  /\ Storage.getProperties (Some Schema.PropertyFilter.empty) s
     = (Returned (Schema.rows (Schema.properties (database s))), s)
  /\ Storage.getProperties None s
     = (Returned (Schema.rows (Schema.properties (database s))), s).
Proof.
  split; [apply getProperties_fit|].
  split; [intro H; eexists; now apply getProperties_refused|].
  split; reflexivity.
Qed.

(** The theorem at the seeded database: three bedrooms or more, and a
    price that no integer column can hold. *)
Lemma getProperties_conjunction_witness :
  Storage.getProperties (Some Sample.spacious) Sample.server
  = (Returned [Sample.skyline], Sample.server)
  /\ exists error,
       Storage.getProperties (Some Sample.priceless) Sample.server
       = (Thrown error, Sample.server).
Proof.
  split.
  - assert (Hfit : Spec.all_fit (Spec.bounds Sample.spacious)).
    { intros z [H|[H|[H|[H|[H|[H|[]]]]]]]; try discriminate H.
      injection H as <-. unfold Spec.fits. lia. }
    exact (proj1 (getProperties_conjunction Sample.server Sample.spacious)
                 Hfit).
  - assert (Hlarge : ~ Spec.all_fit (Spec.bounds Sample.priceless)).
    { intro H. specialize (H 99999999999 (or_introl eq_refl)).
      unfold Spec.fits in H. lia. }
    exact (proj1 (proj2 (getProperties_conjunction Sample.server
                           Sample.priceless)) Hlarge).
Defined.

(** C1, as stated, fails on a filter whose category is the empty string:
    the field is present, the specification asks for the properties whose
    category is empty, and [getProperties] pushes no condition for it. *)
Lemma getProperties_empty_category_counterexample :
  ~ (forall (s : Server) (f : Schema.PropertyFilter.t),
       fst (Storage.getProperties (Some f) s)
       = Returned (filter (Spec.matches f)
                          (Schema.rows (Schema.properties (database s))))).
Proof.
  intro claim.
  specialize (claim Sample.server
    {| Schema.PropertyFilter.category := Some "";
       Schema.PropertyFilter.type := None;
       Schema.PropertyFilter.city := None;
       Schema.PropertyFilter.location := None;
       Schema.PropertyFilter.minPrice := None;
       Schema.PropertyFilter.maxPrice := None;
       Schema.PropertyFilter.bedrooms := None;
       Schema.PropertyFilter.bathrooms := None;
       Schema.PropertyFilter.minArea := None;
       Schema.PropertyFilter.maxArea := None;
       Schema.PropertyFilter.status := None;
       Schema.PropertyFilter.featured := None |}).
  vm_compute in claim. discriminate claim.
Qed.

(** The filter object of [GET /api/properties] never has a [bathrooms]
    property, whatever the query string holds. *)
Lemma get_set_other (k k' : string) (v : Js.value) (o : Js.object) :
  k' <> k -> Js.get k (Js.set k' v o) = Js.get k o.
Proof.
  intro Hk. induction o as [|[k0 v0] o IH]; simpl.
  - destruct (String.eqb_spec k' k); congruence.
  - destruct (String.eqb_spec k0 k') as [->|Hk0]; simpl.
    + destruct (String.eqb_spec k' k); congruence.
    + now rewrite IH.
Qed.

Lemma copy_string_other (q : Routes.Query) (k k' : string) (o : Js.object) :
  k' <> k -> Js.get k (Routes.copy_string q k' o) = Js.get k o.
Proof.
  intro Hk. unfold Routes.copy_string.
  destruct (Routes.query_get k' q) as [v|]; [|reflexivity].
  destruct (Js.truthy (Routes.value_of v)); [|reflexivity].
  now apply get_set_other.
Qed.

Lemma copy_int_other (q : Routes.Query) (k k' : string) (o : Js.object) :
  k' <> k -> Js.get k (Routes.copy_int q k' o) = Js.get k o.
Proof.
  intro Hk. unfold Routes.copy_int.
  destruct (Routes.query_get k' q) as [v|]; [|reflexivity].
  destruct (Js.truthy (Routes.value_of v)); [|reflexivity].
  now apply get_set_other.
Qed.

Lemma copy_flag_other (q : Routes.Query) (k k' : string) (o : Js.object) :
  k' <> k -> Js.get k (Routes.copy_flag q k' o) = Js.get k o.
Proof.
  intro Hk. unfold Routes.copy_flag.
  destruct (Routes.query_get k' q) as [v|]; [|reflexivity].
  destruct (Js.truthy (Routes.value_of v)); [|reflexivity].
  now apply get_set_other.
Qed.

Lemma filter_of_query_without_bathrooms (q : Routes.Query) :
  Js.get "bathrooms" (Routes.filter_of_query q) = Js.Undefined.
Proof.
  unfold Routes.filter_of_query.
  repeat first [ rewrite copy_string_other by discriminate
               | rewrite copy_int_other by discriminate
               | rewrite copy_flag_other by discriminate ].
  reflexivity.
Qed.

(** C2, at the failing input.  The handler copies eleven query parameters
    into the filter and leaves [bathrooms] out, so the parsed filter has no
    bathrooms bound; on [?bathrooms=3] the seeded property with two
    bathrooms is returned. *)
Theorem get_properties_ignores_bathrooms :
  (forall q,
     match Zod.propertyFilterSchema (Js.Obj (Routes.filter_of_query q)) with
     | Zod.Success data => Schema.PropertyFilter.bathrooms data = None
     | Zod.Failure _ => True
     end)
  /\ Routes.get_properties [("bathrooms", Routes.QStr "3")] Sample.server
     = (Returned {| status := 200; body := Properties [Sample.skyline] |},
        Sample.server)
  /\ Schema.Property.bathrooms Sample.skyline = Some 2
  /\ Storage.getProperties
       (Some {| Schema.PropertyFilter.category := None;
                Schema.PropertyFilter.type := None;
                Schema.PropertyFilter.city := None;
                Schema.PropertyFilter.location := None;
                Schema.PropertyFilter.minPrice := None;
                Schema.PropertyFilter.maxPrice := None;
                Schema.PropertyFilter.bedrooms := None;
                Schema.PropertyFilter.bathrooms := Some 3;
                Schema.PropertyFilter.minArea := None;
                Schema.PropertyFilter.maxArea := None;
                Schema.PropertyFilter.status := None;
                Schema.PropertyFilter.featured := None |})
       Sample.server
     = (Returned [], Sample.server).
Proof.
  split; [|repeat split; vm_compute; reflexivity].
  intro q. unfold Zod.propertyFilterSchema.
  rewrite filter_of_query_without_bathrooms.
  repeat match goal with
         | |- context [Zod.optional ?c (Js.get ?k ?o)] =>
             destruct (Zod.optional c (Js.get k o)); try exact I
         end.
  reflexivity.
Qed.

(* ===================================================================== *)
(** * Saving and unsaving *)
(* ===================================================================== *)

Lemma holds_same_pair (userId propertyId : Z) (r : Schema.SavedProperty.row) :
  Drizzle.holds (Storage.same_pair userId propertyId) r
  = (Schema.SavedProperty.userId r =? userId)
    && (Schema.SavedProperty.propertyId r =? propertyId).
Proof.
  unfold Storage.same_pair. rewrite holds_and. simpl.
  unfold Drizzle.holds; simpl.
  destruct (Schema.SavedProperty.userId r =? userId);
    destruct (Schema.SavedProperty.propertyId r =? propertyId); reflexivity.
Qed.

Lemma select_same_pair (userId propertyId : Z) (s : Server) :
  Drizzle.select_from_where (Schema.savedProperties (database s))
    (Storage.same_pair userId propertyId)
  = History.rows_of userId propertyId s.
Proof.
  unfold Drizzle.select_from_where, History.rows_of.
  apply filter_ext. intro r. apply holds_same_pair.
Qed.

(** What one call of [saveProperty] does, by whether the pair is stored. *)
Lemma saveProperty_found now v s first rest :
  History.rows_of (Schema.InsertSavedProperty.userId v)
                  (Schema.InsertSavedProperty.propertyId v) s = first :: rest ->
  Storage.saveProperty now v s = (Returned first, s).
Proof.
  intro H. unfold Storage.saveProperty, bind, read.
  rewrite select_same_pair, H. reflexivity.
Qed.

Lemma saveProperty_absent now v s :
  History.rows_of (Schema.InsertSavedProperty.userId v)
                  (Schema.InsertSavedProperty.propertyId v) s = [] ->
  Storage.saveProperty now v s = Storage.insert_savedProperties now v s.
Proof.
  intro H. unfold Storage.saveProperty, bind, read.
  rewrite select_same_pair, H. reflexivity.
Qed.

Lemma rows_of_insert now v s u p :
  History.rows_of u p (snd (Storage.insert_savedProperties now v s))
  = History.rows_of u p s
    ++ (if (Schema.InsertSavedProperty.userId v =? u)
           && (Schema.InsertSavedProperty.propertyId v =? p)
        then [match fst (Storage.insert_savedProperties now v s) with
              | Returned r => r
              | Thrown _ =>
                  {| Schema.SavedProperty.id := 0;
                     Schema.SavedProperty.userId := 0;
                     Schema.SavedProperty.propertyId := 0;
                     Schema.SavedProperty.createdAt := None |}
              end]
        else []).
Proof.
  unfold History.rows_of, Storage.insert_savedProperties,
    Drizzle.insert_returning; simpl.
  rewrite filter_app; simpl.
  destruct ((Schema.InsertSavedProperty.userId v =? u)
            && (Schema.InsertSavedProperty.propertyId v =? p)); reflexivity.
Qed.

(** After a call of [saveProperty] the pair is stored and the returned row
    is the first stored row for it. *)
Lemma saveProperty_stores now v s :
  exists row rest,
    fst (Storage.saveProperty now v s) = Returned row
    /\ History.rows_of (Schema.InsertSavedProperty.userId v)
                       (Schema.InsertSavedProperty.propertyId v)
                       (snd (Storage.saveProperty now v s)) = row :: rest.
Proof.
  destruct (History.rows_of (Schema.InsertSavedProperty.userId v)
              (Schema.InsertSavedProperty.propertyId v) s)
    as [|first rest] eqn:H.
  - rewrite (saveProperty_absent _ _ _ H), rows_of_insert, H.
    rewrite !Z.eqb_refl. simpl. eexists; exists []. split; reflexivity.
  - rewrite (saveProperty_found now _ _ _ _ H). simpl.
    exists first, rest. now split.
Qed.

Lemma filter_filter_length {A : Type} (f g : A -> bool) (l : list A) :
  (List.length (filter f (filter g l)) <= List.length (filter f l))%nat.
Proof.
  induction l as [|a l IH]; simpl; [lia|].
  destruct (g a); simpl; destruct (f a); simpl; lia.
Qed.

(** In a sequential history no pair is ever stored twice. *)
Lemma step_at_most_one (s : Server) (c : History.call) :
  (forall u p, (List.length (History.rows_of u p s) <= 1)%nat) ->
  forall u p, (List.length (History.rows_of u p (History.step s c)) <= 1)%nat.
Proof.
  intros Hs u p. destruct c as [now cu cp | cu cp]; simpl.
  - set (v := {| Schema.InsertSavedProperty.userId := cu;
                 Schema.InsertSavedProperty.propertyId := cp |}).
    destruct (History.rows_of cu cp s) as [|first rest] eqn:H.
    + rewrite (saveProperty_absent now v s H), rows_of_insert. simpl.
      destruct ((cu =? u) && (cp =? p)) eqn:E.
      * apply andb_true_iff in E as [Eu Ep].
        apply Z.eqb_eq in Eu, Ep. subst. rewrite H. simpl. lia.
      * rewrite app_nil_r. apply Hs.
    + rewrite (saveProperty_found now v s first rest H). apply Hs.
  - unfold History.rows_of, Storage.unsaveProperty, write,
      Drizzle.delete_where; simpl.
    eapply Nat.le_trans; [apply filter_filter_length | apply Hs].
Qed.

Lemma run_at_most_one (h : list History.call) (u p : Z) :
  (List.length (History.rows_of u p (History.run h)) <= 1)%nat.
Proof.
  unfold History.run. revert u p.
  induction h as [|c h IH] using rev_ind; intros u p.
  - simpl. lia.
  - rewrite fold_left_app. simpl. now apply step_at_most_one.
Qed.

(** C3.  After any sequence of save and unsave calls made one after the
    other, calling [saveProperty] twice with the same pair (at any two
    times) leaves exactly one stored row for the pair; the second call
    returns that row, the one the first call returned, and changes
    nothing. *)
Theorem saveProperty_idempotent (h : list History.call)
    (now1 now2 userId propertyId : Z) :
  let v := {| Schema.InsertSavedProperty.userId := userId;
              Schema.InsertSavedProperty.propertyId := propertyId |} in
  let first := Storage.saveProperty now1 v (History.run h) in
  let second := Storage.saveProperty now2 v (snd first) in
  exists row,
    fst first = Returned row
    /\ fst second = Returned row
    /\ snd second = snd first
    /\ History.rows_of userId propertyId (snd second) = [row].
Proof.
  intros v first second.
  destruct (saveProperty_stores now1 v (History.run h)) as (row & rest & Hr & Hrows).
  fold first in Hr, Hrows.
  assert (Hsecond : second = (Returned row, snd first)).
  { unfold second. apply (saveProperty_found now2 v (snd first) row rest Hrows). }
  exists row. rewrite Hsecond. simpl. repeat split; try assumption.
  pose proof (run_at_most_one (h ++ [History.save now1 userId propertyId])
                userId propertyId) as Hone.
  unfold History.run in Hone. rewrite fold_left_app in Hone. simpl in Hone.
  fold (History.run h) in Hone. fold v in Hone. fold first in Hone.
  simpl in Hrows. rewrite Hrows in *. simpl in Hone.
  destruct rest; [reflexivity | simpl in Hone; lia].
Qed.


Lemma filter_negb_filter {A : Type} (f : A -> bool) (l : list A) :
  filter f (filter (fun a => negb (f a)) l) = [].
Proof.
  induction l as [|a l IH]; simpl; [reflexivity|].
  destruct (f a) eqn:E; simpl; [assumption|].
  now rewrite E.
Qed.

(** [unsaveProperty] removes the rows of the pair, and nothing when there
    is none. *)
Lemma rows_of_unsaveProperty (userId propertyId : Z) (s : Server) :
  History.rows_of userId propertyId
    (snd (Storage.unsaveProperty userId propertyId s)) = [].
Proof.
  unfold History.rows_of, Storage.unsaveProperty, write, Drizzle.delete_where.
  simpl.
  rewrite <- (filter_ext _ _ (holds_same_pair userId propertyId)).
  apply filter_negb_filter.
Qed.


(** The route, for a user of the session and a path that parses. *)
Lemma delete_saved_properties_run (u : Schema.User.row) (propertyId : string)
    (n : Z) (s : Server) :
  Js.parseInt propertyId = Js.Num n ->
  Routes.delete_saved_properties propertyId (Some (userWithoutPassword u)) s
  = if Drizzle.int4 (Schema.User.id u) && Drizzle.int4 n
    then (Returned
            (respond 200
               (message_only "Property removed from saved list successfully")),
          snd (Storage.unsaveProperty (Schema.User.id u) n s))
    else (Returned
            (respond 500 (message_only "Failed to remove saved property")), s).
Proof.
  intro Hn. unfold Routes.delete_saved_properties, Routes.isAuthenticated.
  rewrite Hn. unfold try_catch, bind, Routes.integer, Storage.parameters.
  replace (Js.get "id" (userWithoutPassword u))
    with (Js.Number (Js.Num (Schema.User.id u))) by reflexivity.
  cbn [Js.isNaN forallb]. rewrite andb_true_r.
  now destruct (Drizzle.int4 (Schema.User.id u) && Drizzle.int4 n).
Qed.




(* ===================================================================== *)
(** * Ordered listings *)
(* ===================================================================== *)

Section OrderBy.

Context {R : Type} (key : R -> option Z).

Lemma desc_total (a b : option Z) :
  Drizzle.desc a b = false -> Drizzle.desc b a = true.
Proof.
  destruct a as [x|], b as [y|]; simpl; try discriminate; try reflexivity.
  intro H. apply Z.leb_gt in H. apply Z.leb_le. lia.
Qed.

Lemma desc_trans (a b c : option Z) :
  Drizzle.desc a b = true -> Drizzle.desc b c = true -> Drizzle.desc a c = true.
Proof.
  destruct a as [x|], b as [y|], c as [z|]; simpl;
    try discriminate; try reflexivity.
  intros H1 H2. apply Z.leb_le in H1, H2. apply Z.leb_le. lia.
Qed.

Lemma place_permutation (r : R) (l : list R) :
  Permutation (r :: l) (Drizzle.place key r l).
Proof.
  induction l as [|x l IH]; simpl; [reflexivity|].
  destruct (Drizzle.desc (key r) (key x)); [reflexivity|].
  rewrite perm_swap. now constructor.
Qed.

Lemma orderBy_desc_permutation (l : list R) :
  Permutation l (Drizzle.orderBy_desc key l).
Proof.
  induction l as [|r l IH]; simpl; [reflexivity|].
  rewrite <- place_permutation. now constructor.
Qed.

Lemma place_sorted (r : R) (l : list R) :
  StronglySorted (Spec.before key) l -> StronglySorted (Spec.before key) (Drizzle.place key r l).
Proof.
  induction 1 as [|x l Hl IH Hx]; simpl.
  - constructor; constructor.
  - destruct (Drizzle.desc (key r) (key x)) eqn:E.
    + constructor; [now constructor|].
      constructor; [exact E|].
      eapply Forall_impl; [|exact Hx].
      intros y Hy. unfold Spec.before in *. eapply desc_trans; eassumption.
    + constructor; [exact IH|].
      eapply Permutation_Forall; [apply place_permutation|].
      constructor; [|exact Hx].
      unfold Spec.before. now apply desc_total.
Qed.

Lemma orderBy_desc_sorted (l : list R) :
  StronglySorted (Spec.before key) (Drizzle.orderBy_desc key l).
Proof.
  induction l as [|r l IH]; simpl; [constructor|].
  now apply place_sorted.
Qed.

Lemma sorted_newest_first (l : list R) :
  StronglySorted (Spec.before key) l -> Spec.newest_first key l.
Proof.
  induction 1 as [|x l Hl IH Hx]; intros l1 a l2 b l3 E ta tb Ha Hb.
  - destruct l1; discriminate E.
  - destruct l1 as [|y l1]; simpl in E; injection E as -> ->.
    + rewrite Forall_forall in Hx.
      assert (Hab : Spec.before key a b).
      { apply Hx. apply in_or_app. right. now left. }
      unfold Spec.before in Hab. rewrite Ha, Hb in Hab. simpl in Hab.
      now apply Z.leb_le.
    + eapply IH; eauto.
Qed.

Lemma orderBy_desc_newest_first (l : list R) :
  Spec.newest_first key (Drizzle.orderBy_desc key l).
Proof. apply sorted_newest_first, orderBy_desc_sorted. Qed.

End OrderBy.

Lemma filter_twice {A : Type} (f g : A -> bool) (l : list A) :
  filter f (filter g l) = filter (fun a => g a && f a) l.
Proof.
  induction l as [|a l IH]; simpl; [reflexivity|].
  destruct (g a); simpl; [destruct (f a)|]; now rewrite IH.
Qed.

(** The joined rows behind [getSavedProperties]: the pairs of a saved row
    of the user and the property it names, each as often as stored. *)
Lemma getSavedProperties_result_rows (s : Server) (userId : Z) :
  Permutation
    (filter
       (fun r => (Schema.SavedProperty.userId (fst r) =? userId)
                 && (Schema.SavedProperty.propertyId (fst r)
                     =? Schema.Property.id (snd r)))
       (list_prod (Schema.rows (Schema.savedProperties (database s)))
                  (Schema.rows (Schema.properties (database s)))))
    (Storage.getSavedProperties_result userId (database s))
  /\ forall saved property,
       In (saved, property) (Storage.getSavedProperties_result userId (database s))
       <-> In saved (Schema.rows (Schema.savedProperties (database s)))
           /\ In property (Schema.rows (Schema.properties (database s)))
           /\ Schema.SavedProperty.userId saved = userId
           /\ Schema.SavedProperty.propertyId saved = Schema.Property.id property.
Proof.
  assert (Hperm : Permutation
    (filter
       (fun r => (Schema.SavedProperty.userId (fst r) =? userId)
                 && (Schema.SavedProperty.propertyId (fst r)
                     =? Schema.Property.id (snd r)))
       (list_prod (Schema.rows (Schema.savedProperties (database s)))
                  (Schema.rows (Schema.properties (database s)))))
    (Storage.getSavedProperties_result userId (database s))).
  { unfold Storage.getSavedProperties_result, Drizzle.innerJoin.
    rewrite <- orderBy_desc_permutation.
    rewrite filter_twice.
    erewrite filter_ext; [reflexivity|].
    intros [saved property]. unfold Drizzle.holds; simpl.
    destruct (Schema.SavedProperty.userId saved =? userId);
      destruct (Schema.SavedProperty.propertyId saved
                =? Schema.Property.id property); reflexivity. }
  split; [exact Hperm|].
  intros saved property. split.
  - intro Hin. apply (Permutation_in _ (Permutation_sym Hperm)) in Hin.
    apply filter_In in Hin as [Hin Hc]. apply in_prod_iff in Hin as [H1 H2].
    simpl in Hc. apply andb_true_iff in Hc as [Hu Hp].
    apply Z.eqb_eq in Hu, Hp. auto.
  - intros (H1 & H2 & Hu & Hp). apply (Permutation_in _ Hperm).
    apply filter_In. split; [now apply in_prod_iff|].
    simpl. apply andb_true_iff. split; now apply Z.eqb_eq.
Qed.

(** C8.  [getEnquiries] returns all the enquiries, each as often as it is
    stored, newest first by [createdAt]; [getSavedProperties] returns the
    properties of the rows that the user has saved, one for each pair of a
    saved row of the user and the property it names, newest first by the
    [createdAt] of the saved row.  Neither changes the state. *)
Theorem listings_newest_first (s : Server) (userId : Z) :
  (exists result,
     Storage.getEnquiries s = (Returned result, s)
     /\ Permutation (Schema.rows (Schema.enquiries (database s))) result
     /\ Spec.newest_first Schema.Enquiry.createdAt result)
  /\
  (exists joined,
     Storage.getSavedProperties userId s = (Returned (map snd joined), s)
     /\ Spec.newest_first (fun r => Schema.SavedProperty.createdAt (fst r)) joined
     /\ Permutation
          (filter
             (fun r => (Schema.SavedProperty.userId (fst r) =? userId)
                       && (Schema.SavedProperty.propertyId (fst r)
                           =? Schema.Property.id (snd r)))
             (list_prod (Schema.rows (Schema.savedProperties (database s)))
                        (Schema.rows (Schema.properties (database s)))))
          joined
     /\ forall saved property,
          In (saved, property) joined
          <-> In saved (Schema.rows (Schema.savedProperties (database s)))
              /\ In property (Schema.rows (Schema.properties (database s)))
              /\ Schema.SavedProperty.userId saved = userId
              /\ Schema.SavedProperty.propertyId saved = Schema.Property.id property).
Proof.
  split.
  - eexists. split; [reflexivity|]. split.
    + apply orderBy_desc_permutation.
    + apply orderBy_desc_newest_first.
  - exists (Storage.getSavedProperties_result userId (database s)).
    split; [reflexivity|]. split; [apply orderBy_desc_newest_first|].
    apply getSavedProperties_result_rows.
Qed.

(* ===================================================================== *)
(** * The property invariant *)
(* ===================================================================== *)


Lemma Forall_filter {A : Type} (P : A -> Prop) (f : A -> bool) (l : list A) :
  Forall P l -> Forall P (filter f l).
Proof.
  intro H. apply Forall_forall. intros a Ha.
  apply filter_In in Ha as [Ha _]. rewrite Forall_forall in H. now apply H.
Qed.

Lemma Forall_firstn {A : Type} (P : A -> Prop) (n : nat) (l : list A) :
  Forall P l -> Forall P (firstn n l).
Proof.
  intro H. revert n. induction H as [|a l Ha Hl IH]; intros [|n]; simpl;
    constructor; auto.
Qed.

Lemma Forall_hd_error {A : Type} (P : A -> Prop) (l : list A) (a : A) :
  Forall P l -> hd_error l = Some a -> P a.
Proof.
  intros H E. destruct l; [discriminate|].
  injection E as ->. now inversion H.
Qed.

Lemma hd_error_filter {A : Type} (f : A -> bool) (l : list A) :
  hd_error (filter f l) = find f l.
Proof.
  induction l as [|a l IH]; simpl; [reflexivity|].
  now destruct (f a).
Qed.


(** [.limit(n)], by whether the database takes the count. *)
Lemma limit_up_to {R : Type} (limit : Js.number) (l : list R) :
  Spec.limit_taken limit ->
  Drizzle.limit limit l = Some (Spec.up_to limit l).
Proof.
  destruct limit as [|z]; simpl; [reflexivity|]. intro Hz.
  unfold Drizzle.int8.
  destruct (Z.leb_spec 0 z) as [H0|H0].
  - replace (z <? 0) with false by (symmetry; apply Z.ltb_ge; lia).
    replace (-9223372036854775808 <=? z) with true
      by (symmetry; apply Z.leb_le; lia).
    now replace (z <=? 9223372036854775807) with true
      by (symmetry; apply Z.leb_le; lia).
  - now replace (z <? 0) with true by (symmetry; apply Z.ltb_lt; lia).
Qed.

Lemma limit_refused {R : Type} (limit : Js.number) (l : list R) :
  ~ Spec.limit_taken limit -> Drizzle.limit limit l = None.
Proof.
  destruct limit as [|z]; simpl; [intro H; now contradiction H|]. intro Hz.
  unfold Drizzle.int8.
  replace (0 <=? z) with true by (symmetry; apply Z.leb_le; lia).
  replace (z <=? 9223372036854775807) with false
    by (symmetry; apply Z.leb_gt; lia).
  now rewrite andb_false_r.
Qed.



(** [getProperty], by whether the identifier fits the column. *)
Lemma getProperty_find (id : Z) (s : Server) :
  Storage.getProperty id s
  = if Drizzle.int4 id
    then (Returned (find (fun p => Schema.Property.id p =? id)
                         (Schema.rows (Schema.properties (database s)))), s)
    else (Thrown "value out of range for type integer", s).
Proof.
  unfold Storage.getProperty, bind, Storage.parameters. cbn [forallb].
  rewrite andb_true_r. destruct (Drizzle.int4 id); [|reflexivity].
  unfold read, ret, Drizzle.select_from_where.
  rewrite hd_error_filter. do 2 f_equal.
  induction (Schema.rows (Schema.properties (database s))) as [|p l IH]; simpl;
    [reflexivity|].
  unfold Drizzle.holds at 1; simpl.
  rewrite IH. now destruct (Schema.Property.id p =? id).
Qed.



(* ===================================================================== *)
(** * Users: looking up, registering, logging in *)
(* ===================================================================== *)

Lemma getUserByUsername_find (username : string) (s : Server) :
  Storage.getUserByUsername username s
  = (Returned (find (fun u => (Schema.User.username u =? username)%string)
                    (Schema.rows (Schema.users (database s)))), s).
Proof.
  unfold Storage.getUserByUsername, bind, read, ret,
    Drizzle.select_from_where.
  rewrite hd_error_filter. do 2 f_equal.
  induction (Schema.rows (Schema.users (database s))) as [|u l IH]; simpl;
    [reflexivity|].
  unfold Drizzle.holds at 1; simpl.
  rewrite IH. now destruct (Schema.User.username u =? username)%string.
Qed.

Lemma getUser_find (id : Z) (s : Server) :
  Storage.getUser id s
  = (Returned (find (fun u => Schema.User.id u =? id)
                    (Schema.rows (Schema.users (database s)))), s).
Proof.
  unfold Storage.getUser, bind, read, ret, Drizzle.select_from_where.
  rewrite hd_error_filter. do 2 f_equal.
  induction (Schema.rows (Schema.users (database s))) as [|u l IH]; simpl;
    [reflexivity|].
  unfold Drizzle.holds at 1; simpl.
  rewrite IH. now destruct (Schema.User.id u =? id).
Qed.

(** The object sent for a user has no [password] property and keeps the
    others. *)
Lemma userWithoutPassword_fields (u : Schema.User.row) :
  Js.get "password" (userWithoutPassword u) = Js.Undefined
  /\ Js.get "id" (userWithoutPassword u) = Js.Number (Js.Num (Schema.User.id u))
  /\ Js.get "username" (userWithoutPassword u) = Js.Str (Schema.User.username u)
  /\ Js.get "role" (userWithoutPassword u) = Js.Str (Schema.User.role u).
Proof. repeat split. Qed.

(** [insert_users] goes through when neither the username nor the email is
    taken. *)
Lemma insert_users_fresh (v : Schema.InsertUser.t) (now : Z) (s : Server) :
  (forall u, In u (Schema.rows (Schema.users (database s))) ->
             Schema.User.username u <> Schema.InsertUser.username v) ->
  (forall u e, In u (Schema.rows (Schema.users (database s))) ->
               Schema.User.email u = Some e ->
               Schema.InsertUser.email v <> Some e) ->
  let user :=
    {| Schema.User.id := Schema.serial (Schema.users (database s));
       Schema.User.username := Schema.InsertUser.username v;
       Schema.User.password := Schema.InsertUser.password v;
       Schema.User.email := Schema.InsertUser.email v;
       Schema.User.name := Schema.InsertUser.name v;
       Schema.User.phone := Schema.InsertUser.phone v;
       Schema.User.role := "user";
       Schema.User.profileImage := None;
       Schema.User.createdAt := Some now |} in
  Storage.insert_users v now s
  = (Returned user,
     {| database :=
          Storage.with_users
            {| Schema.rows := Schema.rows (Schema.users (database s)) ++ [user];
               Schema.serial := Schema.serial (Schema.users (database s)) + 1 |}
            (database s);
        session := session s |}).
Proof.
  intros Hname Hemail user. unfold Storage.insert_users.
  replace (existsb _ _) with false; [reflexivity|].
  symmetry. apply not_true_is_false. intro Hex.
  apply existsb_exists in Hex as (u & Hin & Hclash).
  apply orb_true_iff in Hclash as [Hu | He].
  - apply String.eqb_eq in Hu. now apply (Hname u).
  - unfold Drizzle.clashes in He.
    destruct (Schema.User.email u) as [e|] eqn:Eu; [|discriminate].
    destruct (Schema.InsertUser.email v) as [e'|] eqn:Ev; [|discriminate].
    apply String.eqb_eq in He. subst e'. now apply (Hemail u e).
Qed.

(** C4, as stated, fails when the username is new and the email belongs to
    an existing user: [users.email] is unique, the insert throws, and the
    handler answers 500. *)
Lemma register_taken_email_counterexample :
  ~ (forall (B : Bcrypt) (salt : string) (now : Z) (body : Js.value)
            (data : Schema.InsertUser.t) (s : Server),
       Zod.insertUserSchema body = Zod.Success data ->
       (forall u, In u (Schema.rows (Schema.users (database s))) ->
                  Schema.User.username u <> Schema.InsertUser.username data) ->
       exists user s',
         Routes.post_users_register salt now body s
         = (Returned (respond 201 (Js.Obj (userWithoutPassword user))), s')).
Proof.
  intro claim.
  destruct (claim Sample.bcrypt "salt" 2000
              (Js.Obj [("username", Js.Str "bob");
                       ("password", Js.Str "secret1");
                       ("email", Js.Str "alice@example.com")])
              {| Schema.InsertUser.username := "bob";
                 Schema.InsertUser.password := "secret1";
                 Schema.InsertUser.email := Some "alice@example.com";
                 Schema.InsertUser.name := None;
                 Schema.InsertUser.phone := None |}
              Sample.server eq_refl) as (user & s' & H).
  - intros u [<- | [<- | []]]; discriminate.
  - vm_compute in H. discriminate H.
Qed.

(** C4, as amended.  For a body that passes [insertUserSchema]: when the
    username names an existing user the answer is 409 and the state is
    unchanged; when it names none and the email, if any, is not the email of
    an existing user, the answer is 201 with the created user without its
    [password] property, and the user is stored last, under the next
    identifier, with the hash of the password, role [user] and the time of
    the request. *)
Theorem register_conflict_or_created `{Bcrypt} (salt : string) (now : Z)
    (body : Js.value) (data : Schema.InsertUser.t) (s : Server) :
  Zod.insertUserSchema body = Zod.Success data ->
  ((exists u, In u (Schema.rows (Schema.users (database s)))
              /\ Schema.User.username u = Schema.InsertUser.username data) ->
   Routes.post_users_register salt now body s
   = (Returned (respond 409 (message_only "Username already exists")), s))
  /\
  ((forall u, In u (Schema.rows (Schema.users (database s))) ->
              Schema.User.username u <> Schema.InsertUser.username data) ->
   (forall u e, In u (Schema.rows (Schema.users (database s))) ->
                Schema.User.email u = Some e ->
                Schema.InsertUser.email data <> Some e) ->
   let user :=
     {| Schema.User.id := Schema.serial (Schema.users (database s));
        Schema.User.username := Schema.InsertUser.username data;
        Schema.User.password :=
          bcrypt_hash (Schema.InsertUser.password data) 10 salt;
        Schema.User.email := Schema.InsertUser.email data;
        Schema.User.name := Schema.InsertUser.name data;
        Schema.User.phone := Schema.InsertUser.phone data;
        Schema.User.role := "user";
        Schema.User.profileImage := None;
        Schema.User.createdAt := Some now |} in
   Routes.post_users_register salt now body s
   = (Returned (respond 201 (Js.Obj (userWithoutPassword user))),
      {| database :=
           Storage.with_users
             {| Schema.rows := Schema.rows (Schema.users (database s)) ++ [user];
                Schema.serial := Schema.serial (Schema.users (database s)) + 1 |}
             (database s);
         session := session s |})
   /\ Js.get "password" (userWithoutPassword user) = Js.Undefined).
Proof.
  intro Hparse. split.
  - intros (u & Hin & Hu).
    unfold Routes.post_users_register, try_catch, bind.
    rewrite Hparse, getUserByUsername_find.
    destruct (find _ _) as [existing|] eqn:Hfind; [reflexivity|].
    exfalso. apply (find_none _ _ Hfind) in Hin.
    apply String.eqb_neq in Hin. now apply Hin.
  - intros Hname Hemail user. split; [|reflexivity].
    unfold Routes.post_users_register, try_catch, bind.
    rewrite Hparse, getUserByUsername_find.
    destruct (find _ _) as [existing|] eqn:Hfind.
    + exfalso. apply find_some in Hfind as [Hin Hu].
      apply String.eqb_eq in Hu. now apply (Hname existing).
    + unfold Storage.createUser.
      rewrite insert_users_fresh by assumption. reflexivity.
Qed.

(** The theorem at two requests on the seeded database: [alice] is taken,
    [bob] is not. *)
Lemma register_conflict_or_created_witness :
  Routes.post_users_register (H := Sample.bcrypt) "salt" 2000
    (Js.Obj [("username", Js.Str "alice"); ("password", Js.Str "secret1")])
    Sample.server
  = (Returned (respond 409 (message_only "Username already exists")),
     Sample.server)
  /\ fst (Routes.post_users_register (H := Sample.bcrypt) "salt" 2000
            (Js.Obj [("username", Js.Str "bob"); ("password", Js.Str "secret1")])
            Sample.server)
     = Returned
         (respond 201
            (Js.Obj [("id", Js.Number (Js.Num 3)); ("username", Js.Str "bob");
                     ("email", Js.Null); ("name", Js.Null); ("phone", Js.Null);
                     ("role", Js.Str "user"); ("profileImage", Js.Null);
                     ("createdAt", Js.Number (Js.Num 2000))])).
Proof.
  split.
  - apply (register_conflict_or_created (H := Sample.bcrypt) "salt" 2000
             (Js.Obj [("username", Js.Str "alice"); ("password", Js.Str "secret1")])
             {| Schema.InsertUser.username := "alice";
                Schema.InsertUser.password := "secret1";
                Schema.InsertUser.email := None;
                Schema.InsertUser.name := None;
                Schema.InsertUser.phone := None |}
             Sample.server eq_refl).
    exists Sample.alice. split; [now left | reflexivity].
  - rewrite (proj1 (proj2 (register_conflict_or_created (H := Sample.bcrypt)
               "salt" 2000
               (Js.Obj [("username", Js.Str "bob"); ("password", Js.Str "secret1")])
               {| Schema.InsertUser.username := "bob";
                  Schema.InsertUser.password := "secret1";
                  Schema.InsertUser.email := None;
                  Schema.InsertUser.name := None;
                  Schema.InsertUser.phone := None |}
               Sample.server eq_refl)
             ltac:(intros u [<- | [<- | []]]; discriminate)
             ltac:(intros u e _ _; discriminate))).
    reflexivity.
Defined.

(** What a body accepted by [loginSchema] looks like. *)
Lemma string_min_1 (v : Js.value) (s : string) :
  Zod.string_min 1 v = Some s -> v = Js.Str s /\ Js.truthy (Js.Str s) = true.
Proof.
  destruct v; simpl; try discriminate.
  destruct s0 as [|c rest]; simpl; [discriminate|].
  intro E. injection E as <-. split; reflexivity.
Qed.

Lemma loginSchema_success (body : Js.value) (credentials : Zod.Credentials) :
  Zod.loginSchema body = Zod.Success credentials ->
  exists fields,
    body = Js.Obj fields
    /\ Js.get "username" fields = Js.Str (Zod.username credentials)
    /\ Js.get "password" fields = Js.Str (Zod.password credentials)
    /\ Js.truthy (Js.Str (Zod.username credentials)) = true
    /\ Js.truthy (Js.Str (Zod.password credentials)) = true.
Proof.
  destruct body; simpl; try discriminate.
  destruct (Zod.string_min 1 (Js.get "username" fields)) as [u|] eqn:Hu;
    [|destruct (Zod.string_min 1 (Js.get "password" fields)); discriminate].
  destruct (Zod.string_min 1 (Js.get "password" fields)) as [p|] eqn:Hp;
    [|discriminate].
  intro E. injection E as <-. simpl.
  apply string_min_1 in Hu as [Hu Hut], Hp as [Hp Hpt].
  exists fields. auto.
Qed.

Lemma authenticate_local_verify `{Bcrypt} (body : Js.value)
    (credentials : Zod.Credentials) :
  Zod.loginSchema body = Zod.Success credentials ->
  Auth.authenticate_local body
  = Auth.verify (Zod.username credentials) (Zod.password credentials).
Proof.
  intro Hparse.
  destruct (loginSchema_success _ _ Hparse) as (fields & -> & Hu & Hp & Hut & Hpt).
  unfold Auth.authenticate_local. rewrite Hu, Hp, Hut, Hpt. reflexivity.
Qed.

(** The verify callback, by the three cases of the look-up. *)
Lemma verify_cases `{Bcrypt} (username password : string) (s : Server) :
  Auth.verify username password s
  = (Returned
       match find (fun u => (Schema.User.username u =? username)%string)
                  (Schema.rows (Schema.users (database s))) with
       | None => Auth.done_false "Incorrect username."
       | Some user =>
           if bcrypt_compare password (Schema.User.password user)
           then Auth.done_user user
           else Auth.done_false "Incorrect password."
       end, s).
Proof.
  unfold Auth.verify, try_catch, bind. rewrite getUserByUsername_find.
  destruct (find _ _) as [user|]; [|reflexivity].
  now destruct (bcrypt_compare password (Schema.User.password user)).
Qed.

(** C5, as stated, fails on credentials that match but are empty: a user
    registered with the empty password cannot log in, the login handler
    refuses the body with 400 before it looks the user up. *)
Lemma login_empty_password_counterexample :
  ~ (forall (B : Bcrypt) (username password : string) (s : Server)
            (user : Schema.User.row),
       find (fun u => (Schema.User.username u =? username)%string)
            (Schema.rows (Schema.users (database s))) = Some user ->
       bcrypt_compare password (Schema.User.password user) = true ->
       exists payload s',
         Routes.post_auth_login
           (Js.Obj [("username", Js.Str username); ("password", Js.Str password)]) s
         = (Returned (respond 200 payload), s')).
Proof.
  intro claim.
  destruct (claim Sample.bcrypt "bob" ""
              (snd (Routes.post_users_register (H := Sample.bcrypt) "salt" 2000
                      (Js.Obj [("username", Js.Str "bob"); ("password", Js.Str "")])
                      History.initial))
              {| Schema.User.id := 1;
                 Schema.User.username := "bob";
                 Schema.User.password := "$2a$10$";
                 Schema.User.email := None;
                 Schema.User.name := None;
                 Schema.User.phone := None;
                 Schema.User.role := "user";
                 Schema.User.profileImage := None;
                 Schema.User.createdAt := Some 2000 |}
              eq_refl eq_refl) as (payload & s' & H).
  vm_compute in H. discriminate H.
Qed.

(** C5, as amended.  For every login request whose body passes
    [loginSchema], that is, whose username and password are non-empty
    strings: when no user has the username the answer is 401 with the
    message "Incorrect username."; when the user found has a hash that the
    password does not match, it is 401 with "Incorrect password."; when the
    password matches, it is 200 with the user without its [password]
    property, and the session holds the user's identifier.  The database is
    never changed. *)
Theorem login_outcomes `{Bcrypt} (body : Js.value)
    (credentials : Zod.Credentials) (s : Server) :
  Zod.loginSchema body = Zod.Success credentials ->
  let found :=
    find (fun u => (Schema.User.username u =? Zod.username credentials)%string)
         (Schema.rows (Schema.users (database s))) in
  (found = None ->
   Routes.post_auth_login body s
   = (Returned (respond 401 (message_only "Incorrect username.")), s))
  /\ (forall user,
        found = Some user ->
        bcrypt_compare (Zod.password credentials) (Schema.User.password user)
        = false ->
        Routes.post_auth_login body s
        = (Returned (respond 401 (message_only "Incorrect password.")), s))
  /\ (forall user,
        found = Some user ->
        bcrypt_compare (Zod.password credentials) (Schema.User.password user)
        = true ->
        Routes.post_auth_login body s
        = (Returned
             (respond 200
                (Js.Obj [("message", Js.Str "Login successful");
                         ("user", Js.Obj (userWithoutPassword user))])),
           {| database := database s;
              session := Some (Schema.User.id user) |})
        /\ Js.get "password" (userWithoutPassword user) = Js.Undefined).
Proof.
  intros Hparse found.
  assert (Hrun : Routes.post_auth_login body s
    = match found with
      | None => (Returned (respond 401 (message_only "Incorrect username.")), s)
      | Some user =>
          if bcrypt_compare (Zod.password credentials) (Schema.User.password user)
          then (Returned
                  (respond 200
                     (Js.Obj [("message", Js.Str "Login successful");
                              ("user", Js.Obj (userWithoutPassword user))])),
                {| database := database s;
                   session := Some (Schema.User.id user) |})
          else (Returned (respond 401 (message_only "Incorrect password.")), s)
      end).
  { unfold Routes.post_auth_login, try_catch, bind.
    rewrite Hparse, (authenticate_local_verify _ _ Hparse), verify_cases.
    fold found. destruct found as [user|]; [|reflexivity].
    now destruct (bcrypt_compare _ _). }
  rewrite Hrun. split; [|split].
  - now intros ->.
  - intros user -> ->. reflexivity.
  - intros user -> ->. split; reflexivity.
Qed.

(** The theorem at the seeded user [alice] with her password. *)
Lemma login_outcomes_witness :
  fst (Routes.post_auth_login (H := Sample.bcrypt)
         (Js.Obj [("username", Js.Str "alice"); ("password", Js.Str "secret1")])
         Sample.server)
  = Returned
      (respond 200
         (Js.Obj [("message", Js.Str "Login successful");
                  ("user", Js.Obj (userWithoutPassword Sample.alice))]))
  /\ Js.get "password" (userWithoutPassword Sample.alice) = Js.Undefined.
Proof.
  destruct (proj2 (proj2 (login_outcomes (H := Sample.bcrypt)
              (Js.Obj [("username", Js.Str "alice"); ("password", Js.Str "secret1")])
              {| Zod.username := "alice"; Zod.password := "secret1" |}
              Sample.server eq_refl))
            Sample.alice eq_refl eq_refl) as [Hrun Hfield].
  split; [|exact Hfield].
  rewrite Hrun. reflexivity.
Defined.

(* ===================================================================== *)
(** * Updating a profile *)
(* ===================================================================== *)

(** C7.  A request [PATCH /api/users/:id] made with a session whose user is
    not the user of the path (the path segment does not parse to the
    session user's identifier) is answered 403 and changes nothing, whatever
    the body and whatever the role of the session user. *)
Theorem patch_users_id_forbidden `{EmailFormat} (s : Server)
    (user : Schema.User.row) (id : string) (body : Js.value) :
  Js.parseInt id <> Js.Num (Schema.User.id user) ->
  Routes.patch_users_id id (Some (userWithoutPassword user)) body s
  = (Returned (respond 403 (message_only "You can only update your own profile")),
     s).
Proof.
  intro Hid. unfold Routes.patch_users_id, Routes.isAuthenticated, try_catch.
  replace (Js.get "id" (userWithoutPassword user))
    with (Js.Number (Js.Num (Schema.User.id user))) by reflexivity.
  destruct (Js.parseInt id) as [|z]; [reflexivity|].
  simpl. destruct (Z.eqb_spec (Schema.User.id user) z) as [Heq|Hz].
  - contradiction Hid. now rewrite Heq.
  - reflexivity.
Qed.

(** The theorem at the seeded administrator asking to change [alice]. *)
Lemma patch_users_id_forbidden_witness :
  Js.parseInt "1" <> Js.Num (Schema.User.id Sample.admin)
  /\ Schema.User.role Sample.admin = "admin"
  /\ Routes.patch_users_id (H := Sample.email_format) "1"
       (Some (userWithoutPassword Sample.admin))
       (Js.Obj [("name", Js.Str "Mallory")]) Sample.server
     = (Returned
          (respond 403 (message_only "You can only update your own profile")),
        Sample.server).
Proof.
  assert (Hid : Js.parseInt "1" <> Js.Num (Schema.User.id Sample.admin))
    by discriminate.
  split; [exact Hid|]. split; [reflexivity|].
  exact (patch_users_id_forbidden (H := Sample.email_format) Sample.server
           Sample.admin "1" (Js.Obj [("name", Js.Str "Mallory")]) Hid).
Defined.

Lemma same_account_refl (u : Schema.User.row) : Spec.same_account u u.
Proof. repeat split. Qed.

Lemma only_profile_differs_refl (owner : Js.value) (s : Server) :
  Spec.only_profile_differs owner s s.
Proof.
  repeat split.
  induction (Schema.rows (Schema.users (database s))); constructor;
    auto using same_account_refl.
Qed.

(** An update made of a validated profile touches name, email and phone
    only. *)
Lemma set_user_same_account (data : Zod.ProfileUpdate) (u : Schema.User.row) :
  Spec.same_account u (Storage.set_user (Routes.updates_of data) u).
Proof. repeat split. Qed.

Lemma holds_users_id (id : Z) (u : Schema.User.row) :
  Drizzle.holds (Drizzle.eq Storage.users_id (Drizzle.int id)) u
  = (Schema.User.id u =? id).
Proof.
  unfold Drizzle.holds; simpl. now destruct (Schema.User.id u =? id).
Qed.

Lemma Forall2_map_right {A : Type} (R : A -> A -> Prop) (f : A -> A)
    (l : list A) :
  (forall a, R a (f a)) -> Forall2 R l (map f l).
Proof. intro H. induction l; simpl; constructor; auto. Qed.

(** [updateUser] returns nothing and leaves the state as it is, or returns
    a user and leaves the rows with the identifier updated. *)
Lemma updateUser_cases (id : Z) (updates : Schema.UserUpdates.t) (s : Server) :
  Storage.updateUser id updates s = (Returned None, s)
  \/ exists updated,
       In id (map Schema.User.id (Schema.rows (Schema.users (database s))))
       /\ Storage.updateUser id updates s
          = (Returned (Some updated),
             {| database :=
                  Storage.with_users
                    {| Schema.rows :=
                         map (fun u => if Schema.User.id u =? id
                                       then Storage.set_user updates u else u)
                             (Schema.rows (Schema.users (database s)));
                       Schema.serial :=
                         Schema.serial (Schema.users (database s)) |}
                    (database s);
                session := session s |}).
Proof.
  unfold Storage.updateUser, try_catch, bind. rewrite getUser_find.
  destruct (find _ _) as [existing|] eqn:Hfind; [|now left].
  unfold Storage.update_users.
  destruct (Storage.no_values updates); [now left|].
  match goal with
  | |- context [if ?clash then _ else _] => destruct clash
  end; [now left|].
  right. apply find_some in Hfind as [Hin Hid]. apply Z.eqb_eq in Hid.
  rewrite (filter_ext _ _ (holds_users_id id)).
  rewrite (map_ext _ _
             (fun u => f_equal (fun b : bool =>
                                  if b then Storage.set_user updates u else u)
                               (holds_users_id id u))).
  destruct (filter (fun u => Schema.User.id u =? id)
                   (Schema.rows (Schema.users (database s))))
    as [|first rest] eqn:Hhit.
  - exfalso.
    assert (Hin' : In existing
              (filter (fun u => Schema.User.id u =? id)
                      (Schema.rows (Schema.users (database s)))))
      by (apply filter_In; split; [exact Hin | now apply Z.eqb_eq]).
    now rewrite Hhit in Hin'.
  - exists (Storage.set_user updates first). split; [|reflexivity].
    rewrite <- Hid. now apply in_map.
Qed.

(** The handler, for a user on the request: any answer but 200 leaves the
    state as it is; the answer 200 comes with an update of the user of the
    session, who is the user of the path. *)
Lemma patch_users_id_cases `{EmailFormat} (id : string) (user : Js.object)
    (body : Js.value) (s : Server) :
  (exists response,
     Routes.patch_users_id id (Some user) body s = (Returned response, s)
     /\ status response <> 200)
  \/ exists userId data updated,
       Js.get "id" user = Js.Number (Js.Num userId)
       /\ Js.parseInt id = Js.Num userId
       /\ Zod.updateSchema body = Zod.Success data
       /\ In userId
             (map Schema.User.id (Schema.rows (Schema.users (database s))))
       /\ Storage.updateUser userId (Routes.updates_of data) s
          = (Returned (Some updated),
             {| database :=
                  Storage.with_users
                    {| Schema.rows :=
                         map (fun u =>
                                if Schema.User.id u =? userId
                                then Storage.set_user (Routes.updates_of data) u
                                else u)
                             (Schema.rows (Schema.users (database s)));
                       Schema.serial :=
                         Schema.serial (Schema.users (database s)) |}
                    (database s);
                session := session s |})
       /\ Routes.patch_users_id id (Some user) body s
          = (Returned
               (respond 200
                  (Js.Obj [("message", Js.Str "Profile updated successfully");
                           ("user", Js.Obj (userWithoutPassword updated))])),
             snd (Storage.updateUser userId (Routes.updates_of data) s)).
Proof.
  unfold Routes.patch_users_id, Routes.isAuthenticated, try_catch, bind.
  cbv zeta. cbn [Js.truthy andb].
  destruct (Js.strict_eq (Js.get "id" user) (Js.Number (Js.parseInt id)))
    eqn:Hsame; cbn [negb];
    [|left; eexists; split; [reflexivity | discriminate]].
  destruct (Js.parseInt id) as [|userId] eqn:Hid.
  { destruct (Js.get "id" user) as [| |b|[|z]|str|items|fields];
      discriminate Hsame. }
  assert (Hget : Js.get "id" user = Js.Number (Js.Num userId)).
  { destruct (Js.get "id" user) as [| |b|[|z]|str|items|fields];
      try discriminate Hsame.
    simpl in Hsame. apply Z.eqb_eq in Hsame. now subst. }
  destruct (Zod.updateSchema body) as [data|errors] eqn:Hparse;
    [|left; eexists; split; [reflexivity | discriminate]].
  unfold Routes.integer. rewrite getUser_find.
  destruct (find _ _) as [existing|];
    [|left; eexists; split; [reflexivity | discriminate]].
  destruct (updateUser_cases userId (Routes.updates_of data) s)
    as [Hnone | (updated & Hin & Hsome)].
  - left. rewrite Hnone. eexists. split; [reflexivity | discriminate].
  - right. exists userId, data, updated. rewrite Hsome. repeat split; auto.
Qed.

(** The state after the handler is the state before, or the state after
    [updateUser] on the validated body. *)
Lemma patch_users_id_state `{EmailFormat} (id : string)
    (req_user : option Js.object) (body : Js.value) (s : Server) :
  snd (Routes.patch_users_id id req_user body s) = s
  \/ exists userId data,
       snd (Routes.patch_users_id id req_user body s)
       = snd (Storage.updateUser userId (Routes.updates_of data) s).
Proof.
  destruct req_user as [user|]; [|now left].
  destruct (patch_users_id_cases id user body s)
    as [(response & -> & _) | (userId & data & updated & _ & _ & _ & _ & _ & ->)];
    [now left|].
  right. now exists userId, data.
Qed.

(** C9.  Whatever the request [PATCH /api/users/:id] and however it is
    answered, and so for every successful one: the users before and after
    are the same rows in the same order; a row differs from what it was only
    if its identifier is the one of the session's user, and then it keeps
    its [id], [username], [password], [role], [profileImage] and
    [createdAt] (only name, email and phone may differ); the other tables,
    the serial of the users and the session are as before.  On success
    (status 200) the path names the session's user, the body passed the
    schema of the three fields, the user is stored, and in the user's row
    each of the three fields that the body gives is replaced and nothing
    else, every other row being as it was. *)
Theorem patch_users_id_frame `{EmailFormat} (id : string)
    (req_user : option Js.object) (body : Js.value) (s : Server) :
  let request := Routes.patch_users_id id req_user body s in
  match req_user with
  | None => snd request = s
  | Some user => Spec.only_profile_differs (Js.get "id" user) s (snd request)
  end
  /\ (forall response,
        fst request = Returned response ->
        status response = 200 ->
        exists user userId data,
          req_user = Some user
          /\ Js.get "id" user = Js.Number (Js.Num userId)
          /\ Js.parseInt id = Js.Num userId
          /\ Zod.updateSchema body = Zod.Success data
          /\ In userId
                (map Schema.User.id (Schema.rows (Schema.users (database s))))
          /\ Forall2 (Spec.profile_set userId data)
                (Schema.rows (Schema.users (database s)))
                (Schema.rows (Schema.users (database (snd request))))).
Proof.
  intro request. unfold request.
  destruct req_user as [user|].
  2:{ split; [reflexivity|]. intros response E. simpl in E.
      injection E as <-. discriminate. }
  destruct (patch_users_id_cases id user body s)
    as [(response & -> & Hstatus)
       | (userId & data & updated & Hget & Hid & Hparse & Hin & Hupdate & ->)].
  - split; [apply only_profile_differs_refl|].
    intros response' E. injection E as <-. contradiction.
  - rewrite Hupdate. cbn [fst snd]. split.
    + repeat split; simpl. rewrite Hget.
      apply Forall2_map_right. intro u.
      destruct (Z.eqb_spec (Schema.User.id u) userId) as [E|Hne].
      * split; [apply set_user_same_account|]. intro Hother.
        contradiction Hother. now rewrite E.
      * split; [apply same_account_refl | reflexivity].
    + intros response _ _. exists user, userId, data.
      repeat split; auto. simpl.
      apply Forall2_map_right. intro u.
      unfold Spec.profile_set.
      destruct (Schema.User.id u =? userId); [|reflexivity].
      split; [apply set_user_same_account|].
      unfold Storage.set_user, Routes.updates_of, Storage.given; simpl.
      now destruct (Zod.name data), (Zod.email data), (Zod.phone data).
Qed.

(** The theorem at a request of [alice] on her own profile whose body also
    carries a [role]: the answer is 200, her name is changed, her role is
    not, and the row of the administrator is as it was. *)
Lemma patch_users_id_frame_witness :
  let request :=
    Routes.patch_users_id (H := Sample.email_format) "1"
      (Some (userWithoutPassword Sample.alice))
      (Js.Obj [("name", Js.Str "Alicia"); ("role", Js.Str "admin")])
      Sample.server in
  (exists response, fst request = Returned response /\ status response = 200)
  /\ Spec.only_profile_differs (Js.Number (Js.Num 1)) Sample.server (snd request)
  /\ map Schema.User.name (Schema.rows (Schema.users (database (snd request))))
     = [Some "Alicia"; Some "Admin User"]
  /\ map Schema.User.role (Schema.rows (Schema.users (database (snd request))))
     = ["user"; "admin"].
Proof.
  intro request. split; [|split].
  - eexists. split; reflexivity.
  - exact (proj1 (patch_users_id_frame (H := Sample.email_format) "1"
                    (Some (userWithoutPassword Sample.alice))
                    (Js.Obj [("name", Js.Str "Alicia"); ("role", Js.Str "admin")])
                    Sample.server)).
  - split; reflexivity.
Defined.

(** What passport puts on a request: for a session that holds the
    identifier of a stored user, the user without its [password]
    property. *)
Lemma session_user_logged_in (s : Server) (id : Z) (user : Schema.User.row) :
  session s = Some id ->
  find (fun u => Schema.User.id u =? id)
       (Schema.rows (Schema.users (database s))) = Some user ->
  Auth.session_user s = (Returned (inr (Some (userWithoutPassword user))), s).
Proof.
  intros Hsession Hfind. unfold Auth.session_user, Auth.deserializeUser,
    try_catch, bind.
  rewrite Hsession, getUser_find, Hfind. reflexivity.
Qed.

(* ===================================================================== *)
(** * Rules for asynchronous computations *)
(* ===================================================================== *)

Section Rules.

Context {A B : Type}.

Lemma readonly_ret (a : A) : Logic.readonly (ret a).
Proof. intro s. reflexivity. Qed.

Lemma readonly_throw (e : string) : Logic.readonly (throw (A := A) e).
Proof. intro s. reflexivity. Qed.

Lemma readonly_read (f : Schema.Database -> A) : Logic.readonly (read f).
Proof. intro s. reflexivity. Qed.

Lemma readonly_bind (m : Async A) (k : A -> Async B) :
  Logic.readonly m -> (forall a, Logic.readonly (k a)) ->
  Logic.readonly (bind m k).
Proof.
  intros Hm Hk s. unfold bind. specialize (Hm s).
  destruct (m s) as [[a|e] s']; simpl in Hm; subst s'.
  - apply Hk.
  - reflexivity.
Qed.

Lemma readonly_try_catch (m : Async A) (h : string -> Async A) :
  Logic.readonly m -> (forall e, Logic.readonly (h e)) ->
  Logic.readonly (try_catch m h).
Proof.
  intros Hm Hh s. unfold try_catch. specialize (Hm s).
  destruct (m s) as [[a|e] s']; simpl in Hm; subst s'.
  - reflexivity.
  - apply Hh.
Qed.

Lemma yields_ret (ok : A -> Prop) (a : A) : ok a -> Logic.yields ok (ret a).
Proof. intros H s. exact H. Qed.

Lemma yields_throw (ok : A -> Prop) (e : string) :
  Logic.yields ok (throw (A := A) e).
Proof. intros s. exact I. Qed.

Lemma yields_bind (ok : B -> Prop) (m : Async A) (k : A -> Async B) :
  (forall a, Logic.yields ok (k a)) -> Logic.yields ok (bind m k).
Proof.
  intros Hk s. unfold bind.
  destruct (m s) as [[a|e] s']; [apply Hk | exact I].
Qed.

Lemma yields_try_catch (ok : A -> Prop) (m : Async A) (h : string -> Async A) :
  Logic.yields ok m -> (forall e, Logic.yields ok (h e)) ->
  Logic.yields ok (try_catch m h).
Proof.
  intros Hm Hh s. unfold try_catch. specialize (Hm s).
  destruct (m s) as [[a|e] s']; [exact Hm | apply Hh].
Qed.

Lemma answers_ret (ok : A -> Prop) (a : A) : ok a -> Logic.answers ok (ret a).
Proof. intros H s. exists a. now split. Qed.

Lemma answers_yields (ok : A -> Prop) (m : Async A) :
  Logic.answers ok m -> Logic.yields ok m.
Proof.
  intros H s. destruct (H s) as (a & E & Ha). now rewrite E.
Qed.

(** A [try] whose handler answers always answers. *)
Lemma answers_try_catch (ok : A -> Prop) (m : Async A) (h : string -> Async A) :
  Logic.yields ok m -> (forall e, Logic.answers ok (h e)) ->
  Logic.answers ok (try_catch m h).
Proof.
  intros Hm Hh s. unfold try_catch. specialize (Hm s).
  destruct (m s) as [[a|e] s']; simpl in *.
  - exists a. now split.
  - apply Hh.
Qed.

Lemma answers_bind (ok : B -> Prop) (m : Async A) (k : A -> Async B) :
  Logic.answers (fun _ => True) m -> (forall a, Logic.answers ok (k a)) ->
  Logic.answers ok (bind m k).
Proof.
  intros Hm Hk s. unfold bind. destruct (Hm s) as (a & E & _).
  destruct (m s) as [[a'|e] s']; simpl in E; [|discriminate].
  apply Hk.
Qed.

Lemma keeps_ret (inv : Server -> Prop) (a : A) : Logic.keeps inv (ret a).
Proof. intros s H. exact H. Qed.

Lemma keeps_throw (inv : Server -> Prop) (e : string) :
  Logic.keeps inv (throw (A := A) e).
Proof. intros s H. exact H. Qed.

Lemma keeps_readonly (inv : Server -> Prop) (m : Async A) :
  Logic.readonly m -> Logic.keeps inv m.
Proof.
  intros Hm s H. specialize (Hm s).
  destruct (m s) as [[a|e] s']; simpl in Hm; now subst s'.
Qed.

Lemma keeps_bind (inv : Server -> Prop) (m : Async A) (k : A -> Async B) :
  Logic.keeps inv m -> (forall a, Logic.keeps inv (k a)) ->
  Logic.keeps inv (bind m k).
Proof.
  intros Hm Hk s H. unfold bind. specialize (Hm s H).
  destruct (m s) as [[a|e] s']; [now apply Hk | exact Hm].
Qed.

Lemma keeps_try_catch (inv : Server -> Prop) (m : Async A)
    (h : string -> Async A) :
  Logic.keeps inv m -> (forall e, Logic.keeps inv (h e)) ->
  Logic.keeps inv (try_catch m h).
Proof.
  intros Hm Hh s H. unfold try_catch. specialize (Hm s H).
  destruct (m s) as [[a|e] s']; [exact Hm | now apply Hh].
Qed.

End Rules.

Lemma readonly_parameters (bound : list Z) :
  Logic.readonly (Storage.parameters bound).
Proof.
  intro s. unfold Storage.parameters. now destruct (forallb _ _).
Qed.

Lemma readonly_query {A : Type} (f : Schema.Database -> option A) :
  Logic.readonly (query f).
Proof. intro s. unfold query. now destruct (f (database s)). Qed.

(** A step of a proof that a route is read-only: the rule for the head of
    the computation, or a case analysis on what it branches on. *)
Ltac readonly_step :=
  first
    [ apply readonly_ret
    | apply readonly_throw
    | apply readonly_read
    | apply readonly_parameters
    | apply readonly_query
    | apply readonly_try_catch; [|intro]
    | apply readonly_bind; [|intro]
    | match goal with
      | |- Logic.readonly (match ?x with _ => _ end) => destruct x
      | |- Logic.readonly (if ?b then _ else _) => destruct b
      end ].

(** The methods of the storage that only read. *)
Lemma readonly_getUser id : Logic.readonly (Storage.getUser id).
Proof. unfold Storage.getUser. repeat readonly_step. Qed.

Lemma readonly_getUserByUsername name :
  Logic.readonly (Storage.getUserByUsername name).
Proof. unfold Storage.getUserByUsername. repeat readonly_step. Qed.

Lemma readonly_getProperty id : Logic.readonly (Storage.getProperty id).
Proof. unfold Storage.getProperty. repeat readonly_step. Qed.

Lemma readonly_getProperties f : Logic.readonly (Storage.getProperties f).
Proof.
  unfold Storage.getProperties.
  destruct (0 <? List.length (Storage.queryConditions_of f))%nat;
    repeat readonly_step.
Qed.

Lemma readonly_getFeaturedProperties n :
  Logic.readonly (Storage.getFeaturedProperties n).
Proof. apply readonly_query. Qed.

Lemma readonly_getPropertiesByCity city n :
  Logic.readonly (Storage.getPropertiesByCity city n).
Proof. apply readonly_query. Qed.

Lemma readonly_getEnquiries : Logic.readonly Storage.getEnquiries.
Proof. apply readonly_read. Qed.

Lemma readonly_getSavedProperties userId :
  Logic.readonly (Storage.getSavedProperties userId).
Proof. unfold Storage.getSavedProperties. repeat readonly_step. Qed.

Lemma readonly_isPropertySaved userId propertyId :
  Logic.readonly (Storage.isPropertySaved userId propertyId).
Proof. unfold Storage.isPropertySaved. repeat readonly_step. Qed.

Lemma readonly_integer {A : Type} (v : Js.value) (k : Z -> Async A) :
  (forall z, Logic.readonly (k z)) -> Logic.readonly (Routes.integer v k).
Proof.
  intro Hk. unfold Routes.integer.
  destruct v as [| |b|[|z]|str|items|fields]; auto using readonly_throw.
Qed.

Lemma readonly_deserializeUser id : Logic.readonly (Auth.deserializeUser id).
Proof.
  unfold Auth.deserializeUser.
  apply readonly_try_catch; [|intro; apply readonly_ret].
  apply readonly_bind; [apply readonly_getUser|].
  intros [user|]; apply readonly_ret.
Qed.

Lemma readonly_session_user : Logic.readonly Auth.session_user.
Proof.
  intro s. unfold Auth.session_user.
  destruct (session s) as [id|]; [|reflexivity].
  pose proof (readonly_deserializeUser id s) as H.
  destruct (Auth.deserializeUser id s) as [[[err|user]|err] s']; exact H.
Qed.

(* ===================================================================== *)
(** * Reading routes and guarded routes *)
(* ===================================================================== *)

Lemma readonly_isAuthenticated (req_user : option Js.object)
    (next : Js.object -> Async Response) :
  (forall user, Logic.readonly (next user)) ->
  Logic.readonly (Routes.isAuthenticated req_user next).
Proof.
  intro Hnext. unfold Routes.isAuthenticated.
  destruct req_user; [apply Hnext | apply readonly_ret].
Qed.

Lemma readonly_serve (route : option Js.object -> Async Response) :
  (forall user, Logic.readonly (route user)) ->
  Logic.readonly (Routes.serve route).
Proof.
  intro Hroute. unfold Routes.serve.
  apply readonly_bind; [apply readonly_session_user|].
  intros [err|user]; [apply readonly_ret | apply Hroute].
Qed.

Lemma readonly_GET_route `{Bcrypt} `{EmailFormat} (salt : string) (now : Z)
    (r : Api.Request) (req_user : option Js.object) :
  Api.is_GET r = true -> Logic.readonly (Api.route salt now r req_user).
Proof.
  destruct r; try discriminate; intros _; simpl.
  - unfold Routes.get_properties.
    apply readonly_try_catch; [|intro; apply readonly_ret].
    destruct (Zod.propertyFilterSchema _); [|apply readonly_ret].
    apply readonly_bind; [apply readonly_getProperties|].
    intro; apply readonly_ret.
  - unfold Api.get_properties_featured.
    apply readonly_try_catch; [|intro; apply readonly_ret].
    apply readonly_bind; [|intro; apply readonly_ret].
    apply readonly_getFeaturedProperties.
  - unfold Api.get_properties_city.
    apply readonly_try_catch; [|intro; apply readonly_ret].
    apply readonly_bind; [|intro; apply readonly_ret].
    apply readonly_getPropertiesByCity.
  - unfold Api.get_properties_id.
    apply readonly_try_catch; [|intro; apply readonly_ret].
    apply readonly_bind; [|intros [p|]; apply readonly_ret].
    apply readonly_integer. apply readonly_getProperty.
  - apply readonly_isAuthenticated. intro; apply readonly_ret.
  - unfold Api.get_auth_status. destruct req_user; apply readonly_ret.
  - apply readonly_isAuthenticated. intro user.
    apply readonly_try_catch; [|intro; apply readonly_ret].
    apply readonly_bind; [|intro; apply readonly_ret].
    apply readonly_integer. apply readonly_getSavedProperties.
  - apply readonly_isAuthenticated. intro user.
    apply readonly_try_catch; [|intro; apply readonly_ret].
    cbv zeta.
    destruct (Js.isNaN (Js.parseInt propertyId)); [apply readonly_ret|].
    apply readonly_bind; [|intro; apply readonly_ret].
    apply readonly_integer. intro userId.
    apply readonly_integer. intro n. apply readonly_isPropertySaved.
Qed.

(** X1.  A request made with GET changes neither the database nor the
    session, whatever its parameters and however it is answered. *)
Theorem GET_changes_nothing `{Bcrypt} `{EmailFormat} (salt : string) (now : Z)
    (r : Api.Request) (s : Server) :
  Api.is_GET r = true -> snd (Api.handle salt now r s) = s.
Proof.
  intro Hget. apply readonly_serve. intro user.
  now apply readonly_GET_route.
Qed.

(** The theorem at a listing with an unreadable price bound. *)
Lemma GET_changes_nothing_witness :
  Api.is_GET (Api.GET_properties [("minPrice", Routes.QStr "cheap")]) = true
  /\ snd (Api.handle (H := Sample.bcrypt) (H0 := Sample.email_format)
            "salt" 2000
            (Api.GET_properties [("minPrice", Routes.QStr "cheap")])
            Sample.server)
     = Sample.server.
Proof.
  split; [reflexivity|].
  exact (GET_changes_nothing (H := Sample.bcrypt) (H0 := Sample.email_format)
           "salt" 2000
           (Api.GET_properties [("minPrice", Routes.QStr "cheap")])
           Sample.server eq_refl).
Defined.

(** X2.  Without a user in the session, every route behind
    [isAuthenticated] (the current user, the profile update and the four
    saved-property routes) answers 401 with the same message and changes
    nothing, whatever the path and the body. *)
Theorem protected_routes_need_login `{Bcrypt} `{EmailFormat} (salt : string)
    (now : Z) (r : Api.Request) (s : Server) :
  Api.is_protected r = true ->
  session s = None ->
  Api.handle salt now r s
  = (Returned (respond 401 (message_only "Unauthorized, please log in")), s).
Proof.
  intros Hr Hs. unfold Api.handle, Routes.serve, bind, Auth.session_user.
  rewrite Hs. destruct r; try discriminate Hr; reflexivity.
Qed.

(** The theorem at an attempt to save a property with nobody logged in. *)
Lemma protected_routes_need_login_witness :
  Api.handle (H := Sample.bcrypt) (H0 := Sample.email_format) "salt" 2000
    (Api.POST_saved_properties (Js.Obj [("propertyId", Js.Number (Js.Num 1))]))
    Sample.server
  = (Returned (respond 401 (message_only "Unauthorized, please log in")),
     Sample.server).
Proof.
  exact (protected_routes_need_login (H := Sample.bcrypt)
           (H0 := Sample.email_format) "salt" 2000
           (Api.POST_saved_properties
              (Js.Obj [("propertyId", Js.Number (Js.Num 1))]))
           Sample.server eq_refl eq_refl).
Defined.

(* ===================================================================== *)
(** * What a response carries *)
(* ===================================================================== *)

Lemma has_key_strings (k : string) (l : list string) :
  Wire.has_key k (Wire.strings_value l) = false.
Proof.
  unfold Wire.strings_value. simpl.
  induction l as [|a l IH]; simpl; [reflexivity | exact IH].
Qed.

Lemma has_key_errors (k : string) (l : list string) :
  Wire.has_key k (Zod.errors_value l) = false.
Proof. apply has_key_strings. Qed.

Lemma has_key_cons (k k' : string) (v : Js.value) (o : Js.object) :
  Wire.has_key k (Js.Obj ((k', v) :: o))
  = (k' =? k)%string || Wire.has_key k v || Wire.has_key k (Js.Obj o).
Proof. reflexivity. Qed.

Lemma has_key_nullable {A : Type} (k : string) (inj : A -> Js.value)
    (o : option A) :
  (forall a, Wire.has_key k (inj a) = false) ->
  Wire.has_key k (nullable_value inj o) = false.
Proof. intro H. destruct o; [apply H | reflexivity]. Qed.

(** Objects built of the model's rows: no key but the listed ones. *)
Ltac has_key_rows :=
  repeat rewrite has_key_cons;
  repeat first
    [ rewrite has_key_strings
    | rewrite has_key_errors
    | rewrite has_key_nullable by (intro; first [reflexivity | apply has_key_strings]) ];
  reflexivity.

Lemma no_password_message (code : Z) (m : string) :
  Api.exposes_password (respond code (message_only m)) = false.
Proof. reflexivity. Qed.

Lemma no_password_errors (code : Z) (m : string) (errors : list string) :
  Api.exposes_password (respond code (message_errors m errors)) = false.
Proof.
  unfold Api.exposes_password, respond, message_errors, body. has_key_rows.
Qed.

Lemma no_password_user (u : Schema.User.row) :
  Wire.has_key "password" (Js.Obj (userWithoutPassword u)) = false.
Proof.
  change (userWithoutPassword u)
    with [ ("id", Js.Number (Js.Num (Schema.User.id u)));
           ("username", Js.Str (Schema.User.username u));
           ("email", nullable_value Js.Str (Schema.User.email u));
           ("name", nullable_value Js.Str (Schema.User.name u));
           ("phone", nullable_value Js.Str (Schema.User.phone u));
           ("role", Js.Str (Schema.User.role u));
           ("profileImage", nullable_value Js.Str (Schema.User.profileImage u));
           ("createdAt",
            nullable_value (fun t => Js.Number (Js.Num t))
                           (Schema.User.createdAt u)) ].
  has_key_rows.
Qed.

Lemma no_password_property (p : Schema.Property.row) :
  Wire.has_key "password" (Js.Obj (Wire.property_object p)) = false.
Proof. unfold Wire.property_object. has_key_rows. Qed.

Lemma no_password_enquiry (e : Schema.Enquiry.row) :
  Wire.has_key "password" (Js.Obj (Wire.enquiry_object e)) = false.
Proof. unfold Wire.enquiry_object. has_key_rows. Qed.

Lemma no_password_savedProperty (r : Schema.SavedProperty.row) :
  Wire.has_key "password" (Js.Obj (Wire.savedProperty_object r)) = false.
Proof. unfold Wire.savedProperty_object. has_key_rows. Qed.

Ltac no_password :=
  unfold Api.exposes_password, respond, message_only, message_errors;
  cbn [body];
  repeat rewrite has_key_cons;
  rewrite ?no_password_user, ?no_password_property, ?no_password_enquiry,
    ?no_password_savedProperty, ?has_key_errors;
  try match goal with
      | H : Wire.has_key "password" (Js.Obj ?user) = false |- _ => rewrite H
      end;
  reflexivity.

Ltac yields_step :=
  first
    [ apply yields_ret; no_password
    | apply yields_throw
    | apply yields_try_catch; [|intro]
    | apply yields_bind; intro
    | match goal with
      | |- Logic.yields _ (match ?x with _ => _ end) => destruct x
      | |- Logic.yields _ (if ?b then _ else _) => destruct b
      end ].

Ltac answers_route :=
  apply answers_try_catch; [|intro; apply answers_ret; no_password];
  cbv zeta; unfold Routes.integer, Wire.member;
  repeat yields_step.

(** Every route answers, and with nothing that carries a [password], when
    the user on the request carries none. *)
Lemma route_answers `{Bcrypt} `{EmailFormat} (salt : string) (now : Z)
    (r : Api.Request) (req_user : option Js.object) :
  (forall user, req_user = Some user ->
                Wire.has_key "password" (Js.Obj user) = false) ->
  Logic.answers (fun response => Api.exposes_password response = false)
                (Api.route salt now r req_user).
Proof.
  intro Hclean.
  assert (Hguard : forall next,
    (forall user, Wire.has_key "password" (Js.Obj user) = false ->
       Logic.answers (fun response => Api.exposes_password response = false)
                     (next user)) ->
    Logic.answers (fun response => Api.exposes_password response = false)
                  (Routes.isAuthenticated req_user next)).
  { intros next Hnext. unfold Routes.isAuthenticated.
    destruct req_user as [user|].
    - apply Hnext. now apply Hclean.
    - apply answers_ret. no_password. }
  destruct r; simpl.
  - unfold Routes.get_properties. answers_route.
  - unfold Api.get_properties_featured. answers_route.
  - unfold Api.get_properties_city. answers_route.
  - unfold Api.get_properties_id. answers_route.
  - unfold Api.post_enquiries. answers_route.
  - unfold Routes.post_users_register. answers_route.
  - unfold Routes.post_auth_login. answers_route.
  - intro s. eexists. split; [reflexivity | no_password].
  - apply Hguard. intros user Hu. apply answers_ret. no_password.
  - unfold Api.get_auth_status. destruct req_user as [user|] eqn:E.
    + apply answers_ret. pose proof (Hclean user eq_refl). no_password.
    + apply answers_ret. no_password.
  - unfold Routes.patch_users_id. apply Hguard. intros user Hu. answers_route.
  - unfold Api.get_saved_properties. apply Hguard. intros user Hu.
    answers_route.
  - unfold Api.post_saved_properties. apply Hguard. intros user Hu.
    answers_route.
  - unfold Routes.delete_saved_properties. apply Hguard. intros user Hu.
    answers_route.
  - unfold Api.get_saved_properties_check. apply Hguard. intros user Hu.
    answers_route.
Qed.

(** What passport puts on a request: nothing without a session, an error
    for a session whose user is not stored, and otherwise the first stored
    user with the session's identifier, without its password. *)
Lemma session_user_result (s : Server) :
  exists r,
    Auth.session_user s = (Returned r, s)
    /\ match r with
       | inr None => session s = None
       | inr (Some user) =>
           exists u,
             In u (Schema.rows (Schema.users (database s)))
             /\ session s = Some (Schema.User.id u)
             /\ find (fun u' => Schema.User.id u' =? Schema.User.id u)
                     (Schema.rows (Schema.users (database s))) = Some u
             /\ user = userWithoutPassword u
       | inl err =>
           exists id,
             session s = Some id
             /\ find (fun u' => Schema.User.id u' =? id)
                     (Schema.rows (Schema.users (database s))) = None
       end.
Proof.
  unfold Auth.session_user, Auth.deserializeUser, try_catch, bind.
  destruct (session s) as [id|] eqn:Hs.
  - rewrite getUser_find.
    destruct (find _ _) as [u|] eqn:Hfind; simpl.
    + eexists. split; [reflexivity|]. exists u.
      pose proof (find_some _ _ Hfind) as [Hin Hid].
      apply Z.eqb_eq in Hid. subst id. auto.
    + eexists. split; [reflexivity|]. exists id. auto.
  - eexists. split; reflexivity.
Qed.

(** X3.  Every request is answered: no route lets an exception escape.
    And no answer carries a property named [password], at any depth of its
    body: not the answers that show a user (registration, login, profile
    update, current user, status), nor any other. *)
Theorem every_answer_without_password `{Bcrypt} `{EmailFormat} (salt : string)
    (now : Z) (r : Api.Request) (s : Server) :
  exists response,
    fst (Api.handle salt now r s) = Returned response
    /\ Api.exposes_password response = false.
Proof.
  unfold Api.handle, Routes.serve, bind.
  destruct (session_user_result s) as (u & -> & Hu).
  destruct u as [err|req_user].
  - eexists. split; [reflexivity|]. unfold next_error. no_password.
  - apply route_answers. intros user ->.
    destruct Hu as (u & _ & _ & _ & ->). apply no_password_user.
Qed.

(* ===================================================================== *)
(** * Integrity of the users table *)
(* ===================================================================== *)

Lemma NoDup_app_parts {K : Type} (l1 l2 : list K) :
  NoDup (l1 ++ l2) ->
  NoDup l1 /\ NoDup l2 /\ forall k, In k l1 -> ~ In k l2.
Proof.
  induction l1 as [|a l1 IH]; simpl; intro H.
  - split; [constructor|]. split; [exact H|]. intros k [].
  - inversion H as [|a' l' Ha Hl]; subst.
    destruct (IH Hl) as (H1 & H2 & H12).
    split; [|split; [exact H2|]].
    + constructor; [|exact H1]. intro Hin. apply Ha, in_or_app. now left.
    + intros k [<-|Hk] Hk2.
      * apply Ha, in_or_app. now right.
      * exact (H12 k Hk Hk2).
Qed.

Section Keys.

Context {A K : Type} (keys : A -> list K).

Lemma NoDup_snoc_keys (l : list A) (a : A) :
  NoDup (flat_map keys l) ->
  NoDup (keys a) ->
  (forall b k, In b l -> In k (keys b) -> ~ In k (keys a)) ->
  NoDup (flat_map keys (l ++ [a])).
Proof.
  intros Hl Ha Hfresh. rewrite flat_map_app. simpl. rewrite app_nil_r.
  apply NoDup_app; [exact Hl | exact Ha |].
  intros k Hk Hka. apply in_flat_map in Hk as (b & Hb & Hkb).
  exact (Hfresh b k Hb Hkb Hka).
Qed.

(** Replacing the one element that is hit, when the keys of what replaces
    it are the keys of no other element. *)
Lemma NoDup_update_keys (hit : A -> bool) (f : A -> A) (l : list A) :
  NoDup (flat_map keys l) ->
  (forall l1 a l2, l = l1 ++ a :: l2 -> hit a = true ->
                   forall b, In b (l1 ++ l2) -> hit b = false) ->
  (forall a, In a l -> hit a = true -> NoDup (keys (f a))) ->
  (forall a b k, In a l -> In b l -> hit a = true -> hit b = false ->
                 In k (keys (f a)) -> ~ In k (keys b)) ->
  NoDup (flat_map keys (map (fun a => if hit a then f a else a) l)).
Proof.
  induction l as [|a l IH]; intros Hl Hone Hf Hother; [constructor|].
  simpl in Hl. apply NoDup_app_parts in Hl as (Ha & Hl & Hal).
  assert (IHl : NoDup (flat_map keys (map (fun a => if hit a then f a else a) l))).
  { apply IH; auto.
    - intros l1 b l2 E Hb c Hc.
      apply (Hone (a :: l1) b l2); [now rewrite E | exact Hb | now right].
    - intros b Hb. apply Hf. now right.
    - intros b c k Hb Hc. apply Hother; now right. }
  simpl. destruct (hit a) eqn:Hhit.
  - assert (Hrest : forall b, In b l -> hit b = false).
    { intros b Hb. now apply (Hone [] a l eq_refl Hhit). }
    apply NoDup_app; [apply Hf; [now left | exact Hhit] | exact IHl |].
    intros k Hk Hin. apply in_flat_map in Hin as (b' & Hb' & Hkb').
    apply in_map_iff in Hb' as (b & <- & Hb).
    rewrite (Hrest b Hb) in Hkb'.
    apply (Hother a b k); auto; [now left | now right].
  - apply NoDup_app; [exact Ha | exact IHl |].
    intros k Hk Hin. apply in_flat_map in Hin as (b' & Hb' & Hkb').
    apply in_map_iff in Hb' as (b & <- & Hb).
    destruct (hit b) eqn:Hhb.
    + apply (Hother b a k); auto; [now right | now left].
    + apply (Hal k Hk). apply in_flat_map. now exists b.
Qed.

End Keys.

Lemma flat_map_singleton {A K : Type} (key : A -> K) (l : list A) :
  flat_map (fun a => [key a]) l = map key l.
Proof. induction l; simpl; congruence. Qed.

(** With distinct identifiers, the condition on an identifier hits one row
    at most. *)
Lemma one_hit (id : Z) (l l1 l2 : list Schema.User.row) (a : Schema.User.row) :
  NoDup (map Schema.User.id l) ->
  l = l1 ++ a :: l2 ->
  (Schema.User.id a =? id) = true ->
  forall b, In b (l1 ++ l2) -> (Schema.User.id b =? id) = false.
Proof.
  intros Hl -> Ha b Hb. apply Z.eqb_eq in Ha. apply Z.eqb_neq. intro Hbid.
  rewrite map_app in Hl. simpl in Hl. apply NoDup_remove_2 in Hl.
  apply Hl. rewrite <- map_app. rewrite Ha, <- Hbid. now apply in_map.
Qed.

Lemma existsb_false {A : Type} (f : A -> bool) (l : list A) :
  existsb f l = false -> forall a, In a l -> f a = false.
Proof.
  intros H a Ha. destruct (f a) eqn:E; [|reflexivity].
  assert (existsb f l = true) by (apply existsb_exists; eauto). congruence.
Qed.

Lemma NoDup_email_keys (u : Schema.User.row) :
  NoDup (match Schema.User.email u with Some e => [e] | None => [] end).
Proof.
  destruct (Schema.User.email u); repeat constructor. intros [].
Qed.

Lemma clashes_keys (a b : option string) (k : string) :
  Drizzle.clashes a b = false ->
  In k (match a with Some e => [e] | None => [] end) ->
  ~ In k (match b with Some e => [e] | None => [] end).
Proof.
  destruct a as [x|], b as [y|]; simpl; try tauto.
  intros H [<-|[]] [->|[]]. now rewrite String.eqb_refl in H.
Qed.

(** The insert keeps the users table in order, by the serial key and the
    two unique columns. *)
Lemma insert_users_ok (v : Schema.InsertUser.t) (now : Z) (s : Server) :
  Consistent.users_ok (database s) ->
  Consistent.users_ok (database (snd (Storage.insert_users v now s))).
Proof.
  intros (Hid & Hserial & Hname & Hemail). unfold Storage.insert_users.
  destruct (existsb _ _) eqn:E.
  { unfold Consistent.users_ok. simpl. repeat split; try assumption.
    eapply Forall_impl; [|exact Hserial]. simpl. intros; lia. }
  pose proof (existsb_false _ _ E) as Hfree. simpl in Hfree.
  unfold Consistent.users_ok. simpl. repeat split.
  - rewrite <- flat_map_singleton. apply NoDup_snoc_keys.
    + now rewrite flat_map_singleton.
    + repeat constructor. intros [].
    + intros b k Hb [<-|[]] [Hk|[]]. simpl in Hk.
      rewrite Forall_forall in Hserial. specialize (Hserial b Hb). lia.
  - apply Forall_app. split.
    + eapply Forall_impl; [|exact Hserial]. simpl. intros; lia.
    + repeat constructor. simpl. lia.
  - rewrite <- flat_map_singleton. apply NoDup_snoc_keys.
    + now rewrite flat_map_singleton.
    + repeat constructor. intros [].
    + intros b k Hb [<-|[]] [Hk|[]]. simpl in Hk.
      specialize (Hfree b Hb). apply orb_false_iff in Hfree as [Hu _].
      apply String.eqb_neq in Hu. congruence.
  - apply NoDup_snoc_keys.
    + exact Hemail.
    + apply NoDup_email_keys.
    + intros b k Hb Hk. simpl.
      specialize (Hfree b Hb). apply orb_false_iff in Hfree as [_ He].
      now apply (clashes_keys _ _ k He).
Qed.

Lemma set_user_id (updates : Schema.UserUpdates.t) (u : Schema.User.row) :
  Schema.User.id (Storage.set_user updates u) = Schema.User.id u.
Proof. reflexivity. Qed.

Lemma map_id_updated (updates : Schema.UserUpdates.t)
    (hit : Schema.User.row -> bool) (l : list Schema.User.row) :
  map Schema.User.id
      (map (fun u => if hit u then Storage.set_user updates u else u) l)
  = map Schema.User.id l.
Proof.
  rewrite map_map. apply map_ext. intro u. now destruct (hit u).
Qed.

(** The update keeps the users table in order, whatever the fields it
    sets. *)
Lemma update_users_ok (updates : Schema.UserUpdates.t) (id : Z) (s : Server) :
  Consistent.users_ok (database s) ->
  Consistent.users_ok (database (snd (Storage.update_users updates id s))).
Proof.
  intros (Hid & Hserial & Hname & Hemail). unfold Storage.update_users.
  destruct (Storage.no_values updates); [repeat split; assumption|].
  destruct (existsb _ _) eqn:E; [repeat split; assumption|].
  pose proof (existsb_false _ _ E) as Hfree. simpl in Hfree.
  set (hit := Drizzle.holds (Drizzle.eq Storage.users_id (Drizzle.int id)))
    in *.
  assert (Hother : forall a b,
    In a (Schema.rows (Schema.users (database s))) ->
    In b (Schema.rows (Schema.users (database s))) ->
    hit a = true -> hit b = false ->
    Schema.User.username b <> Schema.User.username (Storage.set_user updates a)
    /\ Drizzle.clashes (Schema.User.email b)
         (Schema.User.email (Storage.set_user updates a)) = false).
  { intros a b Ha Hb Hhita Hhitb.
    assert (Hin : In (Storage.set_user updates a)
              (map (Storage.set_user updates)
                   (filter hit (Schema.rows (Schema.users (database s)))))).
    { apply in_map. apply filter_In. now split. }
    pose proof (existsb_false _ _ (Hfree _ Hin) b Hb) as Hb'.
    simpl in Hb'. rewrite Hhitb in Hb'. simpl in Hb'.
    apply orb_false_iff in Hb' as [Hu He]. split; [|exact He].
    now apply String.eqb_neq. }
  assert (Hone : forall l1 a l2,
    Schema.rows (Schema.users (database s)) = l1 ++ a :: l2 ->
    hit a = true -> forall b, In b (l1 ++ l2) -> hit b = false).
  { intros l1 a l2 El Ha b Hb. unfold hit in *.
    rewrite holds_users_id in *. eapply one_hit; eauto. }
  unfold Consistent.users_ok. simpl. repeat split.
  - now rewrite map_id_updated.
  - apply Forall_forall. intros u' Hu'.
    apply in_map_iff in Hu' as (u & <- & Hu).
    rewrite Forall_forall in Hserial. specialize (Hserial u Hu).
    now destruct (hit u).
  - rewrite <- flat_map_singleton. apply NoDup_update_keys.
    + now rewrite flat_map_singleton.
    + exact Hone.
    + intros. repeat constructor. intros [].
    + intros a b k Ha Hb Hha Hhb [<-|[]] [Hk|[]].
      destruct (Hother a b Ha Hb Hha Hhb) as [Hu _]. congruence.
  - apply NoDup_update_keys.
    + exact Hemail.
    + exact Hone.
    + intros. apply NoDup_email_keys.
    + intros a b k Ha Hb Hha Hhb Hk Hkb.
      destruct (Hother a b Ha Hb Hha Hhb) as [_ He].
      apply (clashes_keys _ _ k) in He; [|exact Hkb]. contradiction.
Qed.

Lemma updateUser_state (id : Z) (updates : Schema.UserUpdates.t) (s : Server) :
  snd (Storage.updateUser id updates s) = s
  \/ snd (Storage.updateUser id updates s)
     = snd (Storage.update_users updates id s).
Proof.
  unfold Storage.updateUser, try_catch, bind. rewrite getUser_find.
  destruct (find _ _); [|now left]. right.
  destruct (Storage.update_users updates id s) as [[l|e] s']; reflexivity.
Qed.

(** X4.  [createUser] and [updateUser] keep the users table in order
    whatever they are given: identifiers stay distinct and below the serial,
    usernames stay distinct, and the emails that are set stay distinct.
    [createUser] returns the user it has stored last, or throws, and then a
    stored user has the username or the email, and no row is added or
    changed; either way one value of the serial is used up.  [updateUser]
    never throws: it returns nothing and changes nothing, or returns a user
    and has updated the rows with the identifier, and no other row. *)
Theorem users_table_integrity `{Bcrypt} (s : Server) :
  Consistent.users_ok (database s) ->
  (forall salt now insertUser,
     let created := Storage.createUser salt now insertUser s in
     Consistent.users_ok (database (snd created))
     /\ Schema.serial (Schema.users (database (snd created)))
        = Schema.serial (Schema.users (database s)) + 1
     /\ match fst created with
        | Returned user =>
            Schema.rows (Schema.users (database (snd created)))
            = Schema.rows (Schema.users (database s)) ++ [user]
        | Thrown _ =>
            Schema.rows (Schema.users (database (snd created)))
            = Schema.rows (Schema.users (database s))
            /\ exists u,
                 In u (Schema.rows (Schema.users (database s)))
                 /\ (Schema.User.username u
                     = Schema.InsertUser.username insertUser
                     \/ exists e,
                          Schema.User.email u = Some e
                          /\ Schema.InsertUser.email insertUser = Some e)
        end)
  /\ (forall id updates,
        let updated := Storage.updateUser id updates s in
        Consistent.users_ok (database (snd updated))
        /\ match fst updated with
           | Returned None => snd updated = s
           | Returned (Some user) =>
               Schema.rows (Schema.users (database (snd updated)))
               = map (fun u => if Schema.User.id u =? id
                               then Storage.set_user updates u else u)
                     (Schema.rows (Schema.users (database s)))
           | Thrown _ => False
           end).
Proof.
  intro Hs. split.
  - intros salt now v created. unfold created, Storage.createUser.
    split; [now apply insert_users_ok|].
    unfold Storage.insert_users.
    cbn [Schema.InsertUser.username Schema.InsertUser.email].
    destruct (existsb _ _) eqn:E; simpl; [|split; reflexivity].
    split; [reflexivity|]. split; [reflexivity|].
    apply existsb_exists in E as (u & Hu & Hclash). exists u.
    split; [exact Hu|]. apply orb_true_iff in Hclash as [Hname|Hemail].
    + left. now apply String.eqb_eq.
    + right. unfold Drizzle.clashes in Hemail.
      destruct (Schema.User.email u) as [e|]; [|discriminate].
      destruct (Schema.InsertUser.email v) as [e'|]; [|discriminate].
      apply String.eqb_eq in Hemail. subst e'. now exists e.
  - intros id updates updated. unfold updated. split.
    + destruct (updateUser_state id updates s) as [-> | ->];
        [exact Hs | now apply update_users_ok].
    + destruct (updateUser_cases id updates s) as [-> | (user & _ & ->)];
        reflexivity.
Qed.

(* ===================================================================== *)
(** * Integrity of the server state *)
(* ===================================================================== *)

(** A change of the users that keeps their table in order and loses no
    identifier, and touches nothing else, keeps the state in order. *)
Lemma server_ok_users (s s' : Server) :
  Consistent.server_ok s ->
  Consistent.users_ok (database s') ->
  incl (map Schema.User.id (Schema.rows (Schema.users (database s))))
       (map Schema.User.id (Schema.rows (Schema.users (database s')))) ->
  Schema.properties (database s') = Schema.properties (database s) ->
  Schema.savedProperties (database s') = Schema.savedProperties (database s) ->
  session s' = session s ->
  Consistent.server_ok s'.
Proof.
  intros (Hu & (Hpairs & Hrefs) & Hsession) Hu' Hincl Hp Hsaved Hses.
  split; [exact Hu'|]. split.
  - unfold Consistent.saved_ok. rewrite Hsaved, Hp. split; [exact Hpairs|].
    eapply Forall_impl; [|exact Hrefs]. intros r [Hr1 Hr2]. split; auto.
  - intros id Hid. rewrite Hses in Hid. auto.
Qed.

Lemma insert_users_server_ok (v : Schema.InsertUser.t) (now : Z) :
  Logic.keeps Consistent.server_ok (Storage.insert_users v now).
Proof.
  intros s Hs.
  assert (Hok : Consistent.server_ok (snd (Storage.insert_users v now s))).
  { apply (server_ok_users s); auto.
    - apply insert_users_ok. apply Hs.
    - unfold Storage.insert_users. destruct (existsb _ _); simpl.
      + apply incl_refl.
      + rewrite map_app. now apply incl_appl, incl_refl.
    - unfold Storage.insert_users. now destruct (existsb _ _).
    - unfold Storage.insert_users. now destruct (existsb _ _).
    - unfold Storage.insert_users. now destruct (existsb _ _). }
  destruct (Storage.insert_users v now s) as [[u|e] s']; exact Hok.
Qed.

Lemma update_users_server_ok (updates : Schema.UserUpdates.t) (id : Z) :
  Logic.keeps Consistent.server_ok (Storage.update_users updates id).
Proof.
  intros s Hs.
  assert (Hok : Consistent.server_ok (snd (Storage.update_users updates id s))).
  { apply (server_ok_users s); auto.
    - apply update_users_ok. apply Hs.
    - unfold Storage.update_users.
      destruct (Storage.no_values updates); [apply incl_refl|].
      destruct (existsb _ _); simpl; [apply incl_refl|].
      rewrite map_id_updated. apply incl_refl.
    - unfold Storage.update_users.
      destruct (Storage.no_values updates); [reflexivity|].
      now destruct (existsb _ _).
    - unfold Storage.update_users.
      destruct (Storage.no_values updates); [reflexivity|].
      now destruct (existsb _ _).
    - unfold Storage.update_users.
      destruct (Storage.no_values updates); [reflexivity|].
      now destruct (existsb _ _). }
  destruct (Storage.update_users updates id s) as [[u|e] s']; exact Hok.
Qed.

Lemma updateUser_server_ok (id : Z) (updates : Schema.UserUpdates.t) :
  Logic.keeps Consistent.server_ok (Storage.updateUser id updates).
Proof.
  unfold Storage.updateUser.
  apply keeps_try_catch; [|intro; apply keeps_ret].
  apply keeps_bind; [apply keeps_readonly, readonly_getUser|].
  intros [u|]; [|apply keeps_ret].
  apply keeps_bind; [apply update_users_server_ok | intro; apply keeps_ret].
Qed.

Lemma createEnquiry_server_ok (now : Z) (v : Schema.InsertEnquiry.t) :
  Logic.keeps Consistent.server_ok (Storage.createEnquiry now v).
Proof. intros s Hs. exact Hs. Qed.

Lemma NoDup_map_filter {A K : Type} (key : A -> K) (f : A -> bool)
    (l : list A) :
  NoDup (map key l) -> NoDup (map key (filter f l)).
Proof.
  induction l as [|a l IH]; simpl; intro H; [constructor|].
  inversion H as [|k ks Hk Hks]; subst.
  destruct (f a); simpl; [|now apply IH].
  constructor; [|now apply IH].
  intro Hin. apply Hk. apply in_map_iff in Hin as (b & Hb & Hin).
  apply filter_In in Hin as [Hin _]. rewrite <- Hb. now apply in_map.
Qed.

Lemma unsaveProperty_server_ok (userId propertyId : Z) :
  Logic.keeps Consistent.server_ok (Storage.unsaveProperty userId propertyId).
Proof.
  intros s (Hu & (Hpairs & Hrefs) & Hsession).
  unfold Storage.unsaveProperty, write, Drizzle.delete_where.
  split; [exact Hu|]. split; [|exact Hsession]. split; simpl.
  - now apply NoDup_map_filter.
  - now apply Forall_filter.
Qed.

(** Saving keeps the state in order when the pair names a stored user and
    a stored property. *)
Lemma saveProperty_server_ok (now : Z) (v : Schema.InsertSavedProperty.t)
    (s : Server) :
  Consistent.server_ok s ->
  In (Schema.InsertSavedProperty.userId v)
     (map Schema.User.id (Schema.rows (Schema.users (database s)))) ->
  In (Schema.InsertSavedProperty.propertyId v)
     (map Schema.Property.id (Schema.rows (Schema.properties (database s)))) ->
  Consistent.server_ok (snd (Storage.saveProperty now v s)).
Proof.
  intros (Hu & (Hpairs & Hrefs) & Hsession) Huser Hproperty.
  destruct (History.rows_of (Schema.InsertSavedProperty.userId v)
              (Schema.InsertSavedProperty.propertyId v) s)
    as [|first rest] eqn:Hrows.
  - rewrite (saveProperty_absent now v s Hrows).
    unfold Storage.insert_savedProperties, Drizzle.insert_returning.
    split; [exact Hu|]. split; [|exact Hsession]. split; simpl.
    + rewrite <- flat_map_singleton. apply NoDup_snoc_keys.
      * now rewrite flat_map_singleton.
      * repeat constructor. intros [].
      * intros r k Hr [<-|[]] [Hk|[]]. unfold Consistent.pair_of in Hk.
        simpl in Hk. injection Hk as Hk1 Hk2.
        assert (Hin : In r (History.rows_of
                  (Schema.InsertSavedProperty.userId v)
                  (Schema.InsertSavedProperty.propertyId v) s)).
        { apply filter_In. split; [exact Hr|].
          rewrite Hk1, Hk2, !Z.eqb_refl. reflexivity. }
        now rewrite Hrows in Hin.
    + apply Forall_app. split; [exact Hrefs|].
      constructor; [|constructor]. simpl. now split.
  - rewrite (saveProperty_found now v s first rest Hrows). simpl.
    split; [exact Hu|]. split; [split; assumption | exact Hsession].
Qed.

Lemma keeps_snd {A : Type} (inv : Server -> Prop) (m : Async A) (s : Server) :
  Logic.keeps inv m -> inv s -> inv (snd (m s)).
Proof.
  intros Hm Hs. specialize (Hm s Hs). now destruct (m s) as [[a|e] s'].
Qed.

Lemma keeps_isAuthenticated (inv : Server -> Prop) (req_user : option Js.object)
    (next : Js.object -> Async Response) :
  (forall user, Logic.keeps inv (next user)) ->
  Logic.keeps inv (Routes.isAuthenticated req_user next).
Proof.
  intro Hnext. unfold Routes.isAuthenticated.
  destruct req_user; [apply Hnext | apply keeps_ret].
Qed.

Lemma keeps_integer {A : Type} (inv : Server -> Prop) (v : Js.value)
    (k : Z -> Async A) :
  (forall z, Logic.keeps inv (k z)) -> Logic.keeps inv (Routes.integer v k).
Proof.
  intro Hk. unfold Routes.integer.
  destruct v as [| |b|[|z]|str|items|fields]; auto using keeps_throw.
Qed.

(** The body of [POST /api/saved-properties], once validated, is the
    session user's identifier and the number given as [propertyId]. *)
Lemma insertSavedPropertySchema_pair (userId : Z) (propertyId : Js.value) :
  Drizzle.int4 userId = true ->
  Wire.insertSavedPropertySchema
    (Js.Obj [("userId", Js.Number (Js.Num userId)); ("propertyId", propertyId)])
  = match Wire.integer propertyId with
    | Some n =>
        Zod.Success {| Schema.InsertSavedProperty.userId := userId;
                       Schema.InsertSavedProperty.propertyId := n |}
    | None => Zod.Failure ["propertyId"]
    end.
Proof.
  intro Hu.
  assert (Hid : Wire.integer (Js.Number (Js.Num userId)) = Some userId)
    by (unfold Wire.integer; simpl; now rewrite Hu).
  unfold Wire.insertSavedPropertySchema. simpl. rewrite !Hid.
  now destruct (Wire.integer propertyId).
Qed.

(** A session user whose identifier did not fit the column would be
    refused by the schema. *)
Lemma insertSavedPropertySchema_refused (userId : Z) (propertyId : Js.value) :
  Drizzle.int4 userId = false ->
  exists errors,
    Wire.insertSavedPropertySchema
      (Js.Obj [("userId", Js.Number (Js.Num userId));
               ("propertyId", propertyId)])
    = Zod.Failure errors.
Proof.
  intro Hu.
  assert (Hid : Wire.integer (Js.Number (Js.Num userId)) = None)
    by (unfold Wire.integer; simpl; now rewrite Hu).
  unfold Wire.insertSavedPropertySchema. simpl. rewrite !Hid.
  destruct (Wire.integer propertyId); eexists; reflexivity.
Qed.

Lemma integer_fits (v : Js.value) (n : Z) :
  Wire.integer v = Some n -> Drizzle.int4 n = true.
Proof.
  unfold Wire.integer. destruct (Zod.number v) as [z|]; [|discriminate].
  destruct (Drizzle.int4 z) eqn:E; [|discriminate].
  intro H. now injection H as <-.
Qed.

(** What the login route does to the state: nothing, or it puts a stored
    user in the session. *)
Lemma post_auth_login_state `{Bcrypt} (body : Js.value) (s : Server) :
  snd (Routes.post_auth_login body s) = s
  \/ exists u,
       In u (Schema.rows (Schema.users (database s)))
       /\ snd (Routes.post_auth_login body s)
          = {| database := database s; session := Some (Schema.User.id u) |}.
Proof.
  unfold Routes.post_auth_login, try_catch, bind.
  destruct (Zod.loginSchema body) as [credentials|errors] eqn:Hparse;
    [|now left].
  rewrite (authenticate_local_verify _ _ Hparse), verify_cases.
  destruct (find _ _) as [u|] eqn:Hfind; [|now left].
  destruct (bcrypt_compare _ _); [|now left].
  right. exists u. split; [|reflexivity].
  now apply find_some in Hfind.
Qed.

(** What the saving route does to the state: nothing, or [saveProperty]
    on the session user and a stored property. *)
Lemma post_saved_properties_state (now : Z) (u : Schema.User.row)
    (body : Js.value) (s : Server) :
  snd (Api.post_saved_properties now (Some (userWithoutPassword u)) body s) = s
  \/ exists n,
       In n (map Schema.Property.id
               (Schema.rows (Schema.properties (database s))))
       /\ snd (Api.post_saved_properties now (Some (userWithoutPassword u))
                 body s)
          = snd (Storage.saveProperty now
                   {| Schema.InsertSavedProperty.userId := Schema.User.id u;
                      Schema.InsertSavedProperty.propertyId := n |} s).
Proof.
  unfold Api.post_saved_properties, Routes.isAuthenticated, try_catch, bind.
  replace (Js.get "id" (userWithoutPassword u))
    with (Js.Number (Js.Num (Schema.User.id u))) by reflexivity.
  destruct (Wire.member "propertyId" body s) as [[propertyId|e] s0] eqn:Hm.
  - assert (s0 = s) as ->.
    { unfold Wire.member in Hm.
      destruct body; try discriminate Hm; now injection Hm as _ <-. }
    destruct (Drizzle.int4 (Schema.User.id u)) eqn:Hfit.
    2:{ destruct (insertSavedPropertySchema_refused _ propertyId Hfit)
          as (errors & ->). now left. }
    rewrite (insertSavedPropertySchema_pair _ _ Hfit).
    destruct (Wire.integer propertyId) as [n|] eqn:Hn; [|now left].
    cbn [Schema.InsertSavedProperty.propertyId].
    rewrite getProperty_find, (integer_fits _ _ Hn).
    destruct (find _ _) as [p|] eqn:Hfind; [|now left].
    right. exists n. apply find_some in Hfind as [Hin Hid].
    apply Z.eqb_eq in Hid. split; [rewrite <- Hid; now apply in_map|].
    now destruct (Storage.saveProperty now _ s) as [[row|e] s'].
  - left. unfold Wire.member in Hm.
    destruct body; try discriminate Hm; now injection Hm as _ <-.
Qed.

(** Every route keeps the state in order, for the user passport has put on
    the request. *)
Lemma route_server_ok `{Bcrypt} `{EmailFormat} (salt : string) (now : Z)
    (r : Api.Request) (req_user : option Js.object) (s : Server) :
  Consistent.server_ok s ->
  (forall user, req_user = Some user ->
     exists u, In u (Schema.rows (Schema.users (database s)))
               /\ user = userWithoutPassword u) ->
  Consistent.server_ok (snd (Api.route salt now r req_user s)).
Proof.
  intros Hs Huser.
  destruct (Api.is_GET r) eqn:Hget.
  { now rewrite (readonly_GET_route salt now r req_user Hget s). }
  destruct r as [q|q|city q|id|payload|payload|payload| | |
                 |id payload| |payload|propertyId|propertyId];
    try discriminate Hget; simpl.
  - apply keeps_snd; [|exact Hs]. unfold Api.post_enquiries.
    apply keeps_try_catch; [|intro; apply keeps_ret].
    destruct (Wire.insertEnquirySchema payload); [|apply keeps_ret].
    apply keeps_bind; [apply createEnquiry_server_ok | intro; apply keeps_ret].
  - apply keeps_snd; [|exact Hs]. unfold Routes.post_users_register.
    apply keeps_try_catch; [|intro; apply keeps_ret].
    destruct (Zod.insertUserSchema payload); [|apply keeps_ret].
    apply keeps_bind; [apply keeps_readonly, readonly_getUserByUsername|].
    intros [existing|]; [apply keeps_ret|].
    apply keeps_bind; [apply insert_users_server_ok | intro; apply keeps_ret].
  - destruct (post_auth_login_state payload s) as [-> | (u & Hu & ->)];
      [exact Hs|].
    destruct Hs as (Husers & Hsaved & Hsession).
    split; [exact Husers|]. split; [exact Hsaved|].
    intros id Hid. simpl in Hid. injection Hid as <-. now apply in_map.
  - destruct Hs as (Husers & Hsaved & Hsession).
    split; [exact Husers|]. split; [exact Hsaved|]. intros id Hid.
    discriminate Hid.
  - destruct (patch_users_id_state id req_user payload s)
      as [-> | (userId & data & ->)]; [exact Hs|].
    apply keeps_snd; [apply updateUser_server_ok | exact Hs].
  - destruct req_user as [user|]; [|exact Hs].
    destruct (Huser user eq_refl) as (u & Hu & ->).
    destruct (post_saved_properties_state now u payload s)
      as [-> | (n & Hn & ->)]; [exact Hs|].
    apply saveProperty_server_ok;
      [exact Hs | exact (in_map Schema.User.id _ u Hu) | exact Hn].
  - apply keeps_snd; [|exact Hs]. unfold Routes.delete_saved_properties.
    apply keeps_isAuthenticated. intro user.
    apply keeps_try_catch; [|intro; apply keeps_ret]. cbv zeta.
    destruct (Js.isNaN (Js.parseInt propertyId)); [apply keeps_ret|].
    apply keeps_bind; [|intro; apply keeps_ret].
    apply keeps_integer. intro userId. apply keeps_integer. intro n.
    apply keeps_bind; [apply keeps_readonly, readonly_parameters|].
    intros _. apply unsaveProperty_server_ok.
Qed.

Lemma handle_server_ok `{Bcrypt} `{EmailFormat} (salt : string) (now : Z)
    (r : Api.Request) (s : Server) :
  Consistent.server_ok s ->
  Consistent.server_ok (snd (Api.handle salt now r s)).
Proof.
  intro Hs. unfold Api.handle, Routes.serve, bind.
  destruct (session_user_result s) as (u & -> & Hu).
  destruct u as [err|req_user]; [exact Hs|].
  apply route_server_ok; [exact Hs|].
  intros user ->. destruct Hu as (u & Hin & _ & _ & ->). now exists u.
Qed.

Lemma after_server_ok `{Bcrypt} `{EmailFormat}
    (requests : list (string * Z * Api.Request)) (s : Server) :
  Consistent.server_ok s -> Consistent.server_ok (Consistent.after requests s).
Proof.
  revert s. induction requests as [|[[salt now] r] requests IH]; intros s Hs.
  - exact Hs.
  - simpl. apply IH. now apply handle_server_ok.
Qed.

Lemma find_id_stored (id : Z) (l : list Schema.User.row) :
  In id (map Schema.User.id l) ->
  exists u, find (fun u' => Schema.User.id u' =? id) l = Some u.
Proof.
  intro Hin. apply in_map_iff in Hin as (u & Hid & Hu).
  destruct (find (fun u' => Schema.User.id u' =? id) l) as [u'|] eqn:Hfind;
    [now exists u'|].
  apply (find_none _ _ Hfind) in Hu. apply Z.eqb_neq in Hu. contradiction.
Qed.

(** X5.  The requests of the interface, in any number and order, keep the
    state in order: identifiers of users distinct and below the serial,
    usernames and set emails distinct; no pair (user, property) saved
    twice; every saved row naming a stored user and a stored property; and
    the session, if any, naming a stored user, so that passport finds the
    session's user on the next request. *)
Theorem requests_keep_integrity `{Bcrypt} `{EmailFormat}
    (requests : list (string * Z * Api.Request)) (s : Server) :
  Consistent.server_ok s ->
  Consistent.server_ok (Consistent.after requests s)
  /\ exists req_user,
       Auth.session_user (Consistent.after requests s)
       = (Returned (inr req_user), Consistent.after requests s).
Proof.
  intro Hs. pose proof (after_server_ok requests s Hs) as Hafter.
  split; [exact Hafter|].
  destruct (session_user_result (Consistent.after requests s))
    as ([err|req_user] & Hrun & Hr).
  - exfalso. destruct Hr as (id & Hid & Hfind).
    destruct Hafter as (_ & _ & Hsession).
    destruct (find_id_stored id _ (Hsession id Hid)) as (u & Hu). congruence.
  - now exists req_user.
Qed.

(* ===================================================================== *)
(** * Saving, checking and unsaving *)
(* ===================================================================== *)

Lemma isPropertySaved_rows (userId propertyId : Z) (s : Server) :
  Storage.isPropertySaved userId propertyId s
  = if Drizzle.int4 userId && Drizzle.int4 propertyId
    then (Returned (0 <? List.length (History.rows_of userId propertyId s))%nat,
          s)
    else (Thrown "value out of range for type integer", s).
Proof.
  unfold Storage.isPropertySaved, bind, Storage.parameters. cbn [forallb].
  rewrite andb_true_r.
  destruct (Drizzle.int4 userId && Drizzle.int4 propertyId); [|reflexivity].
  unfold read, ret. now rewrite select_same_pair.
Qed.

Lemma rows_of_unsave_other (u p u' p' : Z) (s : Server) :
  (u' =? u) && (p' =? p) = false ->
  History.rows_of u' p' (snd (Storage.unsaveProperty u p s))
  = History.rows_of u' p' s.
Proof.
  intro Hother. unfold History.rows_of, Storage.unsaveProperty, write,
    Drizzle.delete_where. simpl.
  rewrite filter_twice. apply filter_ext. intro r.
  rewrite holds_same_pair.
  destruct (Z.eqb_spec (Schema.SavedProperty.userId r) u');
    destruct (Z.eqb_spec (Schema.SavedProperty.propertyId r) p');
    simpl; try rewrite andb_false_r; try reflexivity.
  subst. rewrite Hother. reflexivity.
Qed.

(** X6.  Saving and unsaving, read back with [isPropertySaved].  For a
    pair of identifiers that fit the 32 bits of their columns,
    [isPropertySaved] returns: after [saveProperty] on a pair the pair is
    saved and every other pair is as it was; after [unsaveProperty] the pair
    is not saved and every other pair is as it was.  For an identifier that
    does not fit, [isPropertySaved] throws.  It never changes the state. *)
Theorem isPropertySaved_after (now u p u' p' : Z) (s : Server) :
  let same := (u' =? u) && (p' =? p) in
  let saved := fun s => fst (Storage.isPropertySaved u' p' s) in
  (Spec.fits u' -> Spec.fits p' ->
   exists was,
     saved s = Returned was
     /\ saved (snd (Storage.saveProperty now
                      {| Schema.InsertSavedProperty.userId := u;
                         Schema.InsertSavedProperty.propertyId := p |} s))
        = Returned (same || was)
     /\ saved (snd (Storage.unsaveProperty u p s))
        = Returned (negb same && was))
  /\ (~ (Spec.fits u' /\ Spec.fits p') ->
      exists error, Storage.isPropertySaved u' p' s = (Thrown error, s))
  /\ snd (Storage.isPropertySaved u' p' s) = s.
Proof.
  intros same saved. split; [|split].
  2:{ intro Hout. rewrite isPropertySaved_rows.
      destruct (Drizzle.int4 u') eqn:Hu; destruct (Drizzle.int4 p') eqn:Hp;
        simpl; try (eexists; reflexivity).
      exfalso. apply Hout. split; now apply int4_fits. }
  2:{ rewrite isPropertySaved_rows.
      now destruct (Drizzle.int4 u' && Drizzle.int4 p'). }
  intros Hu Hp. apply int4_fits in Hu, Hp.
  unfold saved. rewrite !isPropertySaved_rows, Hu, Hp. cbn [fst andb].
  eexists. split; [reflexivity|]. split; f_equal.
  - set (v := {| Schema.InsertSavedProperty.userId := u;
                 Schema.InsertSavedProperty.propertyId := p |}).
    destruct (History.rows_of u p s) as [|first rest] eqn:Hrows.
    + rewrite (saveProperty_absent now v s Hrows), rows_of_insert. simpl.
      rewrite length_app.
      replace ((u =? u') && (p =? p')) with same
        by (unfold same; now rewrite (Z.eqb_sym u u'), (Z.eqb_sym p p')).
      destruct same; simpl.
      * apply Nat.ltb_lt. lia.
      * now rewrite Nat.add_0_r.
    + rewrite (saveProperty_found now v s first rest Hrows). simpl.
      destruct same eqn:Hsame; [|reflexivity]. simpl.
      apply andb_true_iff in Hsame as [Hu' Hp'].
      apply Z.eqb_eq in Hu', Hp'. subst. now rewrite Hrows.
  - destruct same eqn:Hsame; cbn [negb andb].
    + apply andb_true_iff in Hsame as [Hu' Hp'].
      apply Z.eqb_eq in Hu', Hp'. subst. now rewrite rows_of_unsaveProperty.
    + now rewrite rows_of_unsave_other.
Qed.

(** X7.  Saving over the interface.  For a logged-in user and a body whose
    [propertyId] is a number: when the number does not fit the 32 bits of
    the column the answer is 400 and nothing is stored; when it fits and no
    property has that identifier the answer is 404 and nothing is stored;
    otherwise the answer is 201 with the stored row of the pair, a second
    request gets the same row and stores nothing more, the check route then
    says [isSaved: true], and after the delete route it says
    [isSaved: false]. *)
Theorem saving_over_the_interface (now1 now2 : Z) (u : Schema.User.row)
    (fields : Js.object) (n : Z) (param : string) (s : Server) :
  Js.get "propertyId" fields = Js.Number (Js.Num n) ->
  Js.parseInt param = Js.Num n ->
  Spec.fits (Schema.User.id u) ->
  let req_user := Some (userWithoutPassword u) in
  let first := Api.post_saved_properties now1 req_user (Js.Obj fields) s in
  let is_saved (b : bool) := respond 200 (Js.Obj [("isSaved", Js.Bool b)]) in
  (~ Spec.fits n ->
   first
   = (Returned
        (respond 400 (message_errors "Invalid property data" ["propertyId"])),
      s))
  /\ (Spec.fits n ->
      match find (fun p => Schema.Property.id p =? n)
                 (Schema.rows (Schema.properties (database s))) with
      | None =>
          first
          = (Returned (respond 404 (message_only "Property not found")), s)
      | Some _ =>
          exists row,
            fst first
            = Returned (respond 201 (Js.Obj (Wire.savedProperty_object row)))
            /\ Schema.SavedProperty.userId row = Schema.User.id u
            /\ Schema.SavedProperty.propertyId row = n
            /\ Api.post_saved_properties now2 req_user (Js.Obj fields)
                 (snd first)
               = (fst first, snd first)
            /\ Api.get_saved_properties_check param req_user (snd first)
               = (Returned (is_saved true), snd first)
            /\ fst (Api.get_saved_properties_check param req_user
                      (snd (Routes.delete_saved_properties param req_user
                              (snd first))))
               = Returned (is_saved false)
      end).
Proof.
  intros Hfield Hparam Hu req_user first is_saved. apply int4_fits in Hu.
  set (v := {| Schema.InsertSavedProperty.userId := Schema.User.id u;
               Schema.InsertSavedProperty.propertyId := n |}).
  assert (Hschema :
    Wire.insertSavedPropertySchema
      (Js.Obj [("userId", Js.Number (Js.Num (Schema.User.id u)));
               ("propertyId", Js.Number (Js.Num n))])
    = if Drizzle.int4 n then Zod.Success v else Zod.Failure ["propertyId"]).
  { rewrite (insertSavedPropertySchema_pair _ _ Hu). unfold Wire.integer.
    simpl. now destruct (Drizzle.int4 n). }
  split.
  { intro Hn. apply int4_not_fits in Hn.
    unfold first, Api.post_saved_properties, req_user, Routes.isAuthenticated,
      try_catch, bind, Wire.member, ret.
    replace (Js.get "id" (userWithoutPassword u))
      with (Js.Number (Js.Num (Schema.User.id u))) by reflexivity.
    now rewrite Hfield, Hschema, Hn. }
  intro Hn. apply int4_fits in Hn. rewrite Hn in Hschema.
  assert (Hpost : forall now s0,
    Api.post_saved_properties now req_user (Js.Obj fields) s0
    = match find (fun p => Schema.Property.id p =? n)
                 (Schema.rows (Schema.properties (database s0))) with
      | None => (Returned (respond 404 (message_only "Property not found")), s0)
      | Some _ =>
          match Storage.saveProperty now v s0 with
          | (Returned row, s') =>
              (Returned (respond 201 (Js.Obj (Wire.savedProperty_object row))), s')
          | (Thrown _, s') =>
              (Returned (respond 500 (message_only "Failed to save property")), s')
          end
      end).
  { intros now s0.
    unfold Api.post_saved_properties, req_user, Routes.isAuthenticated,
      try_catch, bind, Wire.member, ret.
    replace (Js.get "id" (userWithoutPassword u))
      with (Js.Number (Js.Num (Schema.User.id u))) by reflexivity.
    rewrite Hfield, Hschema.
    cbv beta iota. unfold v at 1. cbn [Schema.InsertSavedProperty.propertyId].
    rewrite getProperty_find, Hn.
    destruct (find _ _); [|reflexivity].
    now destruct (Storage.saveProperty now v s0) as [[row|e] s']. }
  assert (Hcheck : forall s0,
    Api.get_saved_properties_check param req_user s0
    = (Returned (is_saved (0 <? List.length
                   (History.rows_of (Schema.User.id u) n s0))%nat), s0)).
  { intro s0.
    unfold Api.get_saved_properties_check, req_user, Routes.isAuthenticated,
      try_catch, bind.
    replace (Js.get "id" (userWithoutPassword u))
      with (Js.Number (Js.Num (Schema.User.id u))) by reflexivity.
    rewrite Hparam. change (Js.isNaN (Js.Num n)) with false.
    unfold Routes.integer. cbv beta iota.
    rewrite isPropertySaved_rows, Hu, Hn. reflexivity. }
  unfold first. rewrite Hpost.
  destruct (find _ _) as [p|] eqn:Hfind; [|reflexivity].
  destruct (saveProperty_stores now1 v s) as (row & rest & Hrow & Hrows).
  destruct (Storage.saveProperty now1 v s) as [[row'|e] s1] eqn:Hsave;
    simpl in Hrow; [injection Hrow as ->|discriminate]. simpl in Hrows.
  assert (Hin : In row (History.rows_of (Schema.User.id u) n s1))
    by (rewrite Hrows; now left).
  apply filter_In in Hin as [_ Hpair].
  apply andb_true_iff in Hpair as [Hu' Hn']. apply Z.eqb_eq in Hu', Hn'.
  assert (Hprops : Schema.properties (database s1) = Schema.properties (database s)).
  { destruct (History.rows_of (Schema.User.id u) n s) as [|x xs] eqn:H0.
    - rewrite (saveProperty_absent now1 v s H0) in Hsave.
      now injection Hsave as _ <-.
    - rewrite (saveProperty_found now1 v s x xs H0) in Hsave.
      now injection Hsave as _ <-. }
  exists row. cbn [fst snd]. repeat split; try assumption.
  - rewrite Hpost, Hprops, Hfind.
    now rewrite (saveProperty_found now2 v s1 row rest Hrows).
  - rewrite Hcheck, Hrows. reflexivity.
  - rewrite Hcheck.
    assert (Hdelete : snd (Routes.delete_saved_properties param req_user s1)
              = snd (Storage.unsaveProperty (Schema.User.id u) n s1)).
    { unfold req_user. rewrite (delete_saved_properties_run u param n s1 Hparam).
      now rewrite Hu, Hn. }
    rewrite Hdelete, rows_of_unsaveProperty. reflexivity.
Qed.

(* ===================================================================== *)
(** * Registering, logging in, logging out *)
(* ===================================================================== *)

Lemma find_snoc {A : Type} (f : A -> bool) (l : list A) (a : A) :
  find f (l ++ [a])
  = match find f l with
    | Some x => Some x
    | None => if f a then Some a else None
    end.
Proof.
  induction l as [|x l IH]; simpl; [reflexivity|].
  now destruct (f x).
Qed.

(** What a body accepted by [insertUserSchema] looks like. *)
Lemma insertUserSchema_success (body : Js.value) (data : Schema.InsertUser.t) :
  Zod.insertUserSchema body = Zod.Success data ->
  exists fields,
    body = Js.Obj fields
    /\ Js.get "username" fields = Js.Str (Schema.InsertUser.username data)
    /\ Js.get "password" fields = Js.Str (Schema.InsertUser.password data).
Proof.
  destruct body; try discriminate. unfold Zod.insertUserSchema.
  destruct (Zod.string (Js.get "username" fields)) as [username|] eqn:Hu;
    destruct (Zod.string (Js.get "password" fields)) as [password|] eqn:Hp;
    destruct (Zod.nullish Zod.string (Js.get "email" fields));
    destruct (Zod.nullish Zod.string (Js.get "name" fields));
    destruct (Zod.nullish Zod.string (Js.get "phone" fields));
    try discriminate.
  intro E. injection E as <-. exists fields. simpl.
  destruct (Js.get "username" fields); try discriminate Hu.
  destruct (Js.get "password" fields); try discriminate Hp.
  injection Hu as ->. injection Hp as ->. auto.
Qed.

(** The login route, case by case. *)
Lemma post_auth_login_run `{Bcrypt} (body : Js.value)
    (credentials : Zod.Credentials) (s : Server) :
  Zod.loginSchema body = Zod.Success credentials ->
  Routes.post_auth_login body s
  = match find (fun u => (Schema.User.username u
                          =? Zod.username credentials)%string)
               (Schema.rows (Schema.users (database s))) with
    | None => (Returned (respond 401 (message_only "Incorrect username.")), s)
    | Some user =>
        if bcrypt_compare (Zod.password credentials) (Schema.User.password user)
        then (Returned
                (respond 200
                   (Js.Obj [("message", Js.Str "Login successful");
                            ("user", Js.Obj (userWithoutPassword user))])),
              {| database := database s;
                 session := Some (Schema.User.id user) |})
        else (Returned (respond 401 (message_only "Incorrect password.")), s)
    end.
Proof.
  intro Hparse. unfold Routes.post_auth_login, try_catch, bind.
  rewrite Hparse, (authenticate_local_verify _ _ Hparse), verify_cases.
  destruct (find _ _) as [user|]; [|reflexivity].
  now destruct (bcrypt_compare _ _).
Qed.

Lemma nonempty_string_min (s : string) :
  s <> "" -> Zod.string_min 1 (Js.Str s) = Some s.
Proof. destruct s; [congruence | reflexivity]. Qed.

(** X8.  Registration and login fit together.  When bcrypt accepts a
    password against its own hash, a body with a non-empty username and
    password that registers (201) also logs in: the login route run on the
    same body answers 200 with the user that registration answered, and puts
    that user in the session; and registering the body again answers 409
    and changes nothing. *)
Theorem register_then_login `{Bcrypt} (salt salt' : string) (now now' : Z)
    (body : Js.value) (data : Schema.InsertUser.t) (s s' : Server)
    (response : Response) :
  (forall p, bcrypt_compare p (bcrypt_hash p 10 salt) = true) ->
  Zod.insertUserSchema body = Zod.Success data ->
  Schema.InsertUser.username data <> "" ->
  Schema.InsertUser.password data <> "" ->
  Routes.post_users_register salt now body s = (Returned response, s') ->
  status response = 201 ->
  exists user,
    response = respond 201 (Js.Obj (userWithoutPassword user))
    /\ Schema.User.username user = Schema.InsertUser.username data
    /\ Routes.post_auth_login body s'
       = (Returned
            (respond 200
               (Js.Obj [("message", Js.Str "Login successful");
                        ("user", Js.Obj (userWithoutPassword user))])),
          {| database := database s';
             session := Some (Schema.User.id user) |})
    /\ Routes.post_users_register salt' now' body s'
       = (Returned (respond 409 (message_only "Username already exists")), s').
Proof.
  intros Hbcrypt Hparse Hname Hpassword Hrun Hstatus.
  unfold Routes.post_users_register, try_catch, bind in Hrun.
  rewrite Hparse, getUserByUsername_find in Hrun.
  destruct (find _ _) as [existing|] eqn:Hfind.
  { injection Hrun as <- _. discriminate Hstatus. }
  unfold Storage.createUser, Storage.insert_users in Hrun.
  cbn [Schema.InsertUser.username Schema.InsertUser.email
       Schema.InsertUser.password Schema.InsertUser.name
       Schema.InsertUser.phone] in Hrun.
  destruct (existsb _ _).
  { injection Hrun as <- _. discriminate Hstatus. }
  cbn [Drizzle.insert_returning] in Hrun. injection Hrun as <- <-.
  eexists. split; [reflexivity|]. split; [reflexivity|].
  assert (Hfound :
    find (fun u => (Schema.User.username u
                    =? Schema.InsertUser.username data)%string)
         (Schema.rows (Schema.users (database
            {| database :=
                 Storage.with_users
                   {| Schema.rows :=
                        Schema.rows (Schema.users (database s))
                        ++ [{| Schema.User.id :=
                                 Schema.serial (Schema.users (database s));
                               Schema.User.username :=
                                 Schema.InsertUser.username data;
                               Schema.User.password :=
                                 bcrypt_hash (Schema.InsertUser.password data)
                                             10 salt;
                               Schema.User.email := Schema.InsertUser.email data;
                               Schema.User.name := Schema.InsertUser.name data;
                               Schema.User.phone := Schema.InsertUser.phone data;
                               Schema.User.role := "user";
                               Schema.User.profileImage := None;
                               Schema.User.createdAt := Some now |}];
                      Schema.serial :=
                        Schema.serial (Schema.users (database s)) + 1 |}
                   (database s);
               session := session s |})))
    = Some {| Schema.User.id := Schema.serial (Schema.users (database s));
              Schema.User.username := Schema.InsertUser.username data;
              Schema.User.password :=
                bcrypt_hash (Schema.InsertUser.password data) 10 salt;
              Schema.User.email := Schema.InsertUser.email data;
              Schema.User.name := Schema.InsertUser.name data;
              Schema.User.phone := Schema.InsertUser.phone data;
              Schema.User.role := "user";
              Schema.User.profileImage := None;
              Schema.User.createdAt := Some now |}).
  { cbn [database Storage.with_users Schema.users Schema.rows].
    rewrite find_snoc, Hfind. cbn [Schema.User.username].
    now rewrite String.eqb_refl. }
  split.
  - destruct (insertUserSchema_success _ _ Hparse) as (fields & -> & Hu & Hp).
    rewrite (post_auth_login_run (Js.Obj fields)
               {| Zod.username := Schema.InsertUser.username data;
                  Zod.password := Schema.InsertUser.password data |}).
    + cbn [Zod.username Zod.password]. rewrite Hfound.
      cbn [Schema.User.password]. now rewrite Hbcrypt.
    + unfold Zod.loginSchema. rewrite Hu, Hp.
      now rewrite !nonempty_string_min by assumption.
  - unfold Routes.post_users_register, try_catch, bind.
    rewrite Hparse, getUserByUsername_find, Hfound. reflexivity.
Qed.

Lemma find_by_id (l : list Schema.User.row) (u : Schema.User.row) :
  NoDup (map Schema.User.id l) -> In u l ->
  find (fun u' => Schema.User.id u' =? Schema.User.id u) l = Some u.
Proof.
  induction l as [|x l IH]; simpl; intros Hl Hu; [contradiction|].
  inversion Hl as [|k ks Hx Hks]; subst.
  destruct Hu as [->|Hu]; [now rewrite Z.eqb_refl|].
  destruct (Z.eqb_spec (Schema.User.id x) (Schema.User.id u)) as [E|_].
  - exfalso. apply Hx. rewrite E. now apply in_map.
  - now apply IH.
Qed.

(** With the state in order, a request runs its route, on the user of the
    session if there is one. *)
Lemma handle_logged_out `{Bcrypt} `{EmailFormat} (salt : string) (now : Z)
    (r : Api.Request) (s : Server) :
  session s = None ->
  Api.handle salt now r s = Api.route salt now r None s.
Proof.
  intro Hs. unfold Api.handle, Routes.serve, bind, Auth.session_user.
  now rewrite Hs.
Qed.

Lemma handle_logged_in `{Bcrypt} `{EmailFormat} (salt : string) (now : Z)
    (r : Api.Request) (s : Server) (u : Schema.User.row) :
  NoDup (map Schema.User.id (Schema.rows (Schema.users (database s)))) ->
  In u (Schema.rows (Schema.users (database s))) ->
  session s = Some (Schema.User.id u) ->
  Api.handle salt now r s
  = Api.route salt now r (Some (userWithoutPassword u)) s.
Proof.
  intros Hids Hu Hs.
  unfold Api.handle, Routes.serve, bind, Auth.session_user,
    Auth.deserializeUser, try_catch, bind.
  now rewrite Hs, getUser_find, (find_by_id _ u Hids Hu).
Qed.

Lemma handle_any `{Bcrypt} `{EmailFormat} (salt : string) (now : Z)
    (r : Api.Request) (s : Server) :
  Consistent.server_ok s ->
  exists req_user, Api.handle salt now r s = Api.route salt now r req_user s.
Proof.
  intros ((Hids & _) & _ & Hsession).
  destruct (session s) as [id|] eqn:Hs.
  - destruct (proj1 (in_map_iff _ _ _) (Hsession id Hs)) as (u & Hid & Hu).
    exists (Some (userWithoutPassword u)). apply handle_logged_in; auto.
    now rewrite Hid.
  - eexists. now apply handle_logged_out.
Qed.

(** X9.  The session, from login to logout.  With the state in order: a
    login that is answered 200 leaves a session on which the current-user
    route answers the same user as the login did, and the status route says
    so; a logout is answered 200, touches no table, and leaves a session on
    which the current-user route answers 401 and the status route says
    [isAuthenticated: false]. *)
Theorem session_from_login_to_logout `{Bcrypt} `{EmailFormat}
    (salt : string) (now : Z) (body : Js.value) (s : Server) :
  Consistent.server_ok s ->
  let login := Api.handle salt now (Api.POST_auth_login body) s in
  let logout := Api.handle salt now Api.POST_auth_logout s in
  (forall payload,
     fst login = Returned (respond 200 payload) ->
     exists u,
       In u (Schema.rows (Schema.users (database s)))
       /\ payload = Js.Obj [("message", Js.Str "Login successful");
                            ("user", Js.Obj (userWithoutPassword u))]
       /\ Api.handle salt now Api.GET_auth_me (snd login)
          = (Returned (respond 200 (Js.Obj (userWithoutPassword u))), snd login)
       /\ Api.handle salt now Api.GET_auth_status (snd login)
          = (Returned
               (respond 200
                  (Js.Obj [("isAuthenticated", Js.Bool true);
                           ("user", Js.Obj (userWithoutPassword u))])),
             snd login))
  /\ logout
     = (Returned (respond 200 (message_only "Logout successful")),
        {| database := database s; session := None |})
  /\ Api.handle salt now Api.GET_auth_me (snd logout)
     = (Returned (respond 401 (message_only "Unauthorized, please log in")),
        snd logout)
  /\ Api.handle salt now Api.GET_auth_status (snd logout)
     = (Returned (respond 200 (Js.Obj [("isAuthenticated", Js.Bool false)])),
        snd logout).
Proof.
  intros Hs login logout.
  assert (Hids : NoDup (map Schema.User.id
                          (Schema.rows (Schema.users (database s)))))
    by apply Hs.
  split; [|split; [|split]].
  - intros payload Hlogin. unfold login in *.
    destruct (handle_any salt now (Api.POST_auth_login body) s Hs)
      as (req_user & ->) in Hlogin |- *.
    cbn [Api.route] in *.
    destruct (Zod.loginSchema body) as [credentials|errors] eqn:Hparse.
    + rewrite (post_auth_login_run _ _ s Hparse) in *.
      destruct (find _ _) as [u|] eqn:Hfind; [|discriminate Hlogin].
      destruct (bcrypt_compare _ _); [|discriminate Hlogin].
      cbn [fst snd] in *. injection Hlogin as <-.
      apply find_some in Hfind as [Hu _].
      exists u. split; [exact Hu|]. split; [reflexivity|].
      split; rewrite (handle_logged_in salt now _ _ u); auto.
    + unfold Routes.post_auth_login, try_catch in Hlogin.
      rewrite Hparse in Hlogin. discriminate Hlogin.
  - unfold logout.
    destruct (handle_any salt now Api.POST_auth_logout s Hs) as (req_user & ->).
    reflexivity.
  - unfold logout.
    destruct (handle_any salt now Api.POST_auth_logout s Hs) as (req_user & ->).
    now rewrite handle_logged_out.
  - unfold logout.
    destruct (handle_any salt now Api.POST_auth_logout s Hs) as (req_user & ->).
    now rewrite handle_logged_out.
Qed.

(* ===================================================================== *)
(** * Limited listings, enquiries, the request log *)
(* ===================================================================== *)

Lemma holds_featured (p : Schema.Property.row) :
  Drizzle.holds (Drizzle.eq Storage.properties_featured (Drizzle.boolean true)) p
  = match Schema.Property.featured p with Some true => true | _ => false end.
Proof.
  unfold Drizzle.holds, Storage.properties_featured; simpl.
  now destruct (Schema.Property.featured p) as [[|]|].
Qed.

Lemma holds_city (city : string) (p : Schema.Property.row) :
  Drizzle.holds (Drizzle.eq Storage.properties_city (Drizzle.text city)) p
  = (Schema.Property.city p =? city)%string.
Proof.
  unfold Drizzle.holds; simpl.
  now destruct (Schema.Property.city p =? city)%string.
Qed.

(** X10.  The two limited listings.  The limit is what [parseInt] makes
    of the [limit] parameter, and 10 when the parameter is absent or empty.
    When it is a number [n] that is not negative and that a [bigint] holds,
    the featured route answers 200 with the first [n], in storage order, of
    the properties whose [featured] is true (a property whose flag is null
    or false is never listed), and the city route with the first [n] of the
    properties whose city is, letter for letter, the one of the path.  When
    it is negative or [NaN], the routes answer 200 with all of these
    properties.  When it is beyond a [bigint], they answer 500.  Neither
    route changes the state. *)
Theorem limited_listings (q : Routes.Query) (city : string) (s : Server) :
  let stored := Schema.rows (Schema.properties (database s)) in
  let featured :=
    filter (fun p => match Schema.Property.featured p with
                     | Some true => true
                     | _ => false
                     end) stored in
  let in_city :=
    filter (fun p => (Schema.Property.city p =? city)%string) stored in
  let limit := Api.limit_of q in
  (Spec.limit_taken limit ->
   Api.get_properties_featured q s
   = (Returned {| status := 200;
                  body := Properties (Spec.up_to limit featured) |}, s)
   /\ Api.get_properties_city city q s
      = (Returned {| status := 200;
                     body := Properties (Spec.up_to limit in_city) |}, s))
  /\ (~ Spec.limit_taken limit ->
      Api.get_properties_featured q s
      = (Returned
           (respond 500 (message_only "Failed to fetch featured properties")),
         s)
      /\ Api.get_properties_city city q s
         = (Returned
              (respond 500 (message_only "Failed to fetch properties by city")),
            s))
  /\ (forall n,
        limit = Js.Num n -> 0 <= n ->
        Spec.up_to limit featured = firstn (Z.to_nat n) featured
        /\ Spec.up_to limit in_city = firstn (Z.to_nat n) in_city
        /\ (List.length (Spec.up_to limit featured) <= Z.to_nat n)%nat
        /\ (List.length (Spec.up_to limit in_city) <= Z.to_nat n)%nat)
  /\ (forall n,
        limit = Js.NaN \/ (limit = Js.Num n /\ n < 0) ->
        Spec.up_to limit featured = featured
        /\ Spec.up_to limit in_city = in_city)
  /\ limit
     = match Routes.query_get "limit" q with
       | None | Some (Routes.QStr "") => Js.Num 10
       | Some v => Js.parseInt (Routes.to_string v)
       end.
Proof.
  intros stored featured in_city limit.
  split; [|split; [|split; [|split]]].
  - intro Htaken. split.
    + unfold Api.get_properties_featured, try_catch, bind,
        Storage.getFeaturedProperties, query, Drizzle.select_from_where.
      cbv zeta. fold limit. rewrite (limit_up_to _ _ Htaken).
      unfold ret. now rewrite (filter_ext _ _ holds_featured).
    + unfold Api.get_properties_city, try_catch, bind,
        Storage.getPropertiesByCity, query, Drizzle.select_from_where.
      cbv zeta. fold limit. rewrite (limit_up_to _ _ Htaken).
      unfold ret. now rewrite (filter_ext _ _ (holds_city city)).
  - intro Hrefused. split.
    + unfold Api.get_properties_featured, try_catch, bind,
        Storage.getFeaturedProperties, query.
      cbv zeta. fold limit. now rewrite (limit_refused _ _ Hrefused).
    + unfold Api.get_properties_city, try_catch, bind,
        Storage.getPropertiesByCity, query.
      cbv zeta. fold limit. now rewrite (limit_refused _ _ Hrefused).
  - intros n -> Hn. unfold Spec.up_to.
    replace (n <? 0) with false by (symmetry; apply Z.ltb_ge; lia).
    repeat split; try apply firstn_le_length.
  - intros n [-> | [-> Hn]]; unfold Spec.up_to; [now split|].
    replace (n <? 0) with true by (symmetry; apply Z.ltb_lt; lia).
    now split.
  - unfold limit, Api.limit_of.
    destruct (Routes.query_get "limit" q) as [[[|c v]|items|fields]|];
      reflexivity.
Qed.






Lemma clip_short {U : Type} (ellipsis : U) (logLine : list U) :
  (List.length logLine <= 80)%nat -> Logging.clip ellipsis logLine = logLine.
Proof.
  intro H. unfold Logging.clip.
  now replace (80 <? List.length logLine)%nat with false
    by (symmetry; apply Nat.ltb_ge; lia).
Qed.

Lemma clip_long {U : Type} (ellipsis : U) (logLine : list U) :
  (80 < List.length logLine)%nat ->
  Logging.clip ellipsis logLine = firstn 79 logLine ++ [ellipsis]
  /\ List.length (firstn 79 logLine ++ [ellipsis]) = 80%nat.
Proof.
  intro H. unfold Logging.clip.
  replace (80 <? List.length logLine)%nat with true
    by (symmetry; apply Nat.ltb_lt; lia).
  split; [reflexivity|].
  rewrite length_app, length_firstn.
  change (List.length [ellipsis]) with 1%nat. lia.
Qed.

(** X12.  The request log.  A line of more than 80 code units is cut to
    80: its first 79 and, as the 80th, the ellipsis.  A shorter line is
    logged as it is, and only a shorter one; cutting twice is cutting
    once. *)
Theorem clip_to_80 {U : Type} (ellipsis : U) (logLine : list U) :
  List.length (Logging.clip ellipsis logLine)
  = Nat.min (List.length logLine) 80
  /\ firstn 79 (Logging.clip ellipsis logLine) = firstn 79 logLine
  /\ ((80 < List.length logLine)%nat ->
      nth_error (Logging.clip ellipsis logLine) 79 = Some ellipsis
      /\ Logging.clip ellipsis logLine = firstn 79 logLine ++ [ellipsis])
  /\ (Logging.clip ellipsis logLine = logLine
      <-> (List.length logLine <= 80)%nat)
  /\ Logging.clip ellipsis (Logging.clip ellipsis logLine)
     = Logging.clip ellipsis logLine.
Proof.
  destruct (Nat.le_gt_cases (List.length logLine) 80) as [Hshort|Hlong].
  - rewrite !(clip_short ellipsis logLine Hshort).
    split; [lia|]. split; [reflexivity|]. split; [lia|].
    split; [tauto | reflexivity].
  - destruct (clip_long ellipsis logLine Hlong) as [-> Hlen].
    split; [rewrite Hlen; lia|]. split; [|split; [|split]].
    2:{ intros _. split; [|reflexivity].
        rewrite nth_error_app2 by (rewrite length_firstn; lia).
        rewrite length_firstn.
        now replace (79 - Nat.min 79 (List.length logLine))%nat with 0%nat
          by lia. }
    + rewrite firstn_app, length_firstn.
      replace (79 - Nat.min 79 (List.length logLine))%nat with 0%nat by lia.
      change (firstn 0 [ellipsis]) with (@nil U).
      rewrite app_nil_r, firstn_firstn. now rewrite Nat.min_id.
    + split; [|lia]. intro E.
      assert (List.length logLine = 80%nat) by (rewrite <- E; exact Hlen).
      lia.
    + apply clip_short. lia.
Qed.

(* ===================================================================== *)
(** * The filter of a query string *)
(* ===================================================================== *)

Lemma get_set_same (k : string) (v : Js.value) (o : Js.object) :
  Js.get k (Js.set k v o) = v.
Proof.
  induction o as [|[k0 v0] o IH]; simpl.
  - now rewrite String.eqb_refl.
  - destruct (String.eqb_spec k0 k) as [->|Hk]; simpl.
    + now rewrite String.eqb_refl.
    + destruct (String.eqb_spec k0 k); [contradiction | exact IH].
Qed.

Ltac other_keys :=
  repeat first [ rewrite copy_string_other by discriminate
               | rewrite copy_int_other by discriminate
               | rewrite copy_flag_other by discriminate ].

Lemma copied_string (q : Routes.Query) (k : string) (o : Js.object) :
  Js.get k o = Js.Undefined ->
  exists x,
    Zod.optional Zod.string (Js.get k (Routes.copy_string q k o))
    = if Api.not_text q k then None else Some x.
Proof.
  intro Ho. unfold Routes.copy_string, Api.not_text.
  destruct (Routes.query_get k q) as [[v|items|fields]|];
    [|exists None; cbn [Routes.value_of Js.truthy];
      now rewrite get_set_same
     |exists None; cbn [Routes.value_of Js.truthy];
      now rewrite get_set_same
     |rewrite Ho; now eexists].
  simpl. destruct (negb (v =? "")%string); [|rewrite Ho; now eexists].
  rewrite get_set_same. now eexists.
Qed.

Lemma copied_flag (q : Routes.Query) (k : string) (o : Js.object) :
  Js.get k o = Js.Undefined ->
  exists x, Zod.optional Zod.boolean (Js.get k (Routes.copy_flag q k o)) = Some x.
Proof.
  intro Ho. unfold Routes.copy_flag.
  destruct (Routes.query_get k q) as [v|]; [|rewrite Ho; now eexists].
  destruct (Js.truthy (Routes.value_of v)); [|rewrite Ho; now eexists].
  rewrite get_set_same. now eexists.
Qed.

Lemma copied_int (q : Routes.Query) (k : string) (o : Js.object) :
  Js.get k o = Js.Undefined ->
  Zod.optional Zod.number (Js.get k (Routes.copy_int q k o))
  = if Api.unreadable q k then None else Some (Api.bound q k).
Proof.
  intro Ho. unfold Routes.copy_int, Api.unreadable, Api.bound, Api.parsed.
  destruct (Routes.query_get k q) as [v|]; [|now rewrite Ho].
  destruct (Js.truthy (Routes.value_of v)); [|now rewrite Ho].
  rewrite get_set_same. now destruct (Js.parseInt (Routes.to_string v)).
Qed.

(** What [propertyFilterSchema] says of the filter built from a query: it
    refuses it exactly when a text parameter is not a string or a numeric
    parameter does not parse; the bounds of a filter it accepts are what
    the numeric parameters parse to, with none for the bathrooms. *)
Lemma filter_of_query_parses (q : Routes.Query) :
  if Api.refused q
  then exists errors,
         Zod.propertyFilterSchema (Js.Obj (Routes.filter_of_query q))
         = Zod.Failure errors
  else exists data,
         Zod.propertyFilterSchema (Js.Obj (Routes.filter_of_query q))
         = Zod.Success data
         /\ Spec.bounds data
            = [Api.bound q "minPrice"; Api.bound q "maxPrice";
               Api.bound q "bedrooms"; None;
               Api.bound q "minArea"; Api.bound q "maxArea"].
Proof.
  unfold Zod.propertyFilterSchema.
  rewrite filter_of_query_without_bathrooms.
  assert (Hcategory : exists x, Zod.optional Zod.string
            (Js.get "category" (Routes.filter_of_query q))
            = if Api.not_text q "category" then None else Some x).
  { unfold Routes.filter_of_query. other_keys. now apply copied_string. }
  assert (Htype : exists x, Zod.optional Zod.string
            (Js.get "type" (Routes.filter_of_query q))
            = if Api.not_text q "type" then None else Some x).
  { unfold Routes.filter_of_query. other_keys. apply copied_string.
    now other_keys. }
  assert (Hcity : exists x, Zod.optional Zod.string
            (Js.get "city" (Routes.filter_of_query q))
            = if Api.not_text q "city" then None else Some x).
  { unfold Routes.filter_of_query. other_keys. apply copied_string.
    now other_keys. }
  assert (Hlocation : exists x, Zod.optional Zod.string
            (Js.get "location" (Routes.filter_of_query q))
            = if Api.not_text q "location" then None else Some x).
  { unfold Routes.filter_of_query. other_keys. apply copied_string.
    now other_keys. }
  assert (Hstatus : exists x, Zod.optional Zod.string
            (Js.get "status" (Routes.filter_of_query q))
            = if Api.not_text q "status" then None else Some x).
  { unfold Routes.filter_of_query. other_keys. apply copied_string.
    now other_keys. }
  assert (Hfeatured : exists x, Zod.optional Zod.boolean
            (Js.get "featured" (Routes.filter_of_query q)) = Some x).
  { unfold Routes.filter_of_query. other_keys. apply copied_flag.
    now other_keys. }
  assert (HminPrice : Zod.optional Zod.number
            (Js.get "minPrice" (Routes.filter_of_query q))
            = if Api.unreadable q "minPrice" then None
              else Some (Api.bound q "minPrice")).
  { unfold Routes.filter_of_query. other_keys. apply copied_int.
    now other_keys. }
  assert (HmaxPrice : Zod.optional Zod.number
            (Js.get "maxPrice" (Routes.filter_of_query q))
            = if Api.unreadable q "maxPrice" then None
              else Some (Api.bound q "maxPrice")).
  { unfold Routes.filter_of_query. other_keys. apply copied_int.
    now other_keys. }
  assert (Hbedrooms : Zod.optional Zod.number
            (Js.get "bedrooms" (Routes.filter_of_query q))
            = if Api.unreadable q "bedrooms" then None
              else Some (Api.bound q "bedrooms")).
  { unfold Routes.filter_of_query. other_keys. apply copied_int.
    now other_keys. }
  assert (HminArea : Zod.optional Zod.number
            (Js.get "minArea" (Routes.filter_of_query q))
            = if Api.unreadable q "minArea" then None
              else Some (Api.bound q "minArea")).
  { unfold Routes.filter_of_query. other_keys. apply copied_int.
    now other_keys. }
  assert (HmaxArea : Zod.optional Zod.number
            (Js.get "maxArea" (Routes.filter_of_query q))
            = if Api.unreadable q "maxArea" then None
              else Some (Api.bound q "maxArea")).
  { unfold Routes.filter_of_query. other_keys. apply copied_int.
    now other_keys. }
  destruct Hcategory as (x1 & ->), Htype as (x2 & ->), Hcity as (x3 & ->),
    Hlocation as (x4 & ->), Hstatus as (x5 & ->), Hfeatured as (x6 & ->).
  rewrite HminPrice, HmaxPrice, Hbedrooms, HminArea, HmaxArea.
  unfold Api.refused, Api.text_parameters, Api.numeric_parameters.
  cbn [existsb].
  destruct (Api.not_text q "category");
    [cbn [orb]; eexists; reflexivity|].
  destruct (Api.not_text q "type");
    [cbn [orb]; eexists; reflexivity|].
  destruct (Api.not_text q "city");
    [cbn [orb]; eexists; reflexivity|].
  destruct (Api.not_text q "location");
    [cbn [orb]; eexists; reflexivity|].
  destruct (Api.unreadable q "minPrice");
    [rewrite ?orb_true_r; cbn [orb]; eexists; reflexivity|].
  destruct (Api.unreadable q "maxPrice");
    [rewrite ?orb_true_r; cbn [orb]; eexists; reflexivity|].
  destruct (Api.unreadable q "bedrooms");
    [rewrite ?orb_true_r; cbn [orb]; eexists; reflexivity|].
  destruct (Api.unreadable q "minArea");
    [rewrite ?orb_true_r; cbn [orb]; eexists; reflexivity|].
  destruct (Api.unreadable q "maxArea");
    [rewrite ?orb_true_r; cbn [orb]; eexists; reflexivity|].
  destruct (Api.not_text q "status");
    [cbn [orb]; eexists; reflexivity|].
  cbn [orb]. eexists. split; reflexivity.
Qed.

(** A numeric parameter is too large exactly when the bound it gives does
    not fit. *)
Lemma bound_fits (q : Routes.Query) (k : string) :
  Api.too_large q k = false
  <-> forall z, Api.bound q k = Some z -> Spec.fits z.
Proof.
  unfold Api.too_large, Api.bound.
  destruct (Api.parsed q k) as [[|z]|].
  - split; [intros _ z E; discriminate E | reflexivity].
  - rewrite negb_false_iff, int4_fits. split.
    + intros Hz z' E. now injection E as <-.
    + intro H. now apply H.
  - split; [intros _ z' E; discriminate E | reflexivity].
Qed.

Lemma bounds_fit (q : Routes.Query) :
  Api.out_of_range q = false
  <-> Spec.all_fit [Api.bound q "minPrice"; Api.bound q "maxPrice";
                    Api.bound q "bedrooms"; None;
                    Api.bound q "minArea"; Api.bound q "maxArea"].
Proof.
  unfold Api.out_of_range, Api.numeric_parameters, Spec.all_fit.
  cbn [existsb]. rewrite orb_false_r, !orb_false_iff, !bound_fits. split.
  - intros (H1 & H2 & H3 & H4 & H5) z [E|[E|[E|[E|[E|[E|[]]]]]]];
      try discriminate E; eauto.
  - intro H. split; [|split; [|split; [|split]]];
      intros z E; apply H; rewrite <- E; simpl; auto 7.
Qed.

(** X13.  The listing route and its parameters.  [GET /api/properties] is
    answered 400 exactly when one of [category], [type], [city], [location],
    [status] is given and is not a string (it is repeated, or written with
    brackets), or one of [minPrice], [maxPrice], [bedrooms], [minArea],
    [maxArea] is given, is not empty, and [parseInt] makes [NaN] of it;
    otherwise 500 exactly when one of these five parses to a number that
    does not fit the 32 bits of an integer column; otherwise 200, with
    stored properties only.  The database and the session stay as they
    are. *)
Theorem get_properties_status (q : Routes.Query) (s : Server) :
  exists response,
    Routes.get_properties q s = (Returned response, s)
    /\ status response
       = (if Api.refused q then 400
          else if Api.out_of_range q then 500 else 200)
    /\ match body response with
       | Properties listed =>
           status response = 200
           /\ incl listed (Schema.rows (Schema.properties (database s)))
       | Json _ => status response = 400 \/ status response = 500
       end.
Proof.
  unfold Routes.get_properties, try_catch, bind.
  pose proof (filter_of_query_parses q) as Hparse.
  destruct (Api.refused q).
  - destruct Hparse as (errors & ->). eexists. split; [reflexivity|].
    split; [reflexivity | now left].
  - destruct Hparse as (data & -> & Hbounds).
    pose proof (bounds_fit q) as Hfit. rewrite <- Hbounds in Hfit.
    destruct (Api.out_of_range q).
    + rewrite getProperties_refused.
      * eexists. split; [reflexivity|]. split; [reflexivity | now right].
      * intro H. apply Hfit in H. discriminate H.
    + rewrite getProperties_fit by now apply Hfit.
      eexists. split; [reflexivity|]. split; [reflexivity|].
      split; [reflexivity|]. apply incl_filter.
Qed.

(** The theorem at three queries: a category given twice, a price beyond
    the column, and three bedrooms. *)
Lemma get_properties_status_witness :
  (exists response,
     Routes.get_properties
       [("category", Routes.QArr [Routes.QStr "buy"; Routes.QStr "rent"])]
       Sample.server
     = (Returned response, Sample.server)
     /\ status response = 400)
  /\ (exists response,
        Routes.get_properties [("minPrice", Routes.QStr "99999999999")]
          Sample.server
        = (Returned response, Sample.server)
        /\ status response = 500)
  /\ (exists response,
        Routes.get_properties [("bedrooms", Routes.QStr "3")] Sample.server
        = (Returned response, Sample.server)
        /\ status response = 200).
Proof.
  split; [|split].
  - destruct (get_properties_status
                [("category",
                  Routes.QArr [Routes.QStr "buy"; Routes.QStr "rent"])]
                Sample.server) as (response & Hrun & Hstatus & _).
    exists response. split; [exact Hrun | exact Hstatus].
  - destruct (get_properties_status
                [("minPrice", Routes.QStr "99999999999")] Sample.server)
      as (response & Hrun & Hstatus & _).
    exists response. split; [exact Hrun | exact Hstatus].
  - destruct (get_properties_status
                [("bedrooms", Routes.QStr "3")] Sample.server)
      as (response & Hrun & Hstatus & _).
    exists response. split; [exact Hrun | exact Hstatus].
Defined.

(* ===================================================================== *)
(** * A profile update that goes through *)
(* ===================================================================== *)

Lemma existsb_none {A : Type} (f : A -> bool) (l : list A) :
  (forall a, In a l -> f a = false) -> existsb f l = false.
Proof.
  intro H. destruct (existsb f l) eqn:E; [|reflexivity].
  apply existsb_exists in E as (a & Ha & Hf). rewrite (H a Ha) in Hf.
  discriminate.
Qed.

(** Rows that share a key are the same row, when keys are distinct. *)
Lemma same_key_same_row {A K : Type} (keys : A -> list K) (l : list A)
    (a b : A) (k : K) :
  NoDup (flat_map keys l) -> In a l -> In b l ->
  In k (keys a) -> In k (keys b) -> a = b.
Proof.
  induction l as [|x l IH]; simpl; intros Hl Ha Hb Hka Hkb; [contradiction|].
  apply NoDup_app_parts in Hl as (Hx & Hl & Hxl).
  destruct Ha as [->|Ha], Hb as [->|Hb]; auto.
  - exfalso. apply (Hxl k Hka). apply in_flat_map. now exists b.
  - exfalso. apply (Hxl k Hkb). apply in_flat_map. now exists a.
Qed.

Lemma same_id_same_user (l : list Schema.User.row) (a b : Schema.User.row) :
  NoDup (map Schema.User.id l) -> In a l -> In b l ->
  Schema.User.id a = Schema.User.id b -> a = b.
Proof.
  intros Hl Ha Hb E. rewrite <- flat_map_singleton in Hl.
  apply (same_key_same_row _ l a b (Schema.User.id b) Hl Ha Hb);
    simpl; auto.
Qed.

Lemma same_username_same_user (l : list Schema.User.row)
    (a b : Schema.User.row) :
  NoDup (map Schema.User.username l) -> In a l -> In b l ->
  Schema.User.username a = Schema.User.username b -> a = b.
Proof.
  intros Hl Ha Hb E. rewrite <- flat_map_singleton in Hl.
  apply (same_key_same_row _ l a b (Schema.User.username b) Hl Ha Hb);
    simpl; auto.
Qed.

Lemma same_email_same_user (l : list Schema.User.row) (a b : Schema.User.row)
    (e : string) :
  NoDup (Consistent.emails l) -> In a l -> In b l ->
  Schema.User.email a = Some e -> Schema.User.email b = Some e -> a = b.
Proof.
  intros Hl Ha Hb Ea Eb.
  apply (same_key_same_row _ l a b e Hl Ha Hb).
  - rewrite Ea. now left.
  - rewrite Eb. now left.
Qed.

Lemma find_ext {A : Type} (f g : A -> bool) (l : list A) :
  (forall a, f a = g a) -> find f l = find g l.
Proof.
  intro H. induction l as [|a l IH]; simpl; [reflexivity|].
  now rewrite H, IH.
Qed.

Lemma hd_error_map {A B : Type} (f : A -> B) (l : list A) :
  hd_error (map f l) = option_map f (hd_error l).
Proof. now destruct l. Qed.

Lemma find_updated (i : Z) (f : Schema.User.row -> Schema.User.row)
    (l : list Schema.User.row) :
  (forall u, Schema.User.id (f u) = Schema.User.id u) ->
  find (fun u => Schema.User.id u =? i)
       (map (fun u => if Schema.User.id u =? i then f u else u) l)
  = option_map f (find (fun u => Schema.User.id u =? i) l).
Proof.
  intro Hf. induction l as [|x l IH]; simpl; [reflexivity|].
  destruct (Schema.User.id x =? i) eqn:E.
  - now rewrite Hf, E.
  - now rewrite E.
Qed.

(** X14.  A profile update that goes through.  With the users table in
    order, for a stored user who asks for her own profile, a body that
    passes the schema and gives at least one of name, email and phone, and
    an email, if given, that no other user has: the answer is 200 with the
    user after the update, without the password; the row of the user has the
    given fields replaced and the others kept; the other rows are as they
    were; and [getUser] then returns the updated row. *)
Theorem profile_update_applies `{EmailFormat} (id : string)
    (u : Schema.User.row) (body : Js.value) (data : Zod.ProfileUpdate)
    (s : Server) :
  Consistent.users_ok (database s) ->
  In u (Schema.rows (Schema.users (database s))) ->
  Js.parseInt id = Js.Num (Schema.User.id u) ->
  Zod.updateSchema body = Zod.Success data ->
  Zod.name data <> None \/ Zod.email data <> None \/ Zod.phone data <> None ->
  (forall other e,
     In other (Schema.rows (Schema.users (database s))) ->
     Schema.User.id other <> Schema.User.id u ->
     Zod.email data = Some e -> Schema.User.email other <> Some e) ->
  let updated :=
    {| Schema.User.id := Schema.User.id u;
       Schema.User.username := Schema.User.username u;
       Schema.User.password := Schema.User.password u;
       Schema.User.email :=
         match Zod.email data with Some e => Some e | None => Schema.User.email u end;
       Schema.User.name :=
         match Zod.name data with Some n => Some n | None => Schema.User.name u end;
       Schema.User.phone :=
         match Zod.phone data with Some p => Some p | None => Schema.User.phone u end;
       Schema.User.role := Schema.User.role u;
       Schema.User.profileImage := Schema.User.profileImage u;
       Schema.User.createdAt := Schema.User.createdAt u |} in
  let request :=
    Routes.patch_users_id id (Some (userWithoutPassword u)) body s in
  fst request
  = Returned
      (respond 200
         (Js.Obj [("message", Js.Str "Profile updated successfully");
                  ("user", Js.Obj (userWithoutPassword updated))]))
  /\ Schema.rows (Schema.users (database (snd request)))
     = map (fun r => if Schema.User.id r =? Schema.User.id u then updated else r)
           (Schema.rows (Schema.users (database s)))
  /\ Storage.getUser (Schema.User.id u) (snd request)
     = (Returned (Some updated), snd request).
Proof.
  intros (Hids & _ & Hnames & Hemails) Hu Hid Hparse Hgiven Hemail
    updated request.
  assert (Hset : Storage.set_user (Routes.updates_of data) u = updated).
  { unfold Storage.set_user, Routes.updates_of, updated, Storage.given; simpl.
    now destruct (Zod.email data), (Zod.name data), (Zod.phone data). }
  assert (Hvalues : Storage.no_values (Routes.updates_of data) = false).
  { unfold Storage.no_values, Routes.updates_of; simpl.
    destruct (Zod.email data), (Zod.name data), (Zod.phone data);
      try reflexivity.
    destruct Hgiven as [G|[G|G]]; now contradiction G. }
  assert (Hfind : find (fun r => Schema.User.id r =? Schema.User.id u)
                       (Schema.rows (Schema.users (database s))) = Some u)
    by now apply find_by_id.
  set (hit := Drizzle.holds
                (Drizzle.eq Storage.users_id (Drizzle.int (Schema.User.id u)))).
  assert (Hhit : forall r, hit r = (Schema.User.id r =? Schema.User.id u))
    by (intro r; apply holds_users_id).
  assert (Hclash :
    existsb
      (fun u' =>
         existsb
           (fun other =>
              negb (hit other)
              && ((Schema.User.username other =? Schema.User.username u')%string
                  || Drizzle.clashes (Schema.User.email other)
                                     (Schema.User.email u')))
           (Schema.rows (Schema.users (database s))))
      (map (Storage.set_user (Routes.updates_of data))
           (filter hit (Schema.rows (Schema.users (database s)))))
    = false).
  { apply existsb_none. intros u' Hu'.
    apply in_map_iff in Hu' as (a & <- & Ha).
    apply filter_In in Ha as [Ha Hhita]. rewrite Hhit in Hhita.
    apply Z.eqb_eq in Hhita.
    assert (a = u) as ->
      by (eapply same_id_same_user; eauto).
    rewrite Hset. apply existsb_none. intros other Hother.
    rewrite Hhit. destruct (Z.eqb_spec (Schema.User.id other) (Schema.User.id u))
      as [E|Hne]; [reflexivity|]. simpl.
    apply orb_false_iff. split.
    - apply String.eqb_neq. intro Hsame. apply Hne. f_equal.
      eapply same_username_same_user; eauto.
    - unfold updated; cbn [Schema.User.email].
      destruct (Schema.User.email other) as [e|] eqn:Eo; [|reflexivity].
      destruct (Zod.email data) as [e'|] eqn:Ed.
      + simpl. apply String.eqb_neq. intros ->.
        now apply (Hemail other e' Hother Hne).
      + destruct (Schema.User.email u) as [e'|] eqn:Eu; [|reflexivity].
        simpl. apply String.eqb_neq. intros ->. apply Hne. f_equal.
        eapply same_email_same_user; eauto. }
  assert (Hupdate :
    Storage.updateUser (Schema.User.id u) (Routes.updates_of data) s
    = (Returned (Some updated),
       {| database :=
            Storage.with_users
              {| Schema.rows :=
                   map (fun r => if hit r
                                 then Storage.set_user (Routes.updates_of data) r
                                 else r)
                       (Schema.rows (Schema.users (database s)));
                 Schema.serial := Schema.serial (Schema.users (database s)) |}
              (database s);
          session := session s |})).
  { unfold Storage.updateUser, try_catch, bind. rewrite getUser_find, Hfind.
    unfold Storage.update_users. rewrite Hvalues. fold hit. rewrite Hclash.
    unfold ret. do 2 f_equal.
    rewrite hd_error_map, hd_error_filter.
    rewrite (find_ext _ _ _ Hhit), Hfind. simpl. now rewrite Hset. }
  assert (Hrun : request
    = (Returned
         (respond 200
            (Js.Obj [("message", Js.Str "Profile updated successfully");
                     ("user", Js.Obj (userWithoutPassword updated))])),
       snd (Storage.updateUser (Schema.User.id u) (Routes.updates_of data) s))).
  { unfold request, Routes.patch_users_id, Routes.isAuthenticated,
      try_catch, bind.
    replace (Js.get "id" (userWithoutPassword u))
      with (Js.Number (Js.Num (Schema.User.id u))) by reflexivity.
    rewrite Hid. cbn [Js.truthy Js.strict_eq andb].
    rewrite Z.eqb_refl. cbn [negb]. rewrite Hparse.
    unfold Routes.integer. rewrite getUser_find, Hfind, Hupdate.
    reflexivity. }
  rewrite Hrun, Hupdate. cbn [fst snd]. split; [reflexivity|].
  assert (Hrows :
    map (fun r => if hit r
                  then Storage.set_user (Routes.updates_of data) r else r)
        (Schema.rows (Schema.users (database s)))
    = map (fun r => if Schema.User.id r =? Schema.User.id u then updated else r)
          (Schema.rows (Schema.users (database s)))).
  { apply map_ext_in. intros r Hr. rewrite Hhit.
    destruct (Z.eqb_spec (Schema.User.id r) (Schema.User.id u)) as [E|_];
      [|reflexivity].
    assert (r = u) as ->; [|exact Hset].
    eapply same_id_same_user; eauto. }
  split.
  - cbn [database Storage.with_users Schema.users Schema.rows]. exact Hrows.
  - rewrite getUser_find.
    cbn [database Storage.with_users Schema.users Schema.rows].
    rewrite (map_ext _
               (fun r => if Schema.User.id r =? Schema.User.id u
                         then Storage.set_user (Routes.updates_of data) r
                         else r))
      by (intro r; now rewrite Hhit).
    rewrite (find_updated (Schema.User.id u)
               (Storage.set_user (Routes.updates_of data)))
      by reflexivity.
    rewrite Hfind. simpl. now rewrite Hset.
Qed.

(* ===================================================================== *)
(** * The theorems at the seeded database *)
(* ===================================================================== *)

Lemma sample_server_ok : Consistent.server_ok Sample.server.
Proof.
  split; [|split].
  - split; [|split; [|split]].
    + repeat constructor; simpl; intuition discriminate.
    + repeat constructor; simpl; lia.
    + repeat constructor; simpl; intuition discriminate.
    + repeat constructor; simpl; intuition discriminate.
  - split; constructor.
  - intros id Hid. discriminate Hid.
Qed.

Lemma sample_bcrypt_accepts (salt p : string) :
  bcrypt_compare (Bcrypt := Sample.bcrypt) p
    (bcrypt_hash (Bcrypt := Sample.bcrypt) p 10 salt) = true.
Proof. simpl. apply String.eqb_refl. Qed.

(** A user who asks for the username of another is refused by the
    database, and a new user is taken: the table stays in order. *)
Lemma users_table_integrity_witness :
  Consistent.users_ok (database Sample.server)
  /\ snd (Storage.updateUser 1
            {| Schema.UserUpdates.username := Some "admin";
               Schema.UserUpdates.email := None;
               Schema.UserUpdates.name := None;
               Schema.UserUpdates.phone := None;
               Schema.UserUpdates.role := None;
               Schema.UserUpdates.profileImage := None;
               Schema.UserUpdates.createdAt := None |} Sample.server)
     = Sample.server
  /\ Consistent.users_ok
       (database (snd (Storage.createUser (H := Sample.bcrypt) "salt" 2000
          {| Schema.InsertUser.username := "bob";
             Schema.InsertUser.password := "secret1";
             Schema.InsertUser.email := None;
             Schema.InsertUser.name := None;
             Schema.InsertUser.phone := None |} Sample.server))).
Proof.
  split; [exact (proj1 sample_server_ok)|]. split.
  - exact (proj2 (proj2 (users_table_integrity (H := Sample.bcrypt)
                           Sample.server (proj1 sample_server_ok))
                        1
                        {| Schema.UserUpdates.username := Some "admin";
                           Schema.UserUpdates.email := None;
                           Schema.UserUpdates.name := None;
                           Schema.UserUpdates.phone := None;
                           Schema.UserUpdates.role := None;
                           Schema.UserUpdates.profileImage := None;
                           Schema.UserUpdates.createdAt := None |})).
  - exact (proj1 (proj1 (users_table_integrity (H := Sample.bcrypt)
                           Sample.server (proj1 sample_server_ok))
                        "salt" 2000
                        {| Schema.InsertUser.username := "bob";
                           Schema.InsertUser.password := "secret1";
                           Schema.InsertUser.email := None;
                           Schema.InsertUser.name := None;
                           Schema.InsertUser.phone := None |})).
Defined.

(** A visit: register, log in, save a property twice, unsave it, log
    out. *)
Lemma requests_keep_integrity_witness :
  Consistent.server_ok
    (Consistent.after (H := Sample.bcrypt) (H0 := Sample.email_format)
       [ ("salt", 2000,
          Api.POST_users_register
            (Js.Obj [("username", Js.Str "bob"); ("password", Js.Str "secret1")]));
         ("salt", 2001,
          Api.POST_auth_login
            (Js.Obj [("username", Js.Str "bob"); ("password", Js.Str "secret1")]));
         ("salt", 2002,
          Api.POST_saved_properties (Js.Obj [("propertyId", Js.Number (Js.Num 1))]));
         ("salt", 2003,
          Api.POST_saved_properties (Js.Obj [("propertyId", Js.Number (Js.Num 1))]));
         ("salt", 2004, Api.DELETE_saved_properties "1");
         ("salt", 2005, Api.POST_auth_logout) ]
       Sample.server).
Proof.
  exact (proj1 (requests_keep_integrity (H := Sample.bcrypt)
                  (H0 := Sample.email_format) _ Sample.server
                  sample_server_ok)).
Defined.

(** [alice] saves the seeded property. *)
Lemma saving_over_the_interface_witness :
  exists row,
    fst (Api.post_saved_properties 3000 (Some (userWithoutPassword Sample.alice))
           (Js.Obj [("propertyId", Js.Number (Js.Num 1))]) Sample.server)
    = Returned (respond 201 (Js.Obj (Wire.savedProperty_object row)))
    /\ Schema.SavedProperty.userId row = 1
    /\ Schema.SavedProperty.propertyId row = 1.
Proof.
  assert (Halice : Spec.fits (Schema.User.id Sample.alice))
    by (unfold Spec.fits; simpl; lia).
  assert (Hone : Spec.fits 1) by (unfold Spec.fits; lia).
  destruct (proj2 (saving_over_the_interface 3000 4000 Sample.alice
                     [("propertyId", Js.Number (Js.Num 1))] 1 "1"
                     Sample.server eq_refl eq_refl Halice) Hone)
    as (row & Hfirst & Huser & Hproperty & _).
  exists row. split; [exact Hfirst|]. split; assumption.
Defined.

(** [alice] has saved the seeded property, and it is read back. *)
Lemma isPropertySaved_after_witness :
  fst (Storage.isPropertySaved 1 1
         (snd (Storage.saveProperty 3000
                 {| Schema.InsertSavedProperty.userId := 1;
                    Schema.InsertSavedProperty.propertyId := 1 |}
                 Sample.server)))
  = Returned true.
Proof.
  assert (Hone : Spec.fits 1) by (unfold Spec.fits; lia).
  destruct (proj1 (isPropertySaved_after 3000 1 1 1 1 Sample.server)
                  Hone Hone) as (was & _ & Hsaved & _).
  exact Hsaved.
Defined.

(** A line of 81 code units: the 80th of the cut line is the ellipsis. *)
Lemma clip_to_80_witness :
  nth_error (Logging.clip 1%nat (repeat 0%nat 81)) 79 = Some 1%nat.
Proof.
  assert (Hlong : (80 < List.length (repeat 0%nat 81))%nat)
    by (rewrite repeat_length; lia).
  exact (proj1 (proj1 (proj2 (proj2 (clip_to_80 1%nat (repeat 0%nat 81))))
                      Hlong)).
Defined.

(** [bob] registers and logs in with the same body. *)
Lemma register_then_login_witness :
  let body :=
    Js.Obj [("username", Js.Str "bob"); ("password", Js.Str "secret1")] in
  exists user,
    Schema.User.username user = "bob"
    /\ fst (Routes.post_auth_login (H := Sample.bcrypt) body
              (snd (Routes.post_users_register (H := Sample.bcrypt) "salt" 2000
                      body Sample.server)))
       = Returned
           (respond 200
              (Js.Obj [("message", Js.Str "Login successful");
                       ("user", Js.Obj (userWithoutPassword user))])).
Proof.
  intro body.
  destruct (register_then_login (H := Sample.bcrypt) "salt" "pepper" 2000 2001
              body
              {| Schema.InsertUser.username := "bob";
                 Schema.InsertUser.password := "secret1";
                 Schema.InsertUser.email := None;
                 Schema.InsertUser.name := None;
                 Schema.InsertUser.phone := None |}
              Sample.server _ _
              (sample_bcrypt_accepts "salt") eq_refl
              ltac:(discriminate) ltac:(discriminate) eq_refl eq_refl)
    as (user & _ & Hname & Hlogin & _).
  exists user. split; [exact Hname|]. exact (f_equal fst Hlogin).
Defined.

(** Logging out of the seeded server. *)
Lemma session_from_login_to_logout_witness :
  Api.handle (H := Sample.bcrypt) (H0 := Sample.email_format) "salt" 2000
    Api.POST_auth_logout Sample.server
  = (Returned (respond 200 (message_only "Logout successful")),
     {| database := database Sample.server; session := None |}).
Proof.
  exact (proj1 (proj2 (session_from_login_to_logout (H := Sample.bcrypt)
                         (H0 := Sample.email_format) "salt" 2000
                         (Js.Obj [("username", Js.Str "alice");
                                  ("password", Js.Str "secret1")])
                         Sample.server sample_server_ok))).
Defined.

(** One featured property asked for, one listed. *)
Lemma limited_listings_witness :
  Api.get_properties_featured [("limit", Routes.QStr "1")] Sample.server
  = (Returned {| status := 200; body := Properties [Sample.skyline] |},
     Sample.server).
Proof.
  assert (Htaken : Spec.limit_taken
                     (Api.limit_of [("limit", Routes.QStr "1")]))
    by (vm_compute; intro E; discriminate E).
  exact (proj1 (proj1 (limited_listings [("limit", Routes.QStr "1")] "Mumbai"
                         Sample.server) Htaken)).
Defined.


(** [alice] gives herself a phone number. *)
Lemma profile_update_applies_witness :
  Schema.rows (Schema.users (database (snd
    (Routes.patch_users_id (H := Sample.email_format) "1"
       (Some (userWithoutPassword Sample.alice))
       (Js.Obj [("phone", Js.Str "9876543210")]) Sample.server))))
  = [ {| Schema.User.id := 1;
         Schema.User.username := "alice";
         Schema.User.password := "$2a$10$secret1";
         Schema.User.email := Some "alice@example.com";
         Schema.User.name := Some "Alice";
         Schema.User.phone := Some "9876543210";
         Schema.User.role := "user";
         Schema.User.profileImage := None;
         Schema.User.createdAt := Some 1000 |};
      Sample.admin ].
Proof.
  assert (Hphone : Some "9876543210" <> @None string) by discriminate.
  assert (Hemail : forall (other : Schema.User.row) (e : string),
            In other (Schema.rows (Schema.users (database Sample.server))) ->
            Schema.User.id other <> Schema.User.id Sample.alice ->
            @None string = Some e -> Schema.User.email other <> Some e)
    by (intros other e _ _ He; discriminate He).
  exact (proj1 (proj2 (profile_update_applies (H := Sample.email_format) "1"
           Sample.alice (Js.Obj [("phone", Js.Str "9876543210")])
           {| Zod.name := None; Zod.email := None;
              Zod.phone := Some "9876543210" |}
           Sample.server (proj1 sample_server_ok) (or_introl eq_refl)
           eq_refl eq_refl (or_intror (or_intror Hphone)) Hemail))).
Defined.

(* ===================================================================== *)
(** * Creating and looking up *)
(* ===================================================================== *)

Lemma find_none_below (l : list Schema.User.row) (n : Z) :
  Forall (fun u => Schema.User.id u < n) l ->
  find (fun u => Schema.User.id u =? n) l = None.
Proof.
  induction 1 as [|u l Hu Hl IH]; simpl; [reflexivity|].
  now replace (Schema.User.id u =? n) with false
    by (symmetry; apply Z.eqb_neq; lia).
Qed.

(** X15.  A created user can be looked up.  With the users table in order,
    a username that is not taken and an email, if any, that is not taken:
    [createUser] returns the user with the next identifier, the hash of the
    password in place of the password, and the role [user]; [getUser] on the
    identifier and [getUserByUsername] on the username then return that
    user; and every other look-up by identifier answers as before. *)
Theorem createUser_then_lookup `{Bcrypt} (salt : string) (now : Z)
    (v : Schema.InsertUser.t) (s : Server) :
  Consistent.users_ok (database s) ->
  (forall u, In u (Schema.rows (Schema.users (database s))) ->
             Schema.User.username u <> Schema.InsertUser.username v) ->
  (forall u e, In u (Schema.rows (Schema.users (database s))) ->
               Schema.User.email u = Some e ->
               Schema.InsertUser.email v <> Some e) ->
  exists user s',
    Storage.createUser salt now v s = (Returned user, s')
    /\ Schema.User.id user = Schema.serial (Schema.users (database s))
    /\ Schema.User.password user
       = bcrypt_hash (Schema.InsertUser.password v) 10 salt
    /\ Schema.User.role user = "user"
    /\ Storage.getUser (Schema.User.id user) s' = (Returned (Some user), s')
    /\ Storage.getUserByUsername (Schema.InsertUser.username v) s'
       = (Returned (Some user), s')
    /\ forall id, id <> Schema.User.id user ->
                  fst (Storage.getUser id s') = fst (Storage.getUser id s).
Proof.
  intros (Hids & Hserial & Hnames & Hemails) Hname Hemail.
  unfold Storage.createUser.
  rewrite insert_users_fresh by assumption.
  eexists. eexists. split; [reflexivity|].
  split; [reflexivity|]. split; [reflexivity|]. split; [reflexivity|].
  split; [|split].
  - rewrite getUser_find.
    cbn [database Storage.with_users Schema.users Schema.rows Schema.User.id].
    rewrite find_snoc, (find_none_below _ _ Hserial).
    cbn [Schema.User.id]. now rewrite Z.eqb_refl.
  - rewrite getUserByUsername_find.
    cbn [database Storage.with_users Schema.users Schema.rows
         Schema.InsertUser.username].
    rewrite find_snoc.
    destruct (find _ _) as [taken|] eqn:Hfind.
    + exfalso. apply find_some in Hfind as [Hin Hu].
      apply String.eqb_eq in Hu. now apply (Hname taken).
    + cbn [Schema.User.username]. now rewrite String.eqb_refl.
  - intros id Hid. rewrite !getUser_find. cbn [fst]. f_equal.
    cbn [database Storage.with_users Schema.users Schema.rows Schema.User.id]
      in *.
    rewrite find_snoc.
    destruct (find _ _); [reflexivity|].
    cbn [Schema.User.id].
    now replace (Schema.serial (Schema.users (database s)) =? id) with false
      by (symmetry; apply Z.eqb_neq; congruence).
Qed.

(** [bob] is created on the seeded database and found again. *)
Lemma createUser_then_lookup_witness :
  exists user s',
    Storage.createUser (H := Sample.bcrypt) "salt" 2000
      {| Schema.InsertUser.username := "bob";
         Schema.InsertUser.password := "secret1";
         Schema.InsertUser.email := None;
         Schema.InsertUser.name := None;
         Schema.InsertUser.phone := None |} Sample.server
    = (Returned user, s')
    /\ Schema.User.id user = 3
    /\ Storage.getUserByUsername "bob" s' = (Returned (Some user), s').
Proof.
  assert (Hname : forall u,
            In u (Schema.rows (Schema.users (database Sample.server))) ->
            Schema.User.username u <> "bob")
    by (intros u [<- | [<- | []]]; discriminate).
  assert (Hemail : forall (u : Schema.User.row) (e : string),
            In u (Schema.rows (Schema.users (database Sample.server))) ->
            Schema.User.email u = Some e -> @None string <> Some e)
    by (intros u e _ _; discriminate).
  destruct (createUser_then_lookup (H := Sample.bcrypt) "salt" 2000
              {| Schema.InsertUser.username := "bob";
                 Schema.InsertUser.password := "secret1";
                 Schema.InsertUser.email := None;
                 Schema.InsertUser.name := None;
                 Schema.InsertUser.phone := None |} Sample.server
              (proj1 sample_server_ok) Hname Hemail)
    as (user & s' & Hrun & Hid & _ & _ & _ & Hlookup & _).
  exists user, s'. split; [exact Hrun|]. split; [exact Hid | exact Hlookup].
Defined.

(* ===================================================================== *)
(** * The list of saved properties *)
(* ===================================================================== *)

Lemma getSavedProperties_run (userId : Z) (s : Server) :
  Storage.getSavedProperties userId s
  = (Returned (map snd (Storage.getSavedProperties_result userId (database s))),
     s).
Proof. reflexivity. Qed.

Lemma list_prod_app {A B : Type} (l1 l2 : list A) (l : list B) :
  list_prod (l1 ++ l2) l = list_prod l1 l ++ list_prod l2 l.
Proof.
  induction l1 as [|a l1 IH]; simpl; [reflexivity|].
  now rewrite IH, app_assoc.
Qed.

Lemma filter_none {A : Type} (f : A -> bool) (l : list A) :
  (forall a, In a l -> f a = false) -> filter f l = [].
Proof.
  induction l as [|a l IH]; simpl; intro H; [reflexivity|].
  rewrite (H a (or_introl eq_refl)). apply IH. intros b Hb. apply H. now right.
Qed.

(** The joined rows of a user do not see the saved rows of another. *)
Lemma getSavedProperties_result_other (userId : Z)
    (row : Schema.SavedProperty.row) (db : Schema.Database)
    (t : Schema.Table Schema.SavedProperty.row) :
  Schema.SavedProperty.userId row <> userId ->
  Schema.rows t = Schema.rows (Schema.savedProperties db) ++ [row] ->
  Storage.getSavedProperties_result userId (Storage.with_savedProperties t db)
  = Storage.getSavedProperties_result userId db.
Proof.
  intros Hother Ht. unfold Storage.getSavedProperties_result, Drizzle.innerJoin.
  cbn [Storage.with_savedProperties Schema.savedProperties Schema.properties].
  rewrite Ht, list_prod_app, !filter_app.
  replace (filter _ (filter _ (list_prod [row] _))) with
    (@nil (Schema.SavedProperty.row * Schema.Property.row));
    [now rewrite app_nil_r|].
  symmetry. apply filter_none. intros [saved property] Hin.
  apply filter_In in Hin as [Hin _]. apply in_prod_iff in Hin as [Hin _].
  destruct Hin as [<-|[]]. unfold Drizzle.holds; simpl.
  now replace (Schema.SavedProperty.userId row =? userId) with false
    by (symmetry; apply Z.eqb_neq; exact Hother).
Qed.

(** X16.  The saved list of a user.  After [saveProperty] on a stored
    property it is in the user's list; after [unsaveProperty] no property
    with that identifier is; the list holds stored properties only, each for
    a saved row of the user; and saving for one user never changes the list
    of another. *)
Theorem saved_list_follows (now userId other : Z)
    (property : Schema.Property.row) (s : Server) :
  In property (Schema.rows (Schema.properties (database s))) ->
  other <> userId ->
  let v := {| Schema.InsertSavedProperty.userId := userId;
              Schema.InsertSavedProperty.propertyId :=
                Schema.Property.id property |} in
  let listed (u : Z) (s : Server) :=
    map snd (Storage.getSavedProperties_result u (database s)) in
  (forall u s0, Storage.getSavedProperties u s0 = (Returned (listed u s0), s0))
  /\ In property (listed userId (snd (Storage.saveProperty now v s)))
  /\ (forall p,
        In p (listed userId
                (snd (Storage.unsaveProperty userId
                        (Schema.Property.id property) s))) ->
        Schema.Property.id p <> Schema.Property.id property)
  /\ (forall p,
        In p (listed userId s) ->
        In p (Schema.rows (Schema.properties (database s)))
        /\ History.rows_of userId (Schema.Property.id p) s <> [])
  /\ listed other (snd (Storage.saveProperty now v s)) = listed other s.
Proof.
  intros Hstored Hother v listed.
  split; [intros; apply getSavedProperties_run|].
  split; [|split; [|split]].
  - destruct (saveProperty_stores now v s) as (row & rest & _ & Hrows).
    set (s1 := snd (Storage.saveProperty now v s)) in *.
    assert (Hin : In row (History.rows_of userId (Schema.Property.id property) s1))
      by (simpl in Hrows; rewrite Hrows; now left).
    apply filter_In in Hin as [Hin Hpair].
    apply andb_true_iff in Hpair as [Hu Hp]. apply Z.eqb_eq in Hu, Hp.
    assert (Hprops : Schema.properties (database s1)
                     = Schema.properties (database s)).
    { unfold s1.
      destruct (History.rows_of userId (Schema.Property.id property) s)
        as [|x xs] eqn:H0.
      - now rewrite (saveProperty_absent now v s H0).
      - now rewrite (saveProperty_found now v s x xs H0). }
    unfold listed. apply in_map_iff. exists (row, property). split; [reflexivity|].
    apply (proj2 (getSavedProperties_result_rows s1 userId)).
    rewrite Hprops. auto.
  - intros p Hp Hid. unfold listed in Hp.
    apply in_map_iff in Hp as ([saved p'] & Hsnd & Hin). simpl in Hsnd. subst p'.
    apply (proj2 (getSavedProperties_result_rows _ userId)) in Hin
      as (Hsaved & _ & Hu & Hp).
    assert (Hrow : In saved
              (History.rows_of userId (Schema.Property.id property)
                 (snd (Storage.unsaveProperty userId
                         (Schema.Property.id property) s)))).
    { apply filter_In. split; [exact Hsaved|].
      rewrite Hu, Hp, Hid, !Z.eqb_refl. reflexivity. }
    now rewrite rows_of_unsaveProperty in Hrow.
  - intros p Hp. unfold listed in Hp.
    apply in_map_iff in Hp as ([saved p'] & Hsnd & Hin). simpl in Hsnd. subst p'.
    apply (proj2 (getSavedProperties_result_rows _ userId)) in Hin
      as (Hsaved & Hprop & Hu & Hp).
    split; [exact Hprop|]. intro Hnone.
    assert (Hrow : In saved (History.rows_of userId (Schema.Property.id p) s)).
    { apply filter_In. split; [exact Hsaved|].
      rewrite Hu, Hp, !Z.eqb_refl. reflexivity. }
    now rewrite Hnone in Hrow.
  - unfold listed. f_equal.
    destruct (History.rows_of userId (Schema.Property.id property) s)
      as [|x xs] eqn:H0.
    + rewrite (saveProperty_absent now v s H0).
      unfold Storage.insert_savedProperties, Drizzle.insert_returning.
      cbn [snd database].
      eapply getSavedProperties_result_other; [|reflexivity].
      simpl. congruence.
    + now rewrite (saveProperty_found now v s x xs H0).
Qed.

(** [alice] saves the seeded property; [admin]'s list stays empty. *)
Lemma saved_list_follows_witness :
  In Sample.skyline
     (map snd
        (Storage.getSavedProperties_result 1
           (database (snd (Storage.saveProperty 3000
              {| Schema.InsertSavedProperty.userId := 1;
                 Schema.InsertSavedProperty.propertyId := 1 |}
              Sample.server))))).
Proof.
  assert (Hstored : In Sample.skyline
            (Schema.rows (Schema.properties (database Sample.server))))
    by (now left).
  assert (Hother : 2 <> 1) by discriminate.
  exact (proj1 (proj2 (saved_list_follows 3000 1 2 Sample.skyline
                         Sample.server Hstored Hother))).
Defined.
